(* ===== verification/_CoqProject ===== *)
-Q . S2P
Prelude.v
Js.v
Api.v
Session.v
Task.v
CreateTask.v
PageFetch.v
TasksPage.v
Analytics.v
Backend.v
TaskDetails.v
Kanban.v
TasksTable.v
TaskList.v
Board.v
EditDelete.v
Theme.v
Layout.v
UI.v
Timer.v
Routes.v
