(* ===== verification/Prelude.v ===== *)
(** * A verification library for the smart-task-manager front end

    The repository is a React single-page client of a remote task API
    (src/src/**.jsx, src/src/services/api.js).  Its parts and how they
    interact: a session provider (context/AuthContext.jsx) keeps the token
    in [localStorage]; the routed pages (pages/*.jsx) read that token and
    talk to the server, either through the helper of services/api.js or,
    for most pages, with an inline [fetch]; the pages hold the server's
    tasks in React state and reload them after each write.  The
    development models each part as it is written and proves what makes it
    correct, one file per part, in dependency order:

    - [Prelude.v] (this file): libraries, the scope [tm_scope], the hint
      databases [tm] and [tm_rw], the tactic [tm_crush], [Math.round] of a
      ratio ([round_ratio]) and [filter(...).length] ([count_by]).
    - [Js.v]: the browser runtime: UTF-16 strings with [trim], truthiness,
      [fetch] outcomes and [Response.ok], [localStorage] as a [gmap],
      navigation and [alert] as effects.
    - [Api.v]: services/api.js.  [Class Transport] / [TransportLaws] state
      what a request wrapper promises (bearer header, forced logout on
      401); [Module Api] implements it and discharges the laws.
    - [Session.v]: AuthContext.jsx: [validateToken], [login], [register],
      [logout], and the whole client as a step function over the arrivals
      of replies ([step], [run], [reachable]), proved against any lawful
      [Transport].
    - [Task.v]: the task record, status/priority codes, the date
      arithmetic of [new Date('YYYY-MM-DD')] and local midnight.
    - [CreateTask.v]: CreateTask.jsx: [handleChange] with the inputs'
      [maxLength], [validateForm], [handleSubmit] split at its [await].
    - [PageFetch.v]: the inline fetch idiom of the pages, as a
      [Transport] instance that is proved not lawful.
    - [TasksPage.v], [Analytics.v]: Tasks.jsx, Analytics.jsx and
      Dashboard.jsx: loading, badges, [isOverdue], rates, insights and
      the dashboard's chart counts.
    - [Backend.v]: the server's contract from spec section 6 as
      [Class Backend] / [BackendLaws] (read after write), and an in-memory
      instance [MemoryBackend] that satisfies it.
    - [TaskDetails.v]: TaskDetails.jsx: [fetchTaskDetails], every mutation
      handler split at its [await] with the shared tail [mutation_reply],
      the edit form, the timer and [formatTime], the page as [step].
    - [Kanban.v]: KanbanBoard.jsx with TaskModal.jsx.  The modal writes
      into subtask objects it shares with the board, so task objects hold
      locations into a heap ([gmap positive subtask]); each write is
      applied by a [Backend] and followed by the reload; the modal's
      markup is read through the same heap.
    - [TasksTable.v]: TasksTable.jsx: search and status filters, the
      stable sort of [Array.prototype.sort] ([sort_by]), due-date labels.
    - [TaskList.v]: TaskList.jsx: delete handlers that filter the list
      their closure captured, as a step function over clicks and replies.
    - [Board.v]: Board.jsx, whose moves call an unbound identifier, and
      TaskCard.jsx's status cycle and markup.
    - [EditDelete.v]: EditTask.jsx and DeleteTask.jsx; the edit panel
      also as a flow against the in-memory server, whose requests the
      server applies in any order ([EditTask.step]).
    - [Theme.v]: the [darkMode]/[theme] settings of App.jsx,
      ThemeContext.jsx, ThemeButton.jsx, TopHeader.jsx (with its profile
      modal) and ThemeToggle.jsx, and ProfilePanel.jsx.
    - [Layout.v]: Sidebar.jsx, Layout.jsx (Sidebar and TopHeader
      around the content) and Home.jsx.
    - [UI.v]: the class-building wrappers of components/ui/.
    - [Timer.v]: the [timerRunning] effect of TaskDetails.jsx with the
      cleanup closure React keeps from the render that ran it, the
      browser's live intervals, ticks and unmount ([TaskTimer.step]).
    - [Routes.v]: App.jsx's [<Routes>] table with react-router's matching
      of path segments ([Routes.resolve]), Navbar.jsx, the links of the
      pages, and the application shell: a location, the
      dark-mode flag, the session and [localStorage], moved by a step
      relation [Shell.step] whose rules are the Navbar's clicks, the
      pages' buttons and the navigations that the session, api.js,
      CreateTask and TaskDetails perform when their requests settle.

    Handlers that await a request are split at the [await]: the request is
    a function of the state when the handler runs, the rest a function of
    the reply and of the state when the reply arrives.

    Theorem groups: the bearer header and the 401 rule of api.js ([Api]);
    the token invariant of every reachable session state, what
    authenticates, late replies after logout, and stale validation replies
    ([Session]); the exact acceptance conditions of [validateForm],
    including the time-zone and padding findings ([CreateTask]); the pages'
    401 handling ([PageFetch], [TasksPage]); rate bounds and counts
    ([Analytics]); the detail page's invariant, the [formatTime] round
    trip, its guards and spec section 8's toggle-then-reload property
    against [BackendLaws] ([TaskDetails]); the board's heap invariant,
    drag-then-reload, [calcProgress] bounds, and two findings on the
    modal's stale and shared objects ([Kanban]); the table's filtered list
    is a sorted permutation of the matching tasks and its overdue label
    disagrees with the list's ([TasksTable]); concurrent deletes restore
    a deleted task ([TaskList]); reloads restore the theme ([Theme]);
    one live interval while the timer runs, its leak on unmount, and its
    progress of one second per tick ([Timer]); every location the shell
    reaches from a routed one shows a page, opening a task fetches that
    task, and the links of the table, the list and the sidebar lead
    nowhere ([Routes]); an add and a save in flight together lose the
    new subtask when the server applies the add first ([EditDelete]);
    three Next Status clicks with their reloads return a card to its
    status through any server meeting [BackendLaws] ([Board]).  Properties with
    hypotheses have witnesses run against concrete inputs and the
    in-memory server.

    Bounds and fuel: the only fuel is that of [Js.digits_rev], which
    [show_nat] gives [n + 1] steps for [n], more than its decimal digits;
    [Js.digits_ref] is the same recursion by well-founded recursion on
    [n] ([Function] with a measure), and [TaskDetails.formatTime_total]
    proves the fuelled rendering equal to it for every count.
    Integers are [Z]; the counts of this client are small, and
    [round_ratio] rounds the exact ratio (the double-precision product
    rounds the same way for fewer than 200 subtasks or tasks, the bound
    the theorems state).  The [formatTime] round trip is proved for
    counts below 360000 seconds, where hours have two digits.

    Modelling choices: user-typed strings are lists of UTF-16 code units
    ([jsstr]); tokens and messages are [string]s.  Hard navigation reloads
    the page and remounts the provider from [localStorage].  [getTasks] and
    [updateTask], which api.js does not export, are modelled by the server
    contract.

    Not modelled: markup and styling beyond the values views compute, the
    chart and drag-and-drop libraries, react-router beyond the segment
    matching of its [<Routes>] (case-insensitive matching, ranking, query
    strings and history; the table has no two routes that match one
    path, so first-match is its ranking here), [ProtectedRoute], Login
    and Register, which App.jsx imports but the repository does not hold,
    console logging, the DOM class changes of the theme code (kept as
    booleans), the names of [Object.prototype] as a Badge [variant], and
    the server itself (an
    external collaborator, specified by [BackendLaws]). *)

From stdpp Require Export base gmap strings list options.
From Stdlib Require Export ZArith Lia Bool.
Export ListNotations.

Declare Scope tm_scope.
Delimit Scope tm_scope with tm.
Open Scope tm_scope.
Open Scope Z_scope.

Create HintDb tm discriminated.
Create Rewrite HintDb tm_rw.

(** ** Rounding a ratio the way [Math.round(n / d * k)] does

    [Math.round] rounds half up.  The exact rational [n / d * k] is
    rounded here; for the small counts of this client the double-precision
    product has the same rounding. *)

Definition round_ratio (k n d : Z) : Z := (2 * k * n + d) / (2 * d).

(** JavaScript [Array.prototype.filter(...).length] with a boolean
    predicate. *)
Definition count_by {A} (p : A -> bool) (l : list A) : Z :=
  Z.of_nat (length (List.filter p l)).

Section Rounding.
#[local] Set Default Proof Using "Type*".
Context (k n d : Z).
Hypothesis Hk : 0 <= k.
Hypothesis Hd : 0 < d.

Lemma round_ratio_nonneg : 0 <= n -> 0 <= round_ratio k n d.
Proof. intros Hn. unfold round_ratio. apply Z.div_pos; nia. Qed.

Lemma round_ratio_le : n <= d -> round_ratio k n d <= k.
Proof.
  intros Hn. unfold round_ratio.
  enough ((2 * k * n + d) / (2 * d) < k + 1) by lia.
  apply Z.div_lt_upper_bound; nia.
Qed.

Lemma round_ratio_full : round_ratio k d d = k.
Proof.
  unfold round_ratio.
  replace (2 * k * d + d) with (k * (2 * d) + d) by ring.
  rewrite Z.div_add_l by lia. rewrite Z.div_small by lia. lia.
Qed.

Lemma round_ratio_zero : round_ratio k 0 d = 0.
Proof. unfold round_ratio. rewrite Z.mul_0_r, Z.add_0_l. apply Z.div_small; lia. Qed.
End Rounding.

Lemma round_ratio_mono k n1 n2 d :
  0 <= k -> 0 < d -> n1 <= n2 -> round_ratio k n1 d <= round_ratio k n2 d.
Proof. intros. unfold round_ratio. apply Z.div_le_mono; nia. Qed.

(** ** Lists *)

Lemma count_by_app {A} (p : A -> bool) l1 l2 :
  count_by p (l1 ++ l2) = count_by p l1 + count_by p l2.
Proof. unfold count_by. rewrite List.filter_app, length_app. lia. Qed.

Lemma count_by_bounds {A} (p : A -> bool) l :
  0 <= count_by p l <= Z.of_nat (length l).
Proof.
  unfold count_by. split; [lia|].
  induction l as [|x l IH]; simpl; [lia|]. destruct (p x); simpl; lia.
Qed.

Lemma count_by_cons {A} (p : A -> bool) x l :
  count_by p (x :: l) = (if p x then 1 else 0) + count_by p l.
Proof. unfold count_by. simpl. destruct (p x); simpl; lia. Qed.

(** Every element passes exactly when the count is the length. *)
Lemma count_by_full {A} (p : A -> bool) l :
  count_by p l = Z.of_nat (length l) <-> Forall (fun x => p x = true) l.
Proof.
  induction l as [|x l IH]; [split; auto|]. rewrite count_by_cons, Forall_cons, <- IH.
  pose proof (count_by_bounds p l). simpl length. destruct (p x); split; try lia; intuition lia.
Qed.

#[export] Hint Rewrite @count_by_app @count_by_cons : tm_rw.
#[export] Hint Resolve round_ratio_nonneg round_ratio_le round_ratio_mono : tm.

(** ** Tactics *)

(** Case on every boolean test and match in the goal, then close with the
    rewrite database, stdpp's [done], or arithmetic. *)
Ltac tm_crush :=
  repeat (simpl in *; try case_match; simplify_eq);
  autorewrite with tm_rw in *; try done; try lia.
