(* ===== verification/Js.v ===== *)
(** The JavaScript and browser runtime the client code relies on:
    UTF-16 strings with [trim] and [length], truthiness of the values the
    code tests with [if (x)] and [x || d], the outcome of [fetch] with
    [Response.ok] and [response.json()], [localStorage] as a finite map,
    and the observable effects of a handler (router navigation, hard
    navigation, [alert]).  These are browser APIs, not code of the
    repository: the components are modelled on top of them. *)

From S2P Require Import Prelude.
From Stdlib Require Import Recdef.
Open Scope Z_scope.

(** ** Strings *)

(** A JavaScript string as the list of its UTF-16 code units. *)
Abbreviation jsstr := (list Z).

(** An ASCII literal of the source as a JavaScript string. *)
Definition js (s : string) : jsstr :=
  map (fun c => Z.of_nat (Ascii.nat_of_ascii c)) (String.list_ascii_of_string s).

(** [String.prototype.length]: the number of code units. *)
Definition js_length (s : jsstr) : Z := Z.of_nat (length s).

(** The code units [String.prototype.trim] strips: ECMAScript WhiteSpace
    (TAB, VT, FF, SP, NBSP, ZWNBSP and the Zs category) and LineTerminator
    (LF, CR, LS, PS). *)
Definition is_js_space (c : Z) : bool :=
  (c =? 9) || (c =? 10) || (c =? 11) || (c =? 12) || (c =? 13) ||
  (c =? 32) || (c =? 160) || (c =? 5760) ||
  ((8192 <=? c) && (c <=? 8202)) ||
  (c =? 8232) || (c =? 8233) || (c =? 8239) || (c =? 8287) ||
  (c =? 12288) || (c =? 65279).

Fixpoint drop_spaces (s : jsstr) : jsstr :=
  match s with
  | [] => []
  | c :: s' => if is_js_space c then drop_spaces s' else s
  end.

Definition js_trim (s : jsstr) : jsstr := rev (drop_spaces (rev (drop_spaces s))).

(** Truthiness of a string: only [""] is falsy. *)
Definition str_truthy (s : string) : bool := negb (String.eqb s "").
Definition jsstr_truthy (s : jsstr) : bool := negb (bool_decide (s = [])).

(** Truthiness of a value that may be [undefined] or [null]. *)
Definition opt_truthy (o : option string) : bool :=
  match o with Some s => str_truthy s | None => false end.

(** [a || d] on a value that may be missing. *)
Definition js_or (o : option string) (d : string) : string :=
  match o with Some s => if str_truthy s then s else d | None => d end.

(** [String(x)] of a value that may be [undefined]: what
    [localStorage.setItem] and template literals store. *)
Definition js_string_of (o : option string) : string :=
  match o with Some s => s | None => "undefined" end.

(** Template literal [`${x}`] of a value read from [localStorage], which is
    [null] when the key is absent. *)
Definition js_template_nullable (o : option string) : string :=
  match o with Some s => s | None => "null" end.

Notation "a '||ₛ' d" := (js_or a d) (at level 50, left associativity) : tm_scope.

(** ** Decimal rendering of integers ([String(n)], [toString()]) *)

Fixpoint digits_rev (fuel : nat) (n : Z) : list Ascii.ascii :=
  match fuel with
  | O => []
  | S f =>
      Ascii.ascii_of_nat (48 + Z.to_nat (n mod 10)) ::
        (if n <? 10 then [] else digits_rev f (n / 10))
  end.

(** A non-negative integer in decimal.  [Z.to_nat n + 1] digits of fuel
    are more than a decimal rendering needs. *)
Definition show_nat (n : Z) : string :=
  String.string_of_list_ascii (rev (digits_rev (S (Z.to_nat n)) n)).

Definition show_Z (n : Z) : string :=
  if n <? 0 then "-" +:+ show_nat (- n) else show_nat n.

(** The digits of a non-negative integer, least significant first, by
    well-founded recursion on its value: the reference [digits_rev] is
    compared with. *)
Function digits_ref (n : Z) {measure Z.to_nat n} : list Ascii.ascii :=
  if n <? 10 then [Ascii.ascii_of_nat (48 + Z.to_nat (n mod 10))]
  else Ascii.ascii_of_nat (48 + Z.to_nat (n mod 10)) :: digits_ref (n / 10).
Proof.
  intros n Hn. apply Z.ltb_ge in Hn. apply Z2Nat.inj_lt; [apply Z.div_pos; lia|lia|].
  apply Z.div_lt; lia.
Defined.

(** ** fetch *)

(** The body parsed by [response.json()]: a value of the expected shape,
    or a parse failure (the promise rejects with a [SyntaxError]). *)
Inductive json_body (A : Type) :=
| JsonOk (a : A)
| JsonBad (msg : string).
Arguments JsonOk {A} a.
Arguments JsonBad {A} msg.

Record response (A : Type) := mkResponse {
  res_status : Z;
  res_body : json_body A;
}.
Arguments mkResponse {A} res_status res_body.
Arguments res_status {A} r.
Arguments res_body {A} r.

(** What the promise returned by [fetch] settles to: a network failure
    (it rejects with a [TypeError]) or a response. *)
Inductive fetch_outcome (A : Type) :=
| NetworkError (msg : string)
| Responded (r : response A).
Arguments NetworkError {A} msg.
Arguments Responded {A} r.

(** [Response.ok]: the status is in 200..299. *)
Definition res_ok {A} (r : response A) : bool :=
  (200 <=? res_status r) && (res_status r <=? 299).

(** How an [async] function or a promise settles. *)
Inductive promise (A : Type) :=
| Resolved (a : A)
| Rejected (msg : string).
Arguments Resolved {A} a.
Arguments Rejected {A} msg.

(** ** Requests *)

Inductive http_method := GET | POST | PUT | DELETE.

#[export] Instance http_method_eq_dec : EqDecision http_method.
Proof. solve_decision. Defined.

(** A request as [fetch(url, { method, headers, body })] sends it; the
    body is the value passed to [JSON.stringify]. *)
Record request (B : Type) := mkRequest {
  rq_method : http_method;
  rq_url : string;
  rq_headers : list (string * string);
  rq_body : option B;
}.
Arguments mkRequest {B} rq_method rq_url rq_headers rq_body.
Arguments rq_method {B} r.
Arguments rq_url {B} r.
Arguments rq_headers {B} r.
Arguments rq_body {B} r.

(** The value of a header, as [Headers.get] would return it. *)
Definition header (name : string) (hs : list (string * string)) : option string :=
  snd <$> List.find (fun h => String.eqb (fst h) name) hs.

(** ** localStorage and navigation *)

(** [window.localStorage]: string keys to string values. *)
Abbreviation storage := (gmap string string).

(** The observable effects of a handler, in the order it performs them. *)
Inductive effect :=
| Navigate (path : string)       (** [navigate(path)] of react-router *)
| HardNavigate (path : string)   (** [window.location.href = path]: reloads *)
| Alert (msg : string).          (** [alert(msg)] *)

#[export] Instance effect_eq_dec : EqDecision effect.
Proof. solve_decision. Defined.

(** ** Lemmas *)

Lemma str_truthy_true s : str_truthy s = true <-> s <> "".
Proof.
  unfold str_truthy. rewrite negb_true_iff, String.eqb_neq. done.
Qed.

Lemma opt_truthy_Some o : opt_truthy o = true -> exists s, o = Some s /\ s <> "".
Proof.
  destruct o as [s|]; simpl; [|done]. intros H. exists s. split; [done|].
  by apply str_truthy_true.
Qed.

Lemma js_or_truthy o d : opt_truthy o = true -> exists s, o = Some s /\ js_or o d = s.
Proof.
  destruct o as [s|]; simpl; [|done]. intros H. exists s. by rewrite H.
Qed.

Lemma header_cons_eq n v hs : header n ((n, v) :: hs) = Some v.
Proof. unfold header. simpl. by rewrite String.eqb_refl. Qed.

Lemma header_cons_ne n n' v hs : n' <> n -> header n ((n', v) :: hs) = header n hs.
Proof.
  intros Hne. unfold header. simpl.
  destruct (String.eqb_spec n' n); [done|]. reflexivity.
Qed.

Lemma drop_spaces_nil_iff s : drop_spaces s = [] <-> Forall (fun c => is_js_space c = true) s.
Proof.
  induction s as [|c s IH]; simpl; [split; auto|].
  destruct (is_js_space c) eqn:E.
  - rewrite IH. split; [by constructor|]. by inversion 1.
  - split; [done|]. inversion 1; congruence.
Qed.

Lemma drop_spaces_head s :
  drop_spaces s = [] \/ exists c t, drop_spaces s = c :: t /\ is_js_space c = false.
Proof.
  induction s as [|c s IH]; simpl; [by left|].
  destruct (is_js_space c) eqn:E; [done|]. right. eauto.
Qed.

(** [s.trim()] is empty exactly when every code unit of [s] is a space. *)
Lemma js_trim_nil_iff s : js_trim s = [] <-> Forall (fun c => is_js_space c = true) s.
Proof.
  unfold js_trim. split.
  - intros H. apply (f_equal (@rev Z)) in H. rewrite rev_involutive in H. simpl in H.
    apply drop_spaces_nil_iff, Forall_rev in H. rewrite rev_involutive in H.
    apply drop_spaces_nil_iff.
    destruct (drop_spaces_head s) as [E|(c & t & E & Hc)]; [done|].
    rewrite E in H. inversion H; congruence.
  - intros H. apply drop_spaces_nil_iff in H. by rewrite H.
Qed.

(** *** Decimal rendering *)

(** [digits_rev] has enough fuel once it exceeds the value. *)
Lemma digits_rev_enough n fuel :
  0 <= n -> (Z.to_nat n < fuel)%nat -> digits_rev fuel n = digits_ref n.
Proof.
  revert fuel. functional induction (digits_ref n) as [n Hlt|n Hge IH];
    intros [|f] Hn Hf; try lia; simpl.
  - by rewrite Hlt.
  - rewrite Hge. f_equal. apply IH; [apply Z.div_pos; lia|].
    apply Z.ltb_ge in Hge. assert (n / 10 < n) by (apply Z.div_lt; lia). lia.
Qed.

(** The value of a list of decimal digits, least significant first. *)
Definition digits_value_rev (l : list Ascii.ascii) : Z :=
  fold_right (fun c acc => (Z.of_nat (Ascii.nat_of_ascii c) - 48) + 10 * acc) 0 l.

Lemma digits_value_rev_cons c l :
  digits_value_rev (c :: l) = (Z.of_nat (Ascii.nat_of_ascii c) - 48) + 10 * digits_value_rev l.
Proof. reflexivity. Qed.

Lemma digit_char_value n : 0 <= n ->
  Z.of_nat (Ascii.nat_of_ascii (Ascii.ascii_of_nat (48 + Z.to_nat (n mod 10)))) - 48 = n mod 10.
Proof.
  intros Hn. pose proof (Z.mod_pos_bound n 10 ltac:(lia)).
  rewrite Ascii.nat_ascii_embedding by lia. lia.
Qed.

Lemma list_ascii_of_string_app s t :
  String.list_ascii_of_string (s +:+ t) =
  String.list_ascii_of_string s ++ String.list_ascii_of_string t.
Proof. induction s as [|a s IH]; simpl; [done|]. by rewrite IH. Qed.

(** The path separator ['/']. *)
Definition slash : Ascii.ascii := Ascii.ascii_of_nat 47.

Lemma digits_ref_chars n :
  digits_ref n <> [] /\ Forall (fun c => c <> slash) (digits_ref n).
Proof.
  assert (Hd : forall m, Ascii.ascii_of_nat (48 + Z.to_nat (m mod 10)) <> slash).
  { intros m. pose proof (Z.mod_pos_bound m 10 ltac:(lia)). unfold slash. intros Heq.
    apply (f_equal Ascii.nat_of_ascii) in Heq.
    rewrite !Ascii.nat_ascii_embedding in Heq by lia. lia. }
  functional induction (digits_ref n) as [n _|n _ [_ IH]];
    split; try done; constructor; auto.
Qed.

(** [String(n)] is never empty and never holds a ['/']. *)
Lemma show_Z_chars i :
  String.list_ascii_of_string (show_Z i) <> [] /\
  Forall (fun c => c <> slash) (String.list_ascii_of_string (show_Z i)).
Proof.
  assert (Hn : forall n, 0 <= n ->
    String.list_ascii_of_string (show_nat n) <> [] /\
    Forall (fun c => c <> slash) (String.list_ascii_of_string (show_nat n))).
  { intros n Hn. unfold show_nat. rewrite digits_rev_enough by lia.
    rewrite String.list_ascii_of_string_of_list_ascii.
    destruct (digits_ref_chars n) as [Hne Hc]. split.
    - intros Hr. apply Hne. apply (f_equal (@rev _)) in Hr. by rewrite rev_involutive in Hr.
    - apply Forall_rev. eapply Forall_impl; [exact Hc|]. naive_solver. }
  unfold show_Z. destruct (i <? 0) eqn:Hi; [|apply Hn; lia].
  apply Z.ltb_lt in Hi. destruct (Hn (- i) ltac:(lia)) as [_ Hc].
  rewrite list_ascii_of_string_app. split; [done|]. by constructor.
Qed.

(** Termination of the decimal rendering: for every non-negative [n],
    the fuel [show_nat] gives its loop never runs out: the text is that of
    the well-founded reference [digits_ref], and its digits read back as
    [n]. *)
Lemma show_nat_total n :
  0 <= n ->
  show_nat n = String.string_of_list_ascii (rev (digits_ref n)) /\
  digits_value_rev (digits_ref n) = n.
Proof.
  intros Hn. split; [unfold show_nat; rewrite digits_rev_enough; [done|lia|lia]|].
  functional induction (digits_ref n) as [n Hlt|n Hge IH]; rewrite digits_value_rev_cons.
  - apply Z.ltb_lt in Hlt. change (digits_value_rev []) with 0. rewrite digit_char_value by lia. rewrite Z.mod_small; lia.
  - apply Z.ltb_ge in Hge. rewrite digit_char_value, IH by (try apply Z.div_pos; lia).
    pose proof (Z.div_mod n 10 ltac:(lia)). lia.
Qed.

#[export] Hint Rewrite header_cons_eq : tm_rw.
#[export] Hint Resolve str_truthy_true : tm.
