(* ===== verification/Api.v ===== *)
(** The shared HTTP helper of src/src/services/api.js.

    [api.get], [api.post], [api.put] and [api.delete] build the same
    request (JSON content type, the bearer header read from [localStorage]
    by [getAuthHeader]), await [fetch], and on a 401 reply remove the
    stored token, hard-navigate to /login and throw.  Each is modelled as a
    [call]: the request it sends, computed from the storage when it is
    issued, and the function that resumes it after the [await], applied to
    the reply and to the storage when the reply arrives.

    The interface [Transport]/[TransportLaws] states what a request
    wrapper promises the session manager (spec section 4.1: every request
    carries the bearer credential and every 401 forces a logout); api.js
    is an instance of it. *)

From S2P Require Import Prelude Js.
Open Scope Z_scope.

(** An [async] request helper suspended at its [await fetch(...)]. *)
Record call (B A : Type) := mkCall {
  call_request : request B;
  call_resume : fetch_outcome A -> storage -> storage * list effect * promise (response A);
}.
Arguments mkCall {B A} call_request call_resume.
Arguments call_request {B A} c.
Arguments call_resume {B A} c.

(** ** The interface of a request wrapper *)

Class Transport := {
  tr_send : forall {B}, http_method -> string -> option B -> storage -> request B;
  tr_resume : forall {A}, fetch_outcome A -> storage -> storage * list effect * promise (response A);
}.

Definition bearer (t : string) : string := "Bearer " +:+ t.

Class TransportLaws `{Transport} := {
  (** a non-empty stored token is sent as a bearer credential *)
  tr_bearer : forall B m ep (d : option B) σ t,
    σ !! "token" = Some t -> t <> "" ->
    header "Authorization" (rq_headers (tr_send m ep d σ)) = Some (bearer t);
  (** a 401 reply removes the stored token and leaves the app for /login *)
  tr_forced_logout : forall A (r : response A) σ,
    res_status r = 401 ->
    (tr_resume (Responded r) σ).1.1 !! "token" = None /\
    HardNavigate "/login" ∈ (tr_resume (Responded r) σ).1.2;
  (** resuming never stores a token of its own, and removes one only while
      leaving the app *)
  tr_token_kept_or_logout : forall A (o : fetch_outcome A) σ,
    (tr_resume o σ).1.1 !! "token" = σ !! "token" \/
    ((tr_resume o σ).1.1 !! "token" = None /\
     HardNavigate "/login" ∈ (tr_resume o σ).1.2);
}.

(** ** services/api.js *)

Module Api.
Section Api.
(** [import.meta.env.VITE_API_URL], fixed at build time; [None] when the
    variable is not set. *)
Context (VITE_API_URL : option string).

(** [const API_BASE_URL = import.meta.env.VITE_API_URL;]: no fallback, so
    the template literal renders an unset variable as ["undefined"]. *)
Definition API_BASE_URL : string := js_string_of VITE_API_URL.

Definition getAuthHeader (σ : storage) : list (string * string) :=
  match σ !! "token" with
  | Some token => if str_truthy token then [("Authorization", bearer token)] else []
  | None => []
  end.

Definition api_headers (σ : storage) : list (string * string) :=
  ("Content-Type", "application/json") :: getAuthHeader σ.

(** The part of every helper before its [await]. *)
Definition api_send {B} (m : http_method) (endpoint : string) (data : option B)
    (σ : storage) : request B :=
  mkRequest m (API_BASE_URL +:+ endpoint) (api_headers σ) data.

(** The part of every helper after its [await]: a rejected [fetch]
    propagates, a 401 clears the token, redirects and throws, any other
    response (including 4xx and 5xx) is returned. *)
Definition api_resume {A} (o : fetch_outcome A) (σ : storage)
    : storage * list effect * promise (response A) :=
  match o with
  | NetworkError msg => (σ, [], Rejected msg)
  | Responded response =>
      if res_status response =? 401
      then (delete "token" σ, [HardNavigate "/login"], Rejected "Unauthorized")
      else (σ, [], Resolved response)
  end.

Definition api_get {A} (endpoint : string) (σ : storage) : call unit A :=
  mkCall (api_send GET endpoint None σ) api_resume.

Definition api_post {A B} (endpoint : string) (data : B) (σ : storage) : call B A :=
  mkCall (api_send POST endpoint (Some data) σ) api_resume.

Definition api_put {A B} (endpoint : string) (data : B) (σ : storage) : call B A :=
  mkCall (api_send PUT endpoint (Some data) σ) api_resume.

Definition api_delete {A} (endpoint : string) (σ : storage) : call unit A :=
  mkCall (api_send DELETE endpoint None σ) api_resume.

#[export] Instance api_transport : Transport := {|
  tr_send := @api_send;
  tr_resume := @api_resume;
|}.
(** ** Lemmas *)

Lemma api_headers_auth σ :
  header "Authorization" (api_headers σ) = header "Authorization" (getAuthHeader σ).
Proof. unfold api_headers. by rewrite header_cons_ne. Qed.

Lemma getAuthHeader_spec σ v :
  header "Authorization" (getAuthHeader σ) = Some v <->
  exists t, σ !! "token" = Some t /\ t <> "" /\ v = bearer t.
Proof.
  unfold getAuthHeader. destruct (σ !! "token") as [t|]; [|unfold header; naive_solver].
  destruct (str_truthy t) eqn:T.
  - rewrite header_cons_eq. apply str_truthy_true in T. naive_solver.
  - unfold header; simpl. split; [done|].
    intros (t' & [= <-] & Hne & _). apply str_truthy_true in Hne. congruence.
Qed.

Lemma api_resume_unauthorized {A} (r : response A) σ :
  res_status r = 401 ->
  api_resume (Responded r) σ = (delete "token" σ, [HardNavigate "/login"], Rejected "Unauthorized").
Proof. intros H. simpl. by rewrite H. Qed.

Lemma api_resume_other {A} (r : response A) σ :
  res_status r <> 401 -> api_resume (Responded r) σ = (σ, [], Resolved r).
Proof. intros H. simpl. by rewrite (proj2 (Z.eqb_neq _ _) H). Qed.

#[export] Instance api_transport_laws : TransportLaws.
Proof.
  split.
  - intros B m ep d σ t Ht Hne. simpl. rewrite api_headers_auth.
    apply getAuthHeader_spec. eauto.
  - intros A r σ H. cbn [tr_resume api_transport]. rewrite api_resume_unauthorized by done.
    simpl. split; [apply lookup_delete_eq|by left].
  - intros A [m|r] σ; [by left|].
    destruct (decide (res_status r = 401)).
    + right. cbn [tr_resume api_transport]. rewrite api_resume_unauthorized by done.
      split; [apply lookup_delete_eq|by left].
    + left. cbn [tr_resume api_transport]. by rewrite api_resume_other.
Qed.

(** C10: the request every helper sends carries [Authorization: Bearer t]
    exactly when a non-empty token [t] is stored at the time the helper
    is called. *)
Theorem api_send_bearer_iff {B} m endpoint (data : option B) σ v :
  header "Authorization" (rq_headers (api_send m endpoint data σ)) = Some v <->
  exists t, σ !! "token" = Some t /\ t <> "" /\ v = bearer t.
Proof. simpl. rewrite api_headers_auth. apply getAuthHeader_spec. Qed.

(** C9: whatever the method and endpoint, a 401 reply removes the stored
    token and nothing else, hard-navigates to /login, and rejects with
    [Unauthorized]; the persisted [username] survives. *)
Theorem api_resume_401 {A} (r : response A) σ :
  res_status r = 401 ->
  let '(σ', effs, p) := api_resume (Responded r) σ in
  σ' !! "token" = None /\
  (forall k, k <> "token" -> σ' !! k = σ !! k) /\
  effs = [HardNavigate "/login"] /\ p = Rejected "Unauthorized".
Proof.
  intros H. rewrite api_resume_unauthorized by done.
  split; [apply lookup_delete_eq|]. split; [|done].
  intros k Hk. by apply lookup_delete_ne.
Qed.

(** C11: the promise of a helper rejects exactly on a network failure or a
    401 reply; every other status, 4xx and 5xx included, resolves with the
    response and leaves storage and navigation alone, so callers have to
    test [response.ok] themselves. *)
Theorem api_resume_rejects_iff {A} (o : fetch_outcome A) σ :
  (exists msg, (api_resume o σ).2 = Rejected msg) <->
  (exists msg, o = NetworkError msg) \/ (exists r, o = Responded r /\ res_status r = 401).
Proof.
  destruct o as [m|r]; [simpl; naive_solver|].
  destruct (decide (res_status r = 401)) as [H|H].
  - rewrite api_resume_unauthorized by done. naive_solver.
  - rewrite api_resume_other by done. naive_solver.
Qed.

(** The URL is the base URL followed by the endpoint. *)
Lemma api_send_url {B} m endpoint (data : option B) σ :
  rq_url (api_send m endpoint data σ) = API_BASE_URL +:+ endpoint.
Proof. reflexivity. Qed.
End Api.

(** with [VITE_API_URL] unset at build time, api.js sends its
    requests to a relative URL starting with [undefined]: unlike the pages,
    which fall back to http://localhost:8080, it has no default. *)
Theorem api_url_without_env {B} m endpoint (data : option B) σ :
  rq_url (api_send None m endpoint data σ) = "undefined" +:+ endpoint.
Proof. reflexivity. Qed.
Lemma api_resume_401_witness :
  let '(σ', effs, p) :=
    api_resume (Responded (mkResponse 401 (@JsonBad unit "")))
      (<["username" := "bob"]> (<["token" := "t"]> ∅)) in
  σ' !! "token" = None /\
  (forall k, k <> "token" -> σ' !! k = (<["username" := "bob"]> (<["token" := "t"]> ∅) : storage) !! k) /\
  effs = [HardNavigate "/login"] /\ p = Rejected "Unauthorized".
Proof. apply (api_resume_401 (mkResponse 401 (@JsonBad unit ""))). reflexivity. Defined.
End Api.
