(* ===== verification/Session.v ===== *)
(** The session manager of src/src/context/AuthContext.jsx.

    [AuthProvider] keeps three pieces of React state ([user], [token],
    [loading]), seeded from [localStorage] when it mounts, and offers
    [login], [register] and [logout]; on mount it calls [validateToken]
    when a token is stored.  Every async handler is split at its [await]:
    the request it sends ([*_request]) and the rest of the handler, applied
    to the reply and to the state when the reply arrives ([validateToken],
    [login], [register]).

    Section [Client] puts the provider together with [localStorage] and the
    requests in flight into a step system: an event is the arrival of a
    reply (of the validation, of a login or registration, of any request
    sent through a [Transport] such as services/api.js), an explicit
    [logout], or a page reload.  Its invariants are proved by rule
    induction over [reachable], and the orderings of replies the code does
    not guard against are exhibited as runs. *)

From S2P Require Import Prelude Js Api.
Open Scope Z_scope.

Module Session.

(** ** Data *)

(** The JSON body of /auth/login and /auth/register replies; a field the
    server leaves out is [None] ([undefined]). *)
Record auth_reply := mkAuthReply {
  data_token : option string;
  data_username : option string;
  data_message : option string;
}.

(** The JSON body of an /auth/validate reply. *)
Record validate_reply := mkValidateReply { data_valid_username : option string }.

(** The body of a credential request: [JSON.stringify({ username, password })]. *)
Record credentials := mkCredentials { cred_username : string; cred_password : string }.

(** [setUser({ username: data.username })]. *)
Record user_obj := mkUser { username : option string }.

(** The state of [AuthProvider]: [user], [token], [loading]. *)
Record auth_state := mkAuth {
  user : option user_obj;
  token : option string;
  loading : bool;
}.

(** What [login] and [register] resolve to: [{ success: true }] or
    [{ success: false, message }]. *)
Inductive auth_result :=
| AuthSuccess
| AuthFailure (message : string).

Definition set_loading (b : bool) (st : auth_state) : auth_state :=
  mkAuth (user st) (token st) b.

Definition set_user (u : option user_obj) (st : auth_state) : auth_state :=
  mkAuth u (token st) (loading st).

(** [isAuthenticated: !!token]. *)
Definition isAuthenticated (st : auth_state) : bool := opt_truthy (token st).

(** ** The provider's handlers *)

(** [useState(null)], [useState(localStorage.getItem('token'))],
    [useState(true)]. *)
Definition provider_init (σ : storage) : auth_state := mkAuth None (σ !! "token") true.

(** [logout]: clear both pieces of state and both stored keys, go to /login. *)
Definition logout (st : auth_state) (σ : storage) : auth_state * storage * list effect :=
  (mkAuth None None (loading st), delete "username" (delete "token" σ), [Navigate "/login"]).

(** The context value the provider renders: the state, and
    [isAuthenticated: !!token]; [login], [register] and [logout] are the
    handlers above. *)
Record auth_value := mkValue {
  v_user : option user_obj;
  v_token : option string;
  v_loading : bool;
  v_isAuthenticated : bool;
}.

Definition value (st : auth_state) : auth_value :=
  mkValue (user st) (token st) (loading st) (isAuthenticated st).

(** [useAuth()]: the value of the nearest provider, or the [Error] it
    throws outside one. *)
Definition useAuth (ctx : option auth_value) : auth_value + string :=
  match ctx with
  | Some v => inl v
  | None => inr "useAuth must be used within AuthProvider"
  end.

(** The request [validateToken] sends: the token captured by the closure of
    the first render, not the one in storage. *)
Definition validateToken_request (captured : option string) : request unit :=
  mkRequest GET "http://localhost:8080/auth/validate"
    [("Authorization", "Bearer " +:+ js_template_nullable captured)] None.

(** [validateToken] after its [await fetch]: an ok reply whose body parses
    sets the user; a non-ok reply, a body that does not parse, or a network
    failure logs out; [finally] clears [loading]. *)
Definition validateToken (o : fetch_outcome validate_reply) (st : auth_state) (σ : storage)
    : auth_state * storage * list effect :=
  let '(st', σ', effs) :=
    match o with
    | Responded response =>
        if res_ok response then
          match res_body response with
          | JsonOk data => (set_user (Some (mkUser (data_valid_username data))) st, σ, [])
          | JsonBad _ => logout st σ
          end
        else logout st σ
    | NetworkError _ => logout st σ
    end in
  (set_loading false st', σ', effs).

(** The request of [login] and [register]. *)
Definition credentials_request (endpoint username password : string) : request credentials :=
  mkRequest POST ("http://localhost:8080/auth/" +:+ endpoint)
    [("Content-Type", "application/json")] (Some (mkCredentials username password)).

Definition login_request := credentials_request "login".
Definition register_request := credentials_request "register".

(** The body shared by [login] and [register] after [await fetch]: the body
    is parsed before [response.ok] is tested, so a reply that does not
    parse ends in the [catch] with "Network error"; success needs an ok
    status and a truthy [data.token]. *)
Definition credential_reply (fallback : string) (o : fetch_outcome auth_reply)
    (st : auth_state) (σ : storage) : auth_state * storage * list effect * auth_result :=
  match o with
  | NetworkError _ => (st, σ, [], AuthFailure "Network error")
  | Responded response =>
      match res_body response with
      | JsonBad _ => (st, σ, [], AuthFailure "Network error")
      | JsonOk data =>
          if res_ok response && opt_truthy (data_token data) then
            (mkAuth (Some (mkUser (data_username data))) (data_token data) (loading st),
             <["username" := js_string_of (data_username data)]>
               (<["token" := js_string_of (data_token data)]> σ),
             [Navigate "/tasks"], AuthSuccess)
          else (st, σ, [], AuthFailure (data_message data ||ₛ fallback))
      end
  end.

Definition login := credential_reply "Login failed".
Definition register := credential_reply "Registration failed".

(** ** The client as a step system *)

(** The session phases of the spec (section 4.1). *)
Inductive phase := Initializing | Unauthenticated | Authenticated.

#[export] Instance phase_eq_dec : EqDecision phase.
Proof. solve_decision. Defined.

Definition phase_of (st : auth_state) : phase :=
  if loading st then Initializing
  else if isAuthenticated st then Authenticated else Unauthenticated.

Record client := mkClient {
  c_auth : auth_state;
  c_storage : storage;
  c_validating : option (option string);  (** the token a pending [validateToken] captured *)
  c_log : list effect;                    (** the effects so far, oldest first *)
}.

Inductive event :=
| EvValidateReply (o : fetch_outcome validate_reply)
| EvLoginReply (o : fetch_outcome auth_reply)
| EvRegisterReply (o : fetch_outcome auth_reply)
| EvLogout
| EvRequestReply (o : fetch_outcome unit)
| EvReload.

Definition is_hard_navigation (e : effect) : bool :=
  match e with HardNavigate _ => true | _ => false end.

(** Mounting [AuthProvider] (at start and after every page load): the
    initial state, then the mount effect, which calls [validateToken] if
    the token is truthy and clears [loading] otherwise. *)
Definition boot (σ : storage) (log : list effect) : client :=
  let st := provider_init σ in
  if opt_truthy (token st) then mkClient st σ (Some (token st)) log
  else mkClient (set_loading false st) σ None log.

Section Client.
Context `{Transport}.

Definition step (c : client) (e : event) : option client :=
  match e with
  | EvValidateReply o =>
      match c_validating c with
      | Some _ =>
          let '(st, σ, effs) := validateToken o (c_auth c) (c_storage c) in
          Some (mkClient st σ None (c_log c ++ effs))
      | None => None
      end
  | EvLoginReply o =>
      let '(st, σ, effs, _) := login o (c_auth c) (c_storage c) in
      Some (mkClient st σ (c_validating c) (c_log c ++ effs))
  | EvRegisterReply o =>
      let '(st, σ, effs, _) := register o (c_auth c) (c_storage c) in
      Some (mkClient st σ (c_validating c) (c_log c ++ effs))
  | EvLogout =>
      let '(st, σ, effs) := logout (c_auth c) (c_storage c) in
      Some (mkClient st σ (c_validating c) (c_log c ++ effs))
  | EvRequestReply o =>
      let '(σ, effs, _) := tr_resume o (c_storage c) in
      if existsb is_hard_navigation effs then Some (boot σ (c_log c ++ effs))
      else Some (mkClient (c_auth c) σ (c_validating c) (c_log c ++ effs))
  | EvReload => Some (boot (c_storage c) (c_log c))
  end.

Fixpoint run (c : client) (es : list event) : option client :=
  match es with
  | [] => Some c
  | e :: es' => c' ← step c e; run c' es'
  end.

Inductive reachable : client -> Prop :=
| reachable_boot σ : reachable (boot σ [])
| reachable_step c e c' : reachable c -> step c e = Some c' -> reachable c'.
End Client.

(** ** Invariant and helper lemmas *)

(** The provider's [token] is the stored token; [loading] is set exactly
    while a [validateToken] is pending; a settled session with a truthy
    token has a user. *)
Definition session_inv (c : client) : Prop :=
  token (c_auth c) = c_storage c !! "token" /\
  (loading (c_auth c) = true <-> is_Some (c_validating c)) /\
  (loading (c_auth c) = false -> isAuthenticated (c_auth c) = true ->
   is_Some (user (c_auth c))).

Lemma boot_inv σ log : session_inv (boot σ log).
Proof.
  unfold boot, provider_init, session_inv, isAuthenticated. simpl.
  destruct (opt_truthy (σ !! "token")) eqn:E; simpl.
  - split; [done|]. split; [split; eauto|]. done.
  - split; [done|]. split; [split; [done|by intros []]|]. by rewrite E.
Qed.

Lemma boot_token σ log : token (c_auth (boot σ log)) = σ !! "token".
Proof. unfold boot. simpl. by destruct (opt_truthy _). Qed.

Lemma boot_storage σ log : c_storage (boot σ log) = σ.
Proof. unfold boot. simpl. by destruct (opt_truthy _). Qed.

(** A page load never starts authenticated: either it waits for the
    validation or it has no truthy token. *)
Lemma boot_not_authenticated σ log : phase_of (c_auth (boot σ log)) <> Authenticated.
Proof.
  unfold boot, phase_of, isAuthenticated, provider_init. simpl.
  destruct (opt_truthy (σ !! "token")) eqn:E; simpl; [done|]. by rewrite E.
Qed.

Lemma delete_username_token (σ : storage) : delete "username" (delete "token" σ) !! "token" = None.
Proof. rewrite lookup_delete_ne by done. apply lookup_delete_eq. Qed.

#[export] Hint Rewrite delete_username_token boot_token boot_storage : tm_rw.

(** The three outcomes of [validateToken]. *)
Lemma validateToken_cases o st σ :
  (exists r data, o = Responded r /\ res_ok r = true /\ res_body r = JsonOk data /\
     validateToken o st σ =
       (mkAuth (Some (mkUser (data_valid_username data))) (token st) false, σ, [])) \/
  validateToken o st σ =
    (mkAuth None None false, delete "username" (delete "token" σ), [Navigate "/login"]).
Proof.
  unfold validateToken. destruct o as [m|r]; [by right|].
  destruct (res_ok r) eqn:Hok; [|by right].
  destruct (res_body r) as [data|m] eqn:Hb; [left; by exists r, data|by right].
Qed.

(** The two outcomes of [login] and [register]. *)
Lemma credential_reply_cases fallback o st σ :
  (exists r data, o = Responded r /\ res_body r = JsonOk data /\ res_ok r = true /\
     opt_truthy (data_token data) = true /\
     credential_reply fallback o st σ =
       (mkAuth (Some (mkUser (data_username data))) (data_token data) (loading st),
        <["username" := js_string_of (data_username data)]>
          (<["token" := js_string_of (data_token data)]> σ),
        [Navigate "/tasks"], AuthSuccess)) \/
  (exists m, credential_reply fallback o st σ = (st, σ, [], AuthFailure m) /\
     (m = "Network error" \/
      exists r data, o = Responded r /\ res_body r = JsonOk data /\
        m = data_message data ||ₛ fallback)).
Proof.
  unfold credential_reply. destruct o as [m|r]; [right; eauto|].
  destruct (res_body r) as [data|m] eqn:Hb; [|right; eauto].
  destruct (res_ok r && opt_truthy (data_token data)) eqn:E.
  - apply andb_true_iff in E as [E1 E2]. left. exists r, data. done.
  - right. eexists; split; [done|]. right. eauto.
Qed.

Lemma lookup_credentials_token (σ : storage) t u :
  opt_truthy t = true ->
  <["username" := js_string_of u]> (<["token" := js_string_of t]> σ) !! "token" = t.
Proof.
  intros Ht. apply opt_truthy_Some in Ht as (s & -> & _).
  rewrite lookup_insert_ne by done. by rewrite lookup_insert_eq.
Qed.

Section ClientLemmas.
#[local] Set Default Proof Using "Type*".
Context `{TransportLaws}.

(** The request-reply step, split by whether the transport left the page. *)
Lemma step_request_cases c o c' :
  step c (EvRequestReply o) = Some c' ->
  (c' = boot (tr_resume o (c_storage c)).1.1 (c_log c ++ (tr_resume o (c_storage c)).1.2)) \/
  (c' = mkClient (c_auth c) (tr_resume o (c_storage c)).1.1 (c_validating c)
                 (c_log c ++ (tr_resume o (c_storage c)).1.2) /\
   (tr_resume o (c_storage c)).1.1 !! "token" = c_storage c !! "token").
Proof.
  simpl. destruct (tr_resume o (c_storage c)) as [[σ effs] p] eqn:E. simpl.
  destruct (existsb is_hard_navigation effs) eqn:Hh; intros [= <-]; [by left|].
  right. split; [done|].
  destruct (tr_token_kept_or_logout _ o (c_storage c)) as [Hk|[_ Hin]].
  { by rewrite E in Hk. }
  rewrite E in Hin. simpl in Hin. exfalso. assert (existsb is_hard_navigation effs = true) as Hc; [|congruence].
  apply existsb_exists. exists (HardNavigate "/login"). split; [|done].
  by apply list_elem_of_In.
Qed.

Lemma step_inv c e c' : session_inv c -> step c e = Some c' -> session_inv c'.
Proof.
  intros (Hsync & Hload & Huser) Hstep. destruct e as [o|o|o| |o|].
  - simpl in Hstep. destruct (c_validating c) as [v|]; [|done].
    destruct (validateToken_cases o (c_auth c) (c_storage c)) as [(r & d & _ & _ & _ & E)|E];
      rewrite E in Hstep; injection Hstep as <-; unfold session_inv; simpl;
      [|rewrite delete_username_token]; naive_solver.
  - simpl in Hstep. unfold login in Hstep.
    destruct (credential_reply_cases "Login failed" o (c_auth c) (c_storage c))
      as [(r & d & _ & _ & _ & Ht & E)|(m & E & _)];
      rewrite E in Hstep; injection Hstep as <-; unfold session_inv; simpl;
      [rewrite lookup_credentials_token by done|]; naive_solver.
  - simpl in Hstep. unfold register in Hstep.
    destruct (credential_reply_cases "Registration failed" o (c_auth c) (c_storage c))
      as [(r & d & _ & _ & _ & Ht & E)|(m & E & _)];
      rewrite E in Hstep; injection Hstep as <-; unfold session_inv; simpl;
      [rewrite lookup_credentials_token by done|]; naive_solver.
  - simpl in Hstep. injection Hstep as <-. unfold session_inv, isAuthenticated; simpl.
    rewrite delete_username_token. naive_solver.
  - destruct (step_request_cases c o c' Hstep) as [->|[-> Hk]]; [apply boot_inv|].
    unfold session_inv; simpl. rewrite Hk. naive_solver.
  - simpl in Hstep. injection Hstep as <-. apply boot_inv.
Qed.

Lemma request_reply_keeps_logged_out c o c' :
  token (c_auth c) = None -> c_storage c !! "token" = None ->
  step c (EvRequestReply o) = Some c' ->
  token (c_auth c') = None /\ c_storage c' !! "token" = None.
Proof.
  intros Ht Hs Hstep.
  assert ((tr_resume o (c_storage c)).1.1 !! "token" = None) as Hn.
  { destruct (tr_token_kept_or_logout _ o (c_storage c)) as [->|[-> _]]; done. }
  destruct (step_request_cases c o c' Hstep) as [->|[-> _]];
    [by rewrite boot_token, boot_storage|done].
Qed.

Lemma run_requests_keep_logged_out c os c' :
  token (c_auth c) = None -> c_storage c !! "token" = None ->
  run c (map EvRequestReply os) = Some c' ->
  token (c_auth c') = None /\ c_storage c' !! "token" = None.
Proof.
  revert c. induction os as [|o os IH]; intros c0 Ht Hs Hr; cbn [run map] in Hr.
  { injection Hr as <-. by split. }
  destruct (step c0 (EvRequestReply o)) as [c1|] eqn:E; simpl in Hr; [|done].
  destruct (request_reply_keeps_logged_out c0 o c1 Ht Hs E) as [H1 H2].
  exact (IH c1 H1 H2 Hr).
Qed.
End ClientLemmas.

(** ** Theorems *)

(** C3: a login or registration reply that is ok and carries a truthy
    token authenticates the provider, persists the reply's token and
    username (an absent username is stored as "undefined"), sets the user,
    navigates to /tasks and resolves with success; [loading] is left as it
    was. *)
Theorem credential_reply_success fallback r data st σ :
  res_body r = JsonOk data -> res_ok r = true -> opt_truthy (data_token data) = true ->
  let '(st', σ', effs, res) := credential_reply fallback (Responded r) st σ in
  isAuthenticated st' = true /\ token st' = data_token data /\
  σ' !! "token" = data_token data /\
  σ' !! "username" = Some (js_string_of (data_username data)) /\
  user st' = Some (mkUser (data_username data)) /\ loading st' = loading st /\
  effs = [Navigate "/tasks"] /\ res = AuthSuccess.
Proof.
  intros Hb Hok Ht. unfold credential_reply. rewrite Hb, Hok, Ht. simpl.
  rewrite lookup_credentials_token by done. rewrite lookup_insert_eq.
  unfold isAuthenticated. simpl. by rewrite Ht.
Qed.

(** C4: a login or registration that fails (network failure, a body that
    does not parse, a non-ok status, a missing or empty token) changes
    neither the provider state nor storage, performs no effect, and resolves
    with "Network error" or with the server's message, falling back to the
    handler's default. *)
Theorem credential_reply_failure fallback o st σ m st' σ' effs :
  credential_reply fallback o st σ = (st', σ', effs, AuthFailure m) ->
  st' = st /\ σ' = σ /\ effs = [] /\
  (m = "Network error" \/
   exists r data, o = Responded r /\ res_body r = JsonOk data /\ m = data_message data ||ₛ fallback).
Proof.
  intros E. destruct (credential_reply_cases fallback o st σ) as [(r & d & _ & _ & _ & _ & E')|(m' & E' & Hm)];
    rewrite E' in E; [done|]. by injection E as <- <- <- <-.
Qed.

(** [logout] leaves the provider unauthenticated with no user, removes
    the token and the username from storage and nothing else, and
    navigates to /login. *)
Theorem logout_clears st σ :
  let '(st', σ', effs) := logout st σ in
  isAuthenticated st' = false /\ user st' = None /\
  σ' !! "token" = None /\ σ' !! "username" = None /\
  (forall k, k <> "token" -> k <> "username" -> σ' !! k = σ !! k) /\
  effs = [Navigate "/login"].
Proof.
  simpl. split; [done|]. split; [done|]. split; [apply delete_username_token|].
  split; [apply lookup_delete_eq|]. split; [|done].
  intros k H1 H2. rewrite lookup_delete_ne by done. by apply lookup_delete_ne.
Qed.

Section ClientTheorems.
Context `{TransportLaws}.
#[local] Set Default Proof Using "Type*".

(** C1: in every state the client reaches, whatever the order in which
    replies arrive, the provider's [token] is the token in
    [localStorage], [loading] is set exactly while a validation is
    pending, and a settled session with a truthy token has a user. *)
Theorem reachable_session_inv c : reachable c -> session_inv c.
Proof.
  induction 1 as [σ|c e c' _ IH Hstep]; [apply boot_inv|].
  by eapply step_inv.
Qed.

(** C2: forced logout.  Whatever state the client is in, a reply with
    status 401 to a request sent through the transport leaves storage
    without a token and the remounted provider unauthenticated. *)
Theorem request_401_logs_out c (r : response unit) c' :
  res_status r = 401 ->
  step c (EvRequestReply (Responded r)) = Some c' ->
  c_storage c' !! "token" = None /\ phase_of (c_auth c') = Unauthenticated.
Proof.
  intros H401 Hstep. destruct (tr_forced_logout _ r (c_storage c) H401) as [Hn Hin].
  simpl in Hstep. destruct (tr_resume (Responded r) (c_storage c)) as [[σ effs] p] eqn:E.
  simpl in Hn, Hin.
  assert (existsb is_hard_navigation effs = true) as Hh.
  { apply existsb_exists. exists (HardNavigate "/login"). split; [|done].
    by apply list_elem_of_In. }
  rewrite Hh in Hstep. injection Hstep as <-. rewrite boot_storage. split; [done|].
  unfold boot, phase_of, isAuthenticated, provider_init. simpl. by rewrite Hn.
Qed.

(** C6: after [logout], replies to requests still in flight, 401 or
    not, in any number and order, never bring a token back: storage and
    provider stay without one. *)
Theorem replies_after_logout c os c' :
  run c (EvLogout :: map EvRequestReply os) = Some c' ->
  token (c_auth c') = None /\ c_storage c' !! "token" = None.
Proof.
  simpl. intros Hrun.
  eapply run_requests_keep_logged_out; [| |exact Hrun]; simpl; [done|apply delete_username_token].
Qed.

(** C5: the only events that take the client from a state that is not
    authenticated to an authenticated one are an ok login or
    registration reply carrying a truthy token, and an ok validation
    reply whose body parses. *)
Theorem authenticated_only_by_reply c e c' :
  phase_of (c_auth c) <> Authenticated ->
  step c e = Some c' -> phase_of (c_auth c') = Authenticated ->
  (exists r data, (e = EvLoginReply (Responded r) \/ e = EvRegisterReply (Responded r)) /\
     res_body r = JsonOk data /\ res_ok r = true /\ opt_truthy (data_token data) = true) \/
  (exists r data, e = EvValidateReply (Responded r) /\ res_ok r = true /\
     res_body r = JsonOk data).
Proof.
  intros Hpre Hstep Hpost. destruct e as [o|o|o| |o|]; simpl in Hstep.
  - destruct (c_validating c); [|done].
    destruct (validateToken_cases o (c_auth c) (c_storage c)) as [(r & d & -> & Hok & Hb & E)|E];
      rewrite E in Hstep; injection Hstep as <-; [right; eauto|done].
  - unfold login in Hstep.
    destruct (credential_reply_cases "Login failed" o (c_auth c) (c_storage c))
      as [(r & d & -> & Hb & Hok & Ht & E)|(m & E & _)];
      rewrite E in Hstep; injection Hstep as <-; [left; eauto 10|done].
  - unfold register in Hstep.
    destruct (credential_reply_cases "Registration failed" o (c_auth c) (c_storage c))
      as [(r & d & -> & Hb & Hok & Ht & E)|(m & E & _)];
      rewrite E in Hstep; injection Hstep as <-; [left; eauto 10|done].
  - injection Hstep as <-. unfold phase_of in Hpost. simpl in Hpost.
    by destruct (loading (c_auth c)).
  - destruct (step_request_cases c o c' Hstep) as [->|[-> _]]; [|done].
    by apply boot_not_authenticated in Hpost.
  - injection Hstep as <-. by apply boot_not_authenticated in Hpost.
Qed.

(** C7 (finding): a stale validation ends a newer session.  When the
    page loads with a stored token, [validateToken] is sent with that
    token; if the user logs in before its reply arrives and the reply is
    not ok (the old token expired), the reply logs out the session the
    login has just created. *)
Theorem stale_validation_ends_login σ0 r data rv :
  opt_truthy (σ0 !! "token") = true ->
  res_body r = JsonOk data -> res_ok r = true -> opt_truthy (data_token data) = true ->
  res_ok rv = false ->
  exists c1 c2,
    step (boot σ0 []) (EvLoginReply (Responded r)) = Some c1 /\
    isAuthenticated (c_auth c1) = true /\ c_storage c1 !! "token" = data_token data /\
    step c1 (EvValidateReply (Responded rv)) = Some c2 /\
    c_storage c2 !! "token" = None /\ phase_of (c_auth c2) = Unauthenticated.
Proof.
  intros Hσ Hb Hok Ht Hrv. unfold boot, provider_init; simpl. rewrite Hσ. simpl.
  unfold login, credential_reply. rewrite Hb, Hok, Ht. simpl.
  eexists _, _. split; [done|]. unfold isAuthenticated; simpl.
  split; [done|]. split; [by rewrite lookup_credentials_token|].
  unfold validateToken. rewrite Hrv. simpl. split; [done|].
  split; [apply delete_username_token|done].
Qed.

(** C8 (finding): a stale validation relabels a newer session.  If the
    validation of the token stored at page load succeeds after the user
    has logged in as someone else, the client is authenticated with the
    new token but shows the user the old token belonged to. *)
Theorem stale_validation_overwrites_user σ0 r data rv vdata :
  opt_truthy (σ0 !! "token") = true ->
  res_body r = JsonOk data -> res_ok r = true -> opt_truthy (data_token data) = true ->
  res_ok rv = true -> res_body rv = JsonOk vdata ->
  exists c2,
    run (boot σ0 []) [EvLoginReply (Responded r); EvValidateReply (Responded rv)] = Some c2 /\
    phase_of (c_auth c2) = Authenticated /\ token (c_auth c2) = data_token data /\
    user (c_auth c2) = Some (mkUser (data_valid_username vdata)).
Proof.
  intros Hσ Hb Hok Ht Hrv Hbv. unfold boot, provider_init; simpl. rewrite Hσ. simpl.
  unfold login, credential_reply. rewrite Hb, Hok, Ht. simpl.
  unfold validateToken. rewrite Hrv, Hbv. simpl.
  eexists. split; [done|]. unfold phase_of, isAuthenticated. simpl. by rewrite Ht.
Qed.
End ClientTheorems.

(** ** Witnesses on concrete replies *)

Definition example_storage : storage := <["token" := "t_old"]> ∅.
Definition bob_login : auth_reply := mkAuthReply (Some "t_new") (Some "bob") None.
Definition ok_login_reply : response auth_reply := mkResponse 200 (JsonOk bob_login).
Definition refused_login_reply : response auth_reply :=
  mkResponse 401 (JsonOk (mkAuthReply None None (Some "Invalid credentials"))).
Definition expired_reply : response validate_reply := mkResponse 401 (JsonBad "Unexpected end of JSON input").
Definition alice_valid : validate_reply := mkValidateReply (Some "alice").
Definition alice_reply : response validate_reply := mkResponse 200 (JsonOk alice_valid).
Definition unauthorized_reply : response unit := mkResponse 401 (JsonOk tt).

Abbreviation api_tr := (Api.api_transport None).
Abbreviation api_laws := (Api.api_transport_laws None).

Lemma credential_reply_success_witness :
  let '(st', σ', effs, res) :=
    credential_reply "Login failed" (Responded ok_login_reply) (provider_init ∅) ∅ in
  isAuthenticated st' = true /\ token st' = data_token bob_login /\
  σ' !! "token" = data_token bob_login /\
  σ' !! "username" = Some (js_string_of (data_username bob_login)) /\
  user st' = Some (mkUser (data_username bob_login)) /\ loading st' = loading (provider_init ∅) /\
  effs = [Navigate "/tasks"] /\ res = AuthSuccess.
Proof. apply (credential_reply_success "Login failed" ok_login_reply bob_login); reflexivity. Defined.

Lemma credential_reply_failure_witness :
  provider_init ∅ = provider_init ∅ /\ (∅ : storage) = ∅ /\ @nil effect = [] /\
  ("Invalid credentials" = "Network error" \/
   exists r data, Responded refused_login_reply = Responded r /\ res_body r = JsonOk data /\
     "Invalid credentials" = data_message data ||ₛ "Login failed").
Proof.
  apply (credential_reply_failure "Login failed" (Responded refused_login_reply) (provider_init ∅) ∅).
  reflexivity.
Defined.

Lemma reachable_session_inv_witness :
  @reachable api_tr (mkClient (mkAuth (Some (mkUser (Some "bob"))) (Some "t_new") true)
    (<["username" := "bob"]> (<["token" := "t_new"]> example_storage)) (Some (Some "t_old"))
    [Navigate "/tasks"]) /\
  session_inv (mkClient (mkAuth (Some (mkUser (Some "bob"))) (Some "t_new") true)
    (<["username" := "bob"]> (<["token" := "t_new"]> example_storage)) (Some (Some "t_old"))
    [Navigate "/tasks"]).
Proof.
  assert (@reachable api_tr (mkClient (mkAuth (Some (mkUser (Some "bob"))) (Some "t_new") true)
    (<["username" := "bob"]> (<["token" := "t_new"]> example_storage)) (Some (Some "t_old"))
    [Navigate "/tasks"])) as R.
  { apply (reachable_step (boot example_storage []) (EvLoginReply (Responded ok_login_reply)));
      [apply reachable_boot|reflexivity]. }
  split; [exact R|]. exact (@reachable_session_inv api_tr api_laws _ R).
Defined.

Lemma request_401_logs_out_witness :
  exists c', @step api_tr (boot example_storage []) (EvRequestReply (Responded unauthorized_reply)) = Some c' /\
    c_storage c' !! "token" = None /\ phase_of (c_auth c') = Unauthenticated.
Proof.
  eexists. split; [reflexivity|].
  apply (@request_401_logs_out api_tr api_laws (boot example_storage []) unauthorized_reply);
    reflexivity.
Defined.

Lemma replies_after_logout_witness :
  exists c', @run api_tr (boot example_storage [])
      (EvLogout :: map EvRequestReply [Responded unauthorized_reply; NetworkError "Failed to fetch"]) = Some c' /\
    token (c_auth c') = None /\ c_storage c' !! "token" = None.
Proof.
  eexists. split; [reflexivity|].
  apply (@replies_after_logout api_tr api_laws (boot example_storage [])
           [Responded unauthorized_reply; NetworkError "Failed to fetch"]).
  reflexivity.
Defined.

Lemma authenticated_only_by_reply_witness :
  (exists r data, (EvLoginReply (Responded ok_login_reply) = EvLoginReply (Responded r) \/
                   EvLoginReply (Responded ok_login_reply) = EvRegisterReply (Responded r)) /\
     res_body r = JsonOk data /\ res_ok r = true /\ opt_truthy (data_token data) = true) \/
  (exists r data, EvLoginReply (Responded ok_login_reply) = EvValidateReply (Responded r) /\
     res_ok r = true /\ res_body r = JsonOk data).
Proof.
  apply (@authenticated_only_by_reply api_tr api_laws (boot ∅ [])
           (EvLoginReply (Responded ok_login_reply))
           (mkClient (mkAuth (Some (mkUser (Some "bob"))) (Some "t_new") false)
              (<["username" := "bob"]> (<["token" := "t_new"]> ∅)) None [Navigate "/tasks"]));
    [discriminate|reflexivity|reflexivity].
Defined.

Lemma stale_validation_ends_login_witness :
  exists c1 c2,
    @step api_tr (boot example_storage []) (EvLoginReply (Responded ok_login_reply)) = Some c1 /\
    isAuthenticated (c_auth c1) = true /\ c_storage c1 !! "token" = data_token bob_login /\
    @step api_tr c1 (EvValidateReply (Responded expired_reply)) = Some c2 /\
    c_storage c2 !! "token" = None /\ phase_of (c_auth c2) = Unauthenticated.
Proof.
  apply (@stale_validation_ends_login api_tr api_laws example_storage ok_login_reply bob_login
           expired_reply); reflexivity.
Defined.

Lemma stale_validation_overwrites_user_witness :
  exists c2,
    @run api_tr (boot example_storage [])
      [EvLoginReply (Responded ok_login_reply); EvValidateReply (Responded alice_reply)] = Some c2 /\
    phase_of (c_auth c2) = Authenticated /\ token (c_auth c2) = data_token bob_login /\
    user (c_auth c2) = Some (mkUser (data_valid_username alice_valid)).
Proof.
  apply (@stale_validation_overwrites_user api_tr api_laws example_storage ok_login_reply bob_login
           alice_reply alice_valid); reflexivity.
Defined.

End Session.
