(* ===== verification/Task.v ===== *)
(** The task data the pages exchange with the server (spec section 3):
    tasks with nested subtasks and comments, as the JSON the server sends
    and the pages read with [task.status], [task.subtasks], ...; the
    status and priority enumerations the forms and columns use, with
    their string codes; and the calendar-date parsing of [new Date(s)] for
    the [YYYY-MM-DD] strings of date inputs, with [Date]'s millisecond
    clock. *)

From S2P Require Import Prelude Js.
Open Scope Z_scope.

(** ** Enumerations *)

(** The values of the status selects and the board columns. *)
Inductive status := TODO | IN_PROGRESS | DONE.
(** The values of the priority selects. *)
Inductive priority := LOW | MEDIUM | HIGH.

#[export] Instance status_eq_dec : EqDecision status.
Proof. solve_decision. Defined.
#[export] Instance priority_eq_dec : EqDecision priority.
Proof. solve_decision. Defined.

Definition status_code (s : status) : string :=
  match s with TODO => "TODO" | IN_PROGRESS => "IN_PROGRESS" | DONE => "DONE" end.

Definition priority_code (p : priority) : string :=
  match p with LOW => "LOW" | MEDIUM => "MEDIUM" | HIGH => "HIGH" end.

Definition status_of_code (s : string) : option status :=
  if String.eqb s "TODO" then Some TODO
  else if String.eqb s "IN_PROGRESS" then Some IN_PROGRESS
  else if String.eqb s "DONE" then Some DONE else None.

Definition priority_of_code (s : string) : option priority :=
  if String.eqb s "LOW" then Some LOW
  else if String.eqb s "MEDIUM" then Some MEDIUM
  else if String.eqb s "HIGH" then Some HIGH else None.

(** ** Records *)

Record subtask := mkSubtask {
  subtask_id : Z;
  subtask_title : jsstr;
  completed : bool;
}.

Record comment := mkComment {
  comment_id : Z;
  text : jsstr;
  createdAt : string;
}.

(** A task as the server's JSON has it: [status] and [priority] are the
    strings the server sent, compared with [===] by the pages. *)
Record task := mkTask {
  task_id : Z;
  title : jsstr;
  description : option jsstr;
  task_status : string;
  task_priority : string;
  dueDate : option jsstr;
  subtasks : list subtask;
  comments : list comment;
}.

(** ** Dates *)

Definition DAY_MS : Z := 86400000.

Definition digit (c : Z) : option Z :=
  if (48 <=? c) && (c <=? 57) then Some (c - 48) else None.

Fixpoint digits_value (acc : Z) (l : jsstr) : option Z :=
  match l with
  | [] => Some acc
  | c :: l' => d ← digit c; digits_value (10 * acc + d) l'
  end.

(** Days from 1970-01-01 to a proleptic Gregorian date (the civil-from-days
    inverse of [Date]'s day count). *)
Definition days_from_civil (y m d : Z) : Z :=
  let y' := if m <=? 2 then y - 1 else y in
  let era := y' / 400 in
  let yoe := y' - era * 400 in
  let mp := if 2 <? m then m - 3 else m + 9 in
  let doy := (153 * mp + 2) / 5 + d - 1 in
  let doe := yoe * 365 + yoe / 4 - yoe / 100 + doy in
  era * 146097 + doe - 719468.

(** [new Date(s)] for the value of an [<input type="date">]: a date-only
    ISO string [YYYY-MM-DD] is read as UTC midnight; anything else is an
    invalid date ([NaN]), which every comparison treats as false.  The
    result is the day number; its time value is [day * DAY_MS].  The date
    input only yields calendar dates, so only the field ranges are
    checked. *)
Definition parse_date (s : jsstr) : option Z :=
  match s with
  | [y1; y2; y3; y4; 45; m1; m2; 45; d1; d2] =>
      y ← digits_value 0 [y1; y2; y3; y4];
      m ← digits_value 0 [m1; m2];
      d ← digits_value 0 [d1; d2];
      if (1 <=? m) && (m <=? 12) && (1 <=? d) && (d <=? 31)
      then Some (days_from_civil y m d) else None
  | _ => None
  end.

(** [const today = new Date(); today.setHours(0, 0, 0, 0)]: local midnight
    of the day containing [now] (milliseconds since the epoch), in a
    time zone [offset] minutes east of UTC. *)
Definition local_midnight (now offset : Z) : Z :=
  (now + offset * 60000) / DAY_MS * DAY_MS - offset * 60000.

(** The local calendar day of [now], as a day number. *)
Definition local_day (now offset : Z) : Z := (now + offset * 60000) / DAY_MS.

(** [tasks.filter(t => t.status === code).length]. *)
Definition count_status (code : string) (ts : list task) : Z :=
  count_by (fun t => String.eqb (task_status t) code) ts.

Definition count_priority (code : string) (ts : list task) : Z :=
  count_by (fun t => String.eqb (task_priority t) code) ts.

(** Every task carries one of the three status codes. *)
Definition statuses_valid (ts : list task) : Prop :=
  Forall (fun t => is_Some (status_of_code (task_status t))) ts.

(** ** Lemmas *)

Lemma status_of_code_roundtrip s : status_of_code (status_code s) = Some s.
Proof. by destruct s. Qed.

Lemma priority_of_code_roundtrip p : priority_of_code (priority_code p) = Some p.
Proof. by destruct p. Qed.

Lemma status_code_inj s1 s2 : status_code s1 = status_code s2 -> s1 = s2.
Proof. by destruct s1, s2. Qed.

Lemma local_midnight_day now offset :
  local_midnight now offset = local_day now offset * DAY_MS - offset * 60000.
Proof. reflexivity. Qed.

Example days_from_civil_epoch : days_from_civil 1970 1 1 = 0.
Proof. reflexivity. Qed.

Example days_from_civil_leap : days_from_civil 2024 3 1 - days_from_civil 2024 2 28 = 2.
Proof. reflexivity. Qed.

Lemma status_of_code_Some s st : status_of_code s = Some st -> s = status_code st.
Proof.
  unfold status_of_code.
  destruct (String.eqb_spec s "TODO"); [intros [= <-]; done|].
  destruct (String.eqb_spec s "IN_PROGRESS"); [intros [= <-]; done|].
  destruct (String.eqb_spec s "DONE"); [intros [= <-]; done|done].
Qed.

(** With valid statuses, the three status filters partition the list. *)
Lemma count_status_partition ts :
  statuses_valid ts ->
  count_status "TODO" ts + count_status "IN_PROGRESS" ts + count_status "DONE" ts =
  Z.of_nat (length ts).
Proof.
  induction 1 as [|t ts [st Hst] _ IH]; [done|].
  unfold count_status in *. rewrite !count_by_cons.
  apply status_of_code_Some in Hst. rewrite Hst. simpl length.
  destruct st; simpl; lia.
Qed.

#[export] Hint Rewrite status_of_code_roundtrip priority_of_code_roundtrip : tm_rw.
