(* ===== verification/CreateTask.v ===== *)
(** The create-task form of src/src/pages/CreateTask.jsx.

    The page keeps [formData], [loading] and [errors].  [handleChange]
    stores a field and clears its error; the inputs' [maxLength]
    attributes cap what the browser lets the user type.  On submit the
    browser first checks the date input's [min] (today's UTC date), then
    [handleSubmit] runs [validateForm] and, only when it found no error,
    posts the form to /tasks; the reply either navigates to the new task
    or raises an alert.  Times are milliseconds since the epoch; the time
    zone is a fixed offset in minutes east of UTC. *)

From S2P Require Import Prelude Js Task.
Open Scope Z_scope.

Module CreateTask.

(** ** State *)

Record form_data := mkForm {
  fd_title : jsstr;
  fd_description : jsstr;
  fd_dueDate : jsstr;
  fd_priority : jsstr;
  fd_status : jsstr;
}.

(** [useState({ title: '', description: '', dueDate: '', priority:
    'MEDIUM', status: 'TODO' })]. *)
Definition initial_form : form_data := mkForm [] [] [] (js "MEDIUM") (js "TODO").

(** The [errors] object: a key is absent ([None]), a message, or [''] once
    [handleChange] has cleared it. *)
Record form_errors := mkErrors {
  err_title : option string;
  err_description : option string;
  err_dueDate : option string;
}.

Definition no_errors : form_errors := mkErrors None None None.

Record page := mkPage {
  formData : form_data;
  loading : bool;
  errors : form_errors;
}.

Definition initial_page : page := mkPage initial_form false no_errors.

(** The [name] attributes of the inputs. *)
Inductive field := FTitle | FDescription | FDueDate | FPriority | FStatus.

#[export] Instance field_eq_dec : EqDecision field.
Proof. solve_decision. Defined.

(** The body of the reply to POST /tasks. *)
Record created := mkCreated { created_id : option Z }.

(** ** Handlers *)

Definition set_field (f : field) (v : jsstr) (fd : form_data) : form_data :=
  match f with
  | FTitle => mkForm v (fd_description fd) (fd_dueDate fd) (fd_priority fd) (fd_status fd)
  | FDescription => mkForm (fd_title fd) v (fd_dueDate fd) (fd_priority fd) (fd_status fd)
  | FDueDate => mkForm (fd_title fd) (fd_description fd) v (fd_priority fd) (fd_status fd)
  | FPriority => mkForm (fd_title fd) (fd_description fd) (fd_dueDate fd) v (fd_status fd)
  | FStatus => mkForm (fd_title fd) (fd_description fd) (fd_dueDate fd) (fd_priority fd) v
  end.

Definition field_error (f : field) (e : form_errors) : option string :=
  match f with
  | FTitle => err_title e
  | FDescription => err_description e
  | FDueDate => err_dueDate e
  | FPriority | FStatus => None
  end.

Definition clear_error (f : field) (e : form_errors) : form_errors :=
  match f with
  | FTitle => mkErrors (Some "") (err_description e) (err_dueDate e)
  | FDescription => mkErrors (err_title e) (Some "") (err_dueDate e)
  | FDueDate => mkErrors (err_title e) (err_description e) (Some "")
  | FPriority => e
  | FStatus => e
  end.

(** The [maxLength] of the text inputs: the browser does not let user
    input make the value longer. *)
Definition maxLength (f : field) : option nat :=
  match f with FTitle => Some 100%nat | FDescription => Some 500%nat | _ => None end.

Definition user_input (f : field) (v : jsstr) : jsstr :=
  match maxLength f with Some n => take n v | None => v end.

(** [handleChange]: store the value; if the field's error is truthy,
    set it to [''].  [v] is the value as the input element reports it. *)
Definition handleChange (f : field) (v : jsstr) (st : page) : page :=
  mkPage (set_field f v (formData st)) (loading st)
    (if opt_truthy (field_error f (errors st)) then clear_error f (errors st) else errors st).

(** [validateForm]'s [newErrors]. *)
Definition validateForm (fd : form_data) (now offset : Z) : form_errors :=
  let t := fd_title fd in
  let d := fd_description fd in
  mkErrors
    (if negb (jsstr_truthy (js_trim t)) then Some "Title is required"
     else if js_length t <? 3 then Some "Title must be at least 3 characters"
     else None)
    (if jsstr_truthy d && (500 <? js_length d)
     then Some "Description must be less than 500 characters" else None)
    (if jsstr_truthy (fd_dueDate fd) then
       match parse_date (fd_dueDate fd) with
       | Some day => if day * DAY_MS <? local_midnight now offset
                     then Some "Due date cannot be in the past" else None
       | None => None
       end
     else None).

(** [Object.keys(newErrors).length === 0]. *)
Definition errors_empty (e : form_errors) : bool :=
  match err_title e, err_description e, err_dueDate e with
  | None, None, None => true
  | _, _, _ => false
  end.

Section Submit.
Context (VITE_API_URL : option string).

(** [import.meta.env.VITE_API_URL || 'http://localhost:8080']. *)
Definition API_BASE_URL : string := VITE_API_URL ||ₛ "http://localhost:8080".

Definition create_request (fd : form_data) (σ : storage) : request form_data :=
  mkRequest POST (API_BASE_URL +:+ "/tasks")
    [("Authorization", "Bearer " +:+ js_template_nullable (σ !! "token"));
     ("Content-Type", "application/json")] (Some fd).

(** [handleSubmit] up to its [await]: validation sets [errors]; with an
    error it returns before any request, otherwise it sets [loading] and
    sends the form. *)
Definition handleSubmit (st : page) (now offset : Z) (σ : storage)
    : page * option (request form_data) :=
  let e := validateForm (formData st) now offset in
  if errors_empty e then (mkPage (formData st) true e, Some (create_request (formData st) σ))
  else (mkPage (formData st) (loading st) e, None).
End Submit.

Definition failure_alert : string := "Failed to create task. Please try again.".

(** [handleSubmit] after its [await]: a non-ok status throws, as does a
    body that does not parse; the [catch] alerts and the form stays as it
    is; [finally] clears [loading]. *)
Definition handleSubmit_reply (o : fetch_outcome created) (st : page) : page * list effect :=
  let effs :=
    match o with
    | Responded response =>
        if res_ok response then
          match res_body response with
          | JsonOk data =>
              [Navigate ("/task/" +:+ match created_id data with
                                     | Some i => show_Z i | None => "undefined" end)]
          | JsonBad _ => [Alert failure_alert]
          end
        else [Alert failure_alert]
    | NetworkError _ => [Alert failure_alert]
    end in
  (mkPage (formData st) false (errors st), effs).

Definition handleCancel : list effect := [Navigate "/tasks"].

(** The [min] of the date input, [new Date().toISOString().split('T')[0]]:
    today's date in UTC, as a day number. *)
Definition date_min (now : Z) : Z := now / DAY_MS.

(** The browser's constraint validation before the [submit] event: a
    filled date input must not be before its [min]. *)
Definition date_constraint_ok (fd : form_data) (now : Z) : bool :=
  match parse_date (fd_dueDate fd) with
  | Some day => date_min now <=? day
  | None => true
  end.

(** A press of the submit button: the browser's check, then the handler. *)
Definition submit (st : page) (now offset : Z) (σ : storage) (VITE_API_URL : option string)
    : page * option (request form_data) :=
  if date_constraint_ok (formData st) now then handleSubmit VITE_API_URL st now offset σ
  else (st, None).

(** ** The rendered form

    The values the markup computes from the state. *)
Record view := mkView {
  title_count : string;                (** [{formData.title.length}/100] *)
  description_count : string;          (** [{formData.description.length}/500] *)
  title_error : option string;         (** shown when [errors.title] is truthy *)
  description_error : option string;
  dueDate_error : option string;
  preview_title : jsstr;               (** [formData.title || 'Task Title'] *)
  preview_description : jsstr;         (** [formData.description || 'No description provided'] *)
  buttons_disabled : bool;             (** [disabled={loading}] *)
  submit_label : string;               (** ['Creating...'] or ['Create Task'] *)
}.

Definition shown (o : option string) : option string :=
  if opt_truthy o then o else None.

Definition render (st : page) : view :=
  let fd := formData st in
  mkView
    (show_Z (js_length (fd_title fd)) +:+ "/100")
    (show_Z (js_length (fd_description fd)) +:+ "/500")
    (shown (err_title (errors st)))
    (shown (err_description (errors st)))
    (shown (err_dueDate (errors st)))
    (if jsstr_truthy (fd_title fd) then fd_title fd else js "Task Title")
    (if jsstr_truthy (fd_description fd) then fd_description fd else js "No description provided")
    (loading st)
    (if loading st then "Creating..." else "Create Task").

(** Form states the user can produce by typing into the inputs. *)
Inductive typed : page -> Prop :=
| typed_initial : typed initial_page
| typed_change f v st : typed st -> typed (handleChange f (user_input f v) st).

(** ** Lemmas *)

Lemma jsstr_truthy_true (s : jsstr) : jsstr_truthy s = true <-> s <> [].
Proof. unfold jsstr_truthy. rewrite negb_true_iff, bool_decide_eq_false. done. Qed.

(** [s.trim()] is truthy exactly when [s] has a code unit that is not a
    space. *)
Lemma trim_truthy_iff (s : jsstr) :
  jsstr_truthy (js_trim s) = true <-> Exists (fun c => is_js_space c = false) s.
Proof.
  rewrite jsstr_truthy_true, js_trim_nil_iff.
  induction s as [|c s IH]; simpl.
  - split; [intros H; by destruct H|inversion 1].
  - rewrite Forall_cons, Exists_cons. destruct (is_js_space c); naive_solver.
Qed.

(** The comparison of a date with local midnight, for a time zone less
    than a day away from UTC. *)
Lemma before_local_midnight day now offset :
  -1440 < offset < 1440 ->
  day * DAY_MS <? local_midnight now offset = true <->
  day < local_day now offset \/ (offset < 0 /\ day = local_day now offset).
Proof.
  intros Ho. rewrite local_midnight_day, Z.ltb_lt. unfold DAY_MS in *.
  set (D := local_day now offset). lia.
Qed.

Lemma set_field_title f v fd : f <> FTitle -> fd_title (set_field f v fd) = fd_title fd.
Proof. by destruct f. Qed.

Lemma set_field_description f v fd :
  f <> FDescription -> fd_description (set_field f v fd) = fd_description fd.
Proof. by destruct f. Qed.

Lemma length_user_input_le f v n : maxLength f = Some n -> (length (user_input f v) <= n)%nat.
Proof. unfold user_input. intros ->. rewrite length_take. lia. Qed.

(** ** Theorems *)

(** C14: the title passes [validateForm] exactly when it has a character
    that is not white space and at least 3 UTF-16 code units; the length
    is that of the untrimmed title. *)
Theorem validateForm_title_ok fd now offset :
  err_title (validateForm fd now offset) = None <->
  Exists (fun c => is_js_space c = false) (fd_title fd) /\ 3 <= js_length (fd_title fd).
Proof.
  simpl. rewrite <- trim_truthy_iff.
  destruct (jsstr_truthy (js_trim (fd_title fd))); simpl; [|naive_solver].
  destruct (Z.ltb_spec (js_length (fd_title fd)) 3); naive_solver lia.
Qed.

(** a title of two visible characters padded with a
    space, [" ab"], passes validation although it has fewer than 3
    characters once trimmed (spec section 4.3 asks for 3). *)
Theorem padded_title_accepted now offset :
  err_title (validateForm (mkForm (js " ab") [] [] (js "MEDIUM") (js "TODO")) now offset) = None /\
  js_length (js_trim (js " ab")) = 2.
Proof. split; reflexivity. Qed.

(** C15: the description is rejected exactly when it is longer than 500
    code units; one of exactly 500 passes although the message says "less
    than 500". *)
Theorem validateForm_description fd now offset :
  is_Some (err_description (validateForm fd now offset)) <-> 500 < js_length (fd_description fd).
Proof.
  simpl. destruct (fd_description fd) as [|c d] eqn:E; simpl.
  - unfold js_length. simpl. split; [by intros []|lia].
  - destruct (Z.ltb_spec 500 (js_length (c :: d))); split; (done || lia || eauto).
Qed.

(** C16: in a time zone less than a day from UTC, a due date that parses
    to day [day] is rejected exactly when it is before the local date, or,
    west of UTC, when it is the local date itself. *)
Theorem validateForm_dueDate fd now offset day :
  -1440 < offset < 1440 -> parse_date (fd_dueDate fd) = Some day ->
  is_Some (err_dueDate (validateForm fd now offset)) <->
  day < local_day now offset \/ (offset < 0 /\ day = local_day now offset).
Proof.
  intros Ho Hp. simpl. rewrite Hp.
  assert (jsstr_truthy (fd_dueDate fd) = true) as ->.
  { apply jsstr_truthy_true. intros E. by rewrite E in Hp. }
  rewrite <- before_local_midnight by done.
  destruct (_ <? _); split; (done || eauto || by intros []).
Qed.

(** C17: a submission sends a request exactly when [validateForm] finds
    no error, and the request is then one POST of the form to /tasks; a
    blocked submission leaves [loading] as it was. *)
Theorem handleSubmit_request VITE_API_URL st now offset σ :
  (forall req, (handleSubmit VITE_API_URL st now offset σ).2 = Some req <->
     errors_empty (validateForm (formData st) now offset) = true /\
     req = create_request VITE_API_URL (formData st) σ) /\
  (errors_empty (validateForm (formData st) now offset) = false ->
   loading (handleSubmit VITE_API_URL st now offset σ).1 = loading st).
Proof.
  unfold handleSubmit. destruct (errors_empty _); simpl; naive_solver.
Qed.

(** after the reply to the POST, [loading] is cleared and the form
    and errors are kept; the page navigates to /task/<id> when the status
    is ok and the body parses, and shows the failure alert otherwise. *)
Theorem handleSubmit_reply_outcome o st :
  let '(st', effs) := handleSubmit_reply o st in
  loading st' = false /\ formData st' = formData st /\ errors st' = errors st /\
  ((exists r data, o = Responded r /\ res_ok r = true /\ res_body r = JsonOk data /\
      effs = [Navigate ("/task/" +:+ match created_id data with
                                     | Some i => show_Z i | None => "undefined" end)]) \/
   effs = [Alert failure_alert]).
Proof.
  unfold handleSubmit_reply. destruct o as [m|r]; simpl; [naive_solver|].
  destruct (res_ok r) eqn:Hok; [|naive_solver].
  destruct (res_body r) as [data|m] eqn:Hb; naive_solver.
Qed.

Lemma typed_lengths st :
  typed st -> (length (fd_title (formData st)) <= 100)%nat /\
              (length (fd_description (formData st)) <= 500)%nat.
Proof.
  induction 1 as [|f v st _ [IHt IHd]]; [simpl; lia|].
  unfold handleChange; simpl.
  destruct (decide (f = FTitle)) as [->|Ht];
    [split; [by apply length_user_input_le|done]|].
  rewrite set_field_title by done.
  destruct (decide (f = FDescription)) as [->|Hd];
    [split; [done|by apply length_user_input_le]|].
  by rewrite set_field_description.
Qed.

(** C18: through the inputs the user can only produce descriptions of at
    most 500 code units (the textarea's [maxLength]), so the description
    check of [validateForm] never fires on a form filled in the page. *)
Theorem typed_description_never_rejected st now offset :
  typed st -> err_description (validateForm (formData st) now offset) = None.
Proof.
  intros Ht. destruct (typed_lengths st Ht) as [_ Hd]. simpl.
  destruct (jsstr_truthy _); simpl; [|done].
  unfold js_length. destruct (Z.ltb_spec 500 (Z.of_nat (length (fd_description (formData st)))));
    [lia|done].
Qed.

(** C19 (finding): west of UTC, choosing today's local date is refused.
    When the local date is also today's UTC date (so the browser's [min]
    lets the form through), [handleSubmit] still reports "Due date cannot
    be in the past" and sends nothing, because the date string is read as
    UTC midnight and compared with local midnight. *)
Theorem today_rejected_west st now offset σ VITE_API_URL :
  -1440 < offset < 0 ->
  parse_date (fd_dueDate (formData st)) = Some (local_day now offset) ->
  date_min now <= local_day now offset ->
  err_dueDate (errors (submit st now offset σ VITE_API_URL).1) = Some "Due date cannot be in the past" /\
  (submit st now offset σ VITE_API_URL).2 = None.
Proof.
  intros Ho Hp Hmin. unfold submit, date_constraint_ok. rewrite Hp.
  rewrite (proj2 (Z.leb_le _ _) Hmin).
  assert (local_day now offset * DAY_MS <? local_midnight now offset = true) as Hlt.
  { apply before_local_midnight; [lia|]. right. split; [lia|done]. }
  assert (err_dueDate (validateForm (formData st) now offset) = Some "Due date cannot be in the past") as He.
  { simpl. rewrite Hp, Hlt.
    assert (jsstr_truthy (fd_dueDate (formData st)) = true) as ->; [|done].
    apply jsstr_truthy_true. intros E. by rewrite E in Hp. }
  unfold handleSubmit. unfold errors_empty at 1.
  destruct (validateForm (formData st) now offset) as [a b c] eqn:Ev. simpl in He. subst c.
  by destruct a, b.
Qed.

(** ** Witnesses *)

(** 2025-01-10 at 14:00 UTC, 09:00 in a zone five hours west of UTC. *)
Definition sample_now : Z := 20098 * DAY_MS + 14 * 3600000.
Definition sample_form : form_data :=
  mkForm (js "Write report") [] (js "2025-01-10") (js "HIGH") (js "TODO").
Definition sample_page : page := mkPage sample_form false no_errors.

Lemma validateForm_dueDate_witness :
  is_Some (err_dueDate (validateForm sample_form sample_now (-300))) <->
  20098 < local_day sample_now (-300) \/ ((-300) < 0 /\ 20098 = local_day sample_now (-300)).
Proof. apply (validateForm_dueDate sample_form sample_now (-300) 20098); [lia|reflexivity]. Defined.

Lemma typed_description_never_rejected_witness :
  err_description (validateForm (formData (handleChange FDescription
     (user_input FDescription (repeat 97 600)) initial_page)) sample_now 60) = None.
Proof.
  apply (typed_description_never_rejected _ sample_now 60).
  apply typed_change, typed_initial.
Defined.

Lemma today_rejected_west_witness :
  err_dueDate (errors (submit sample_page sample_now (-300) ∅ None).1) =
    Some "Due date cannot be in the past" /\
  (submit sample_page sample_now (-300) ∅ None).2 = None.
Proof. apply (today_rejected_west sample_page sample_now (-300) ∅ None); [lia|reflexivity|vm_compute; discriminate]. Defined.

End CreateTask.
