(* ===== verification/PageFetch.v ===== *)
(** The request idiom the routed pages repeat inline instead of calling
    services/api.js (src/src/pages/Tasks.jsx, Analytics.jsx,
    TaskDetails.jsx): read the token from [localStorage], send it as
    [`Bearer ${token}`], throw on a non-ok status, parse the body, and keep
    the data, a page-level error and a [loading] flag.

    As a [Transport] this idiom does not satisfy [TransportLaws]: it sends
    [Bearer null] when no token is stored, and a 401 reply neither clears
    the token nor leaves the page, so the forced-logout rule of spec
    section 4.1 does not hold for the pages the app routes to. *)

From S2P Require Import Prelude Js Api.
Open Scope Z_scope.

Module PageFetch.

(** The state a loading page keeps: the data, [loading], [error]. *)
Record loadable (A : Type) := mkLoadable {
  ld_data : A;
  ld_loading : bool;
  ld_error : option string;
}.
Arguments mkLoadable {A} ld_data ld_loading ld_error.
Arguments ld_data {A} l.
Arguments ld_loading {A} l.
Arguments ld_error {A} l.

(** The headers of the inline requests. *)
Definition page_headers (σ : storage) : list (string * string) :=
  [("Authorization", "Bearer " +:+ js_template_nullable (σ !! "token"));
   ("Content-Type", "application/json")].

(** [setLoading(true)] before the request. *)
Definition load_start {A} (st : loadable A) : loadable A :=
  mkLoadable (ld_data st) true (ld_error st).

(** The body of the [try]/[catch]/[finally] after [await fetch]: an ok
    reply whose body parses replaces the data and clears the error;
    otherwise the error is the thrown message and the data is kept;
    [loading] is cleared either way. *)
Definition load_reply {A} (fail_msg : string) (o : fetch_outcome A) (st : loadable A)
    : loadable A :=
  match o with
  | Responded response =>
      if res_ok response then
        match res_body response with
        | JsonOk data => mkLoadable data false None
        | JsonBad msg => mkLoadable (ld_data st) false (Some msg)
        end
      else mkLoadable (ld_data st) false (Some fail_msg)
  | NetworkError msg => mkLoadable (ld_data st) false (Some msg)
  end.

(** The idiom as a request wrapper: the request is built as the pages
    build it; after the reply storage is untouched, nothing navigates, and
    the promise rejects on a non-ok status. *)
#[export] Instance page_transport : Transport := {|
  tr_send B m ep d σ := mkRequest m ep (page_headers σ) d;
  tr_resume A o σ :=
    match o with
    | NetworkError msg => (σ, [], Rejected msg)
    | Responded response =>
        if res_ok response then (σ, [], Resolved response) else (σ, [], Rejected "not ok")
    end;
|}.

(** ** Theorems *)

(** A reply never changes what a loading page would do with the session:
    [load_reply] has no access to storage, and the wrapper leaves it
    unchanged. *)
Lemma page_resume_storage {A} (o : fetch_outcome A) σ : (tr_resume o σ).1.1 = σ.
Proof. destruct o as [m|r]; simpl; [done|]. by destruct (res_ok r). Qed.

Lemma page_resume_effects {A} (o : fetch_outcome A) σ : (tr_resume o σ).1.2 = [].
Proof. destruct o as [m|r]; simpl; [done|]. by destruct (res_ok r). Qed.

(** C20 (finding): the pages' inline requests do not implement the
    forced-logout rule: the idiom is not a lawful [Transport].  A 401
    reply with a stored token leaves the token in place and stays on the
    page. *)
Theorem page_transport_not_lawful : ~ TransportLaws (H := page_transport).
Proof.
  intros HL.
  destruct (@tr_forced_logout _ HL unit (mkResponse 401 (JsonOk tt)) {["token" := "t"]} eq_refl)
    as [Hn _].
  rewrite page_resume_storage in Hn. by rewrite lookup_singleton_eq in Hn.
Qed.

(** a load that fails (network failure, non-ok status, body that
    does not parse) keeps the data the page had and reports an error; a
    successful one replaces the data wholesale (no merge) and clears the
    error; [loading] is cleared in every case. *)
Theorem load_reply_outcome {A} fail_msg (o : fetch_outcome A) st :
  ld_loading (load_reply fail_msg o st) = false /\
  ((exists r data, o = Responded r /\ res_ok r = true /\ res_body r = JsonOk data /\
      load_reply fail_msg o st = mkLoadable data false None) \/
   (ld_data (load_reply fail_msg o st) = ld_data st /\ is_Some (ld_error (load_reply fail_msg o st)))).
Proof.
  destruct o as [m|r]; simpl; [naive_solver|].
  destruct (res_ok r) eqn:Hok; [|naive_solver].
  destruct (res_body r) as [d|m] eqn:Hb; naive_solver.
Qed.

End PageFetch.
