(* ===== verification/TasksPage.v ===== *)
(** The task list page of src/src/pages/Tasks.jsx: [fetchTasks] loads
    the whole collection with the pages' inline request idiom, and the
    markup shows a spinner, an error with a retry button, an empty state,
    or one card per task with its overdue flag, badges, description, due
    date and subtask count. *)

From S2P Require Import Prelude Js Task PageFetch.
Open Scope Z_scope.

Module TasksPage.
Import PageFetch.

(** [tasks], [loading], [error]: [useState([])], [useState(true)],
    [useState(null)]. *)
Definition state := loadable (list task).
Definition initial : state := mkLoadable [] true None.

Section Request.
Context (VITE_API_URL : option string).

Definition API_BASE_URL : string := VITE_API_URL ||ₛ "http://localhost:8080".

(** [fetchTasks] up to its [await]: [setLoading(true)] and the request. *)
Definition fetchTasks_request (st : state) (σ : storage) : state * request unit :=
  (load_start st, mkRequest GET (API_BASE_URL +:+ "/tasks") (page_headers σ) None).
End Request.

(** [fetchTasks] after its [await]. *)
Definition fetchTasks : fetch_outcome (list task) -> state -> state :=
  load_reply "Failed to fetch tasks".

Definition getStatusBadgeClass (s : string) : string :=
  if String.eqb s "TODO" then "status-badge status-todo"
  else if String.eqb s "IN_PROGRESS" then "status-badge status-progress"
  else if String.eqb s "DONE" then "status-badge status-done"
  else "status-badge".

Definition getPriorityBadgeClass (p : string) : string :=
  if String.eqb p "HIGH" then "priority-badge priority-high"
  else if String.eqb p "MEDIUM" then "priority-badge priority-medium"
  else if String.eqb p "LOW" then "priority-badge priority-low"
  else "priority-badge".

(** What [formatDate] renders; the locale rendering of a valid date is
    left abstract as its day number. *)
Inductive date_text := NoDueDate | LocaleDate (day : Z) | InvalidDate.

Definition formatDate (d : option jsstr) : date_text :=
  match d with
  | Some s =>
      if jsstr_truthy s then
        match parse_date s with Some day => LocaleDate day | None => InvalidDate end
      else NoDueDate
  | None => NoDueDate
  end.

(** [isOverdue(dueDate, status)]: never for a missing date or a DONE task;
    otherwise the due date (UTC midnight) is before now.  An unparsable
    date is [NaN] and compares false. *)
Definition isOverdue (d : option jsstr) (status : string) (now : Z) : bool :=
  match d with
  | Some s =>
      if negb (jsstr_truthy s) || String.eqb status "DONE" then false
      else match parse_date s with Some day => day * DAY_MS <? now | None => false end
  | None => false
  end.

(** [status.replace('_', ' ')]: the first underscore only. *)
Fixpoint replace_first_underscore (s : string) : string :=
  match s with
  | EmptyString => EmptyString
  | String c s' =>
      if Ascii.eqb c (Ascii.ascii_of_nat 95) then String (Ascii.ascii_of_nat 32) s'
      else String c (replace_first_underscore s')
  end.

(** One card of the grid. *)
Record card := mkCard {
  card_id : Z;
  card_overdue : bool;
  card_status_class : string;
  card_status_label : string;
  card_priority_class : string;
  card_title : jsstr;
  card_description : jsstr;
  card_due : date_text;
  card_subtasks : option (Z * Z);   (** [completed/total], when there are subtasks *)
}.

Definition render_card (now : Z) (t : task) : card :=
  mkCard (task_id t)
    (isOverdue (dueDate t) (task_status t) now)
    (getStatusBadgeClass (task_status t))
    (replace_first_underscore (task_status t))
    (getPriorityBadgeClass (task_priority t))
    (title t)
    (match description t with
     | Some d => if jsstr_truthy d then d else js "No description provided"
     | None => js "No description provided"
     end)
    (formatDate (dueDate t))
    (match subtasks t with
     | [] => None
     | sts => Some (count_by completed sts, Z.of_nat (length sts))
     end).

Inductive view :=
| VLoading
| VError (msg : string)
| VEmpty
| VGrid (cards : list card).

Definition render (st : state) (now : Z) : view :=
  if ld_loading st then VLoading
  else if opt_truthy (ld_error st) then VError (js_string_of (ld_error st))
  else match ld_data st with
       | [] => VEmpty
       | ts => VGrid (map (render_card now) ts)
       end.

(** ** Theorems *)

Lemma render_card_ids now l : map card_id (map (render_card now) l) = map task_id l.
Proof. induction l as [|t l IH]; simpl; congruence. Qed.

(** a 401 reply to the list request does not log out: the
    page keeps the tasks it had and shows "Failed to fetch tasks" with a
    retry button; the list request has no way to touch the session. *)
Theorem tasks_401_shows_error st (r : response (list task)) now :
  res_status r = 401 ->
  ld_data (fetchTasks (Responded r) st) = ld_data st /\
  render (fetchTasks (Responded r) st) now = VError "Failed to fetch tasks".
Proof.
  intros H. unfold fetchTasks, load_reply, res_ok. rewrite H. simpl. done.
Qed.

(** a task is shown overdue exactly when it is not DONE and its due
    date parses to a day whose UTC midnight is before now. *)
Theorem isOverdue_iff d status now :
  isOverdue d status now = true <->
  status <> "DONE" /\
  exists s day, d = Some s /\ parse_date s = Some day /\ day * DAY_MS < now.
Proof.
  destruct d as [s|]; simpl; [|naive_solver].
  destruct (String.eqb_spec status "DONE") as [->|Hs]; rewrite ?orb_true_r; [naive_solver|].
  rewrite orb_false_r. destruct (jsstr_truthy s) eqn:Ht; simpl.
  - destruct (parse_date s) as [day|] eqn:Hp; [|naive_solver].
    rewrite Z.ltb_lt. naive_solver.
  - split; [done|]. intros (_ & s' & day & [= <-] & Hp & _).
    unfold jsstr_truthy in Ht. destruct s; [done|simpl in Ht; done].
Qed.

(** the grid shows one card per task in the server's order, and a
    card's subtask summary counts completed subtasks, never more than it
    has. *)
Theorem render_grid st now cards :
  render st now = VGrid cards ->
  map card_id cards = map task_id (ld_data st) /\
  Forall (fun c => forall k n, card_subtasks c = Some (k, n) -> 0 <= k <= n /\ 0 < n) cards.
Proof.
  unfold render. destruct (ld_loading st), (opt_truthy (ld_error st)); try done.
  destruct (ld_data st) as [|t ts] eqn:E; [done|]. intros Hv.
  assert (cards = map (render_card now) (t :: ts)) as -> by congruence.
  split; [apply render_card_ids|].
  apply Forall_forall. intros c Hc. apply list_elem_of_In, in_map_iff in Hc as (t' & <- & _).
  intros k n. simpl. destruct (subtasks t') as [|x xs] eqn:Es; [done|].
  intros [= <- <-]. pose proof (count_by_bounds completed (x :: xs)). simpl in *. lia.
Qed.

Lemma tasks_401_shows_error_witness :
  ld_data (fetchTasks (Responded (mkResponse 401 (JsonBad ""))) initial) = ld_data initial /\
  render (fetchTasks (Responded (mkResponse 401 (JsonBad ""))) initial) 0 = VError "Failed to fetch tasks".
Proof. apply tasks_401_shows_error. reflexivity. Defined.

Definition sample_state : state :=
  mkLoadable [mkTask 1 (js "Report") None "TODO" "LOW" None
                [mkSubtask 1 (js "Draft") true; mkSubtask 2 (js "Review") false] []] false None.

Lemma render_grid_witness :
  render sample_state 0 = VGrid (map (render_card 0) (ld_data sample_state)) /\
  (map card_id (map (render_card 0) (ld_data sample_state)) = map task_id (ld_data sample_state) /\
   Forall (fun c => forall k n, card_subtasks c = Some (k, n) -> 0 <= k <= n /\ 0 < n)
     (map (render_card 0) (ld_data sample_state))).
Proof.
  split; [reflexivity|]. apply (render_grid sample_state 0). reflexivity.
Defined.

End TasksPage.
