(* ===== verification/Analytics.v ===== *)
(** The analytics page of src/src/pages/Analytics.jsx and the page
    src/src/pages/Dashboard.jsx: its tasks state, load and client-side
    counts.

    [fetchAnalytics] loads the server's aggregate counts with the pages'
    inline request idiom; the page derives the completion and in-progress
    rates with [toFixed(1)] (kept here as tenths of a percent), shows the
    charts and the progress bar only when there are tasks, and picks
    insight cards by comparing the rendered rate string with numbers.
    Dashboard.jsx counts the tasks of a list by status and by priority. *)

From S2P Require Import Prelude Js Task PageFetch.
Open Scope Z_scope.

Module Analytics.
Import PageFetch.

(** The body of GET /analytics. *)
Record analytics := mkAnalytics {
  totalTasks : Z;
  toDo : Z;
  inProgress : Z;
  done : Z;
}.

(** [analytics] ([null] until loaded, or if the server sends [null]),
    [loading], [error]. *)
Definition state := loadable (option analytics).
Definition initial : state := mkLoadable None true None.

Definition fetchAnalytics_request (st : state) (σ : storage) : state * request unit :=
  (load_start st, mkRequest GET "http://localhost:8080/analytics" (page_headers σ) None).

Definition fetchAnalytics : fetch_outcome (option analytics) -> state -> state :=
  load_reply "Failed to fetch analytics".

(** A rate as the page computes it: the number [0] when there are no
    tasks, otherwise [(part / total * 100).toFixed(1)], a string with one
    decimal, kept as its value in tenths of a percent. *)
Inductive rate := RateZero | RateFixed (tenths : Z).

Definition rate_of (part total : Z) : rate :=
  if 0 <? total then RateFixed (round_ratio 1000 part total) else RateZero.

Definition completionRate (a : analytics) : rate := rate_of (done a) (totalTasks a).
Definition inProgressRate (a : analytics) : rate := rate_of (inProgress a) (totalTasks a).

(** The text [{rate}%] shows. *)
Definition rate_text (r : rate) : string :=
  match r with
  | RateZero => "0"
  | RateFixed t => show_Z (t / 10) +:+ "." +:+ show_Z (t mod 10)
  end.

(** The number a comparison such as [completionRate >= 70] converts the
    rate to, in tenths. *)
Definition rate_tenths (r : rate) : Z :=
  match r with RateZero => 0 | RateFixed t => t end.

Inductive insight := GreatJob | TooManyInProgress | ManyPending | KeepGoing.

#[export] Instance insight_eq_dec : EqDecision insight.
Proof. solve_decision. Defined.

(** The insight cards, in the order of the markup. *)
Definition insights (a : analytics) : list insight :=
  let c := rate_tenths (completionRate a) in
  (if 700 <=? c then [GreatJob] else []) ++
  (if done a <? inProgress a then [TooManyInProgress] else []) ++
  (if totalTasks a <? 2 * toDo a then [ManyPending] else []) ++
  (if (c <? 300) && (0 <? totalTasks a) then [KeepGoing] else []).

Record dashboard := mkDashboard {
  stat_total : Z;
  stat_todo : Z;
  stat_in_progress : Z * string;      (** count and [{inProgressRate}%] *)
  stat_done : Z * string;             (** count and [{completionRate}%] *)
  charts_shown : bool;                (** pie and bar charts, else "No data" *)
  progress_bar : option string;       (** the progress section, when shown *)
  insight_cards : list insight;       (** the insights section, when shown *)
}.

Inductive view :=
| VLoading
| VError (msg : string)
| VCrash                              (** [analytics] is [null]: [analytics.toDo] throws *)
| VDashboard (d : dashboard).

Definition render (st : state) : view :=
  if ld_loading st then VLoading
  else if opt_truthy (ld_error st) then VError (js_string_of (ld_error st))
  else match ld_data st with
       | None => VCrash
       | Some a =>
           let shown := 0 <? totalTasks a in
           VDashboard (mkDashboard (totalTasks a) (toDo a)
             (inProgress a, rate_text (inProgressRate a))
             (done a, rate_text (completionRate a))
             shown
             (if shown then Some (rate_text (completionRate a)) else None)
             (if shown then insights a else []))
       end.

(** ** Dashboard.jsx *)

Record chart_datum := mkDatum { datum_name : string; datum_value : Z }.

Definition statusData (ts : list task) : list chart_datum :=
  [mkDatum "TODO" (count_status "TODO" ts);
   mkDatum "IN_PROGRESS" (count_status "IN_PROGRESS" ts);
   mkDatum "DONE" (count_status "DONE" ts)].

Definition priorityData (ts : list task) : list chart_datum :=
  [mkDatum "HIGH" (count_priority "HIGH" ts);
   mkDatum "MEDIUM" (count_priority "MEDIUM" ts);
   mkDatum "LOW" (count_priority "LOW" ts)].

(** Dashboard's [tasks]: [useState([])], then [setTasks(data)] with what
    [getTasks()] resolves to ([undefined] is [None]); a rejected [load] is
    unhandled and leaves the state. *)
Record dash_page := mkDashPage { dash_tasks : option (list task) }.

Definition dashboard_initial : dash_page := mkDashPage (Some []).

Definition dashboard_load (o : promise (option (list task))) (d : dash_page) : dash_page :=
  match o with Resolved data => mkDashPage data | Rejected _ => d end.

(** The two charts' data, or the crash of [tasks.filter] on [undefined]. *)
Inductive dashboard_view :=
| DCrash
| DCharts (status priority : list chart_datum).

Definition dashboard_render (d : dash_page) : dashboard_view :=
  match dash_tasks d with
  | None => DCrash
  | Some ts => DCharts (statusData ts) (priorityData ts)
  end.

(** The counts GET /analytics returns for a task collection (spec section
    6: aggregate counts by status), as Dashboard.jsx computes them on the
    client. *)
Definition analytics_of_tasks (ts : list task) : analytics :=
  mkAnalytics (Z.of_nat (length ts)) (count_status "TODO" ts)
    (count_status "IN_PROGRESS" ts) (count_status "DONE" ts).

(** ** Theorems *)

(** the spec's scenario: for two tasks, one TODO and one DONE, the
    completion rate of their counts is shown as "50.0". *)
Theorem completion_scenario t1 t2 :
  task_status t1 = "TODO" -> task_status t2 = "DONE" ->
  rate_text (completionRate (analytics_of_tasks [t1; t2])) = "50.0".
Proof.
  intros H1 H2. unfold completionRate, analytics_of_tasks, count_status. simpl.
  rewrite !count_by_cons, H1, H2. reflexivity.
Qed.

(** C23: with [0 <= done <= totalTasks] and at least one task, the
    completion rate is a value in tenths between 0.0 and 100.0, and it is
    100.0 when every task is done. *)
Theorem completionRate_bounds a :
  0 <= done a <= totalTasks a -> 0 < totalTasks a ->
  exists t, completionRate a = RateFixed t /\ 0 <= t <= 1000 /\
            (done a = totalTasks a -> t = 1000).
Proof.
  intros Hd Ht. unfold completionRate, rate_of.
  rewrite (proj2 (Z.ltb_lt _ _) Ht). eexists. split; [done|].
  split; [split; [apply round_ratio_nonneg|apply round_ratio_le]; lia|].
  intros ->. apply round_ratio_full; lia.
Qed.

(** When [getTasks()] rejects (it is not an export of api.js), the
    dashboard keeps its initial empty list: both charts show only zeros. *)
Lemma dashboard_rejected_zero msg :
  dashboard_render (dashboard_load (Rejected msg) dashboard_initial) =
  DCharts [mkDatum "TODO" 0; mkDatum "IN_PROGRESS" 0; mkDatum "DONE" 0]
          [mkDatum "HIGH" 0; mkDatum "MEDIUM" 0; mkDatum "LOW" 0].
Proof. reflexivity. Qed.

(** C24: the dashboard's status counts add up to the number of tasks when
    every task has one of the three statuses. *)
Theorem statusData_partition ts :
  statuses_valid ts ->
  foldr Z.add 0 (map datum_value (statusData ts)) = Z.of_nat (length ts).
Proof.
  intros Hv. simpl. rewrite <- (count_status_partition ts Hv). lia.
Qed.

(** an ok reply whose body is JSON [null] is stored as the
    analytics, and rendering then dereferences [null]: the page crashes
    instead of showing an error. *)
Theorem null_analytics_crashes st :
  render (fetchAnalytics (Responded (mkResponse 200 (JsonOk None))) st) = VCrash.
Proof. reflexivity. Qed.

(** ** Witnesses *)

Definition todo_task : task := mkTask 1 [] None "TODO" "MEDIUM" None [] [].
Definition done_task : task := mkTask 2 [] None "DONE" "HIGH" None [] [].

Lemma completion_scenario_witness :
  rate_text (completionRate (analytics_of_tasks [todo_task; done_task])) = "50.0".
Proof. apply completion_scenario; reflexivity. Defined.

Lemma completionRate_bounds_witness :
  exists t, completionRate (mkAnalytics 3 1 0 2) = RateFixed t /\ 0 <= t <= 1000 /\
            (done (mkAnalytics 3 1 0 2) = totalTasks (mkAnalytics 3 1 0 2) -> t = 1000).
Proof. apply completionRate_bounds; simpl; lia. Defined.

Lemma statusData_partition_witness :
  foldr Z.add 0 (map datum_value (statusData [todo_task; done_task])) =
  Z.of_nat (length [todo_task; done_task]).
Proof.
  apply statusData_partition. repeat constructor; simpl; eauto.
Defined.

End Analytics.
