(* ===== verification/Backend.v ===== *)
(** The remote task API as the client code relies on it (spec section 6),
    stated as an interface: [Backend] gives the server's answers to the
    endpoints the pages call, [BackendLaws] what a write promises to a
    later read.  The server is not code of this repository; client
    theorems that need its behaviour are proved against these laws, and
    [MemoryBackend] is an in-memory instance showing they can be met.

    A write answers [None] when the server refuses it (a non-ok status). *)

From S2P Require Import Prelude Js Task.
Open Scope Z_scope.

(** The body of a PUT /tasks/{id}: the whole task object, or the partial
    object [{ status }] that the board's drag-and-drop sends. *)
Inductive put_body :=
| PutTask (t : task)
| PutStatus (status : string).

Definition put_body_status (b : put_body) : string :=
  match b with PutTask t => task_status t | PutStatus s => s end.

(** [{ ...t, status: s }]: the task with its status replaced. *)
Definition with_status (s : string) (t : task) : task :=
  mkTask (task_id t) (title t) (description t) s (task_priority t) (dueDate t)
    (subtasks t) (comments t).

Definition find_subtask (sid : Z) (t : task) : option subtask :=
  List.find (fun s => subtask_id s =? sid) (subtasks t).

Class Backend := {
  srv_state : Type;
  srv_task : srv_state -> Z -> option task;                        (** GET /tasks/{id} *)
  srv_tasks : srv_state -> list task;                              (** GET /tasks *)
  srv_put_task : srv_state -> Z -> put_body -> option srv_state;  (** PUT /tasks/{id} *)
  srv_put_subtask : srv_state -> Z -> Z -> bool -> option srv_state;
                                                  (** PUT /tasks/{id}/subtasks/{sid} *)
}.

Class BackendLaws `{Backend} := {
  (** a task the list returns is the task its id returns *)
  srv_tasks_task : forall s t, In t (srv_tasks s) -> srv_task s (task_id t) = Some t;
  (** an accepted PUT of a task sets its status *)
  srv_put_task_status : forall s id b s',
    srv_put_task s id b = Some s' ->
    exists t, srv_task s' id = Some t /\ task_id t = id /\ task_status t = put_body_status b;
  (** an accepted PUT of a task is visible in the list *)
  srv_put_task_listed : forall s id b s' t,
    srv_put_task s id b = Some s' -> srv_task s' id = Some t -> In t (srv_tasks s');
  (** the list holds one entry per id *)
  srv_tasks_ids : forall s, NoDup (map task_id (srv_tasks s));
  (** an accepted PUT of a subtask sets its completion *)
  srv_put_subtask_completed : forall s id sid b s',
    srv_put_subtask s id sid b = Some s' ->
    exists t st, srv_task s' id = Some t /\ find_subtask sid t = Some st /\ completed st = b;
}.

(** ** An in-memory instance: a list of tasks updated by id *)

Module MemoryBackend.

Definition set_completed (sid : Z) (b : bool) (t : task) : task :=
  mkTask (task_id t) (title t) (description t) (task_status t) (task_priority t) (dueDate t)
    (map (fun st => if subtask_id st =? sid then mkSubtask (subtask_id st) (subtask_title st) b
                    else st) (subtasks t))
    (comments t).

Definition lookup (ts : list task) (id : Z) : option task :=
  List.find (fun t => task_id t =? id) ts.

Definition update (id : Z) (f : task -> task) (ts : list task) : list task :=
  map (fun t => if task_id t =? id then f t else t) ts.

(** A store accepts a write to a task it holds; a full PUT keeps the id of
    the URL. *)
Definition apply_put (b : put_body) (t : task) : task :=
  match b with
  | PutTask t' => mkTask (task_id t) (title t') (description t') (task_status t')
                    (task_priority t') (dueDate t') (subtasks t') (comments t')
  | PutStatus s => with_status s t
  end.

Record store := mkStore { store_tasks : list task; store_ids : NoDup (map task_id store_tasks) }.

Lemma update_ids id f ts :
  (forall t, task_id (f t) = task_id t) -> map task_id (update id f ts) = map task_id ts.
Proof. intros Hf. induction ts as [|t ts IH]; simpl; [done|]. destruct (_ =? _); simpl; congruence. Qed.

Lemma apply_put_id b t : task_id (apply_put b t) = task_id t.
Proof. by destruct b. Qed.

Lemma set_completed_id sid b t : task_id (set_completed sid b t) = task_id t.
Proof. done. Qed.

Definition put_task (s : store) (id : Z) (b : put_body) : option store :=
  match lookup (store_tasks s) id with
  | Some _ =>
      Some (mkStore (update id (apply_put b) (store_tasks s))
              (eq_ind_r (fun l => NoDup l) (store_ids s) (update_ids id (apply_put b) _ (apply_put_id b))))
  | None => None
  end.

Definition put_subtask (s : store) (id sid : Z) (b : bool) : option store :=
  match lookup (store_tasks s) id with
  | Some t =>
      if find_subtask sid t is Some _ then
        Some (mkStore (update id (set_completed sid b) (store_tasks s))
                (eq_ind_r (fun l => NoDup l) (store_ids s)
                   (update_ids id (set_completed sid b) _ (set_completed_id sid b))))
      else None
  | None => None
  end.

#[export] Instance memory_backend : Backend := {|
  srv_state := store;
  srv_task s id := lookup (store_tasks s) id;
  srv_tasks s := store_tasks s;
  srv_put_task := put_task;
  srv_put_subtask := put_subtask;
|}.

(** *** Its laws *)

Section Lookup.
#[local] Set Default Proof Using "Type*".
Context (f : task -> task) (Hf : forall t, task_id (f t) = task_id t).

Lemma lookup_update_same ts id t :
  lookup ts id = Some t -> lookup (update id f ts) id = Some (f t).
Proof.
  induction ts as [|t' ts IH]; simpl; [done|].
  destruct (Z.eqb_spec (task_id t') id) as [E|E]; simpl.
  - intros [= <-]. by rewrite Hf, E, Z.eqb_refl.
  - by apply Z.eqb_neq in E as ->.
Qed.

Lemma lookup_update_none ts id : lookup ts id = None -> lookup (update id f ts) id = None.
Proof.
  induction ts as [|t' ts IH]; simpl; [done|].
  destruct (Z.eqb_spec (task_id t') id) as [E|E]; [done|]. simpl.
  by apply Z.eqb_neq in E as ->.
Qed.
End Lookup.

Lemma lookup_In ts id t : lookup ts id = Some t -> In t ts /\ task_id t = id.
Proof. intros H. apply find_some in H as [? ?%Z.eqb_eq]. done. Qed.

Lemma lookup_of_In ts t : NoDup (map task_id ts) -> In t ts -> lookup ts (task_id t) = Some t.
Proof.
  induction ts as [|t' ts IH]; simpl; [done|]. intros Hnd Hin.
  apply NoDup_cons in Hnd as [Hn Hnd].
  destruct (Z.eqb_spec (task_id t') (task_id t)) as [E|E]; destruct Hin as [->|Hin]; auto.
  - exfalso. apply Hn. rewrite E. apply list_elem_of_In, in_map, Hin.
  - done.
Qed.

Lemma find_subtask_set_completed sid b t x :
  find_subtask sid t = Some x ->
  find_subtask sid (set_completed sid b t) = Some (mkSubtask (subtask_id x) (subtask_title x) b).
Proof.
  unfold find_subtask, set_completed. simpl. induction (subtasks t) as [|y l IH]; simpl; [done|].
  destruct (Z.eqb_spec (subtask_id y) sid) as [E|E]; simpl.
  - intros [= <-]. by rewrite E, Z.eqb_refl.
  - by apply Z.eqb_neq in E as ->.
Qed.

Lemma put_task_lookup s id b t :
  lookup (store_tasks s) id = Some t ->
  exists s', put_task s id b = Some s' /\ lookup (store_tasks s') id = Some (apply_put b t).
Proof.
  intros E. unfold put_task. rewrite E. eexists. split; [done|]. simpl.
  apply lookup_update_same; [apply apply_put_id|done].
Qed.

Lemma put_task_missing s id b : lookup (store_tasks s) id = None -> put_task s id b = None.
Proof. unfold put_task. by intros ->. Qed.

#[export] Instance memory_backend_laws : BackendLaws (H := memory_backend).
Proof.
  split; cbn [srv_task srv_tasks srv_put_task srv_put_subtask memory_backend].
  - intros [ts nd] t Hin. by apply lookup_of_In.
  - intros [ts nd] id b s'. unfold put_task. simpl.
    destruct (lookup ts id) as [t0|] eqn:E; [|done]. intros [= <-]. simpl.
    eexists. rewrite (lookup_update_same _ (apply_put_id b) _ _ _ E). split; [done|].
    apply lookup_In in E as [_ <-]. by destruct b.
  - intros [ts nd] id b s' t. unfold put_task. simpl.
    destruct (lookup ts id); [|done]. intros [= <-] Hl. by apply lookup_In in Hl as [? _].
  - intros [ts nd]. exact nd.
  - intros [ts nd] id sid b s'. unfold put_subtask. simpl.
    destruct (lookup ts id) as [t0|] eqn:E; [|done].
    destruct (find_subtask sid t0) as [x|] eqn:Ex; [|done]. intros [= <-]. simpl.
    do 2 eexists. rewrite (lookup_update_same _ (set_completed_id sid b) _ _ _ E).
    split; [done|]. split; [by apply find_subtask_set_completed|done].
Qed.

End MemoryBackend.
