(* ===== verification/TaskDetails.v ===== *)
(** The task detail page, src/src/pages/TaskDetails.jsx: one task loaded
    by id, its status select, the subtask and comment forms, the subtask
    checkboxes, the edit form, delete, and the timer display.

    Every mutation handler sends its request with the inline idiom of
    [PageFetch] and, on an ok reply, calls [fetchTaskDetails()] again
    without awaiting it; [mutation_reply] is that common tail, and a reply
    reports whether it started the reload.  The round trip through a server
    that obeys [BackendLaws] is stated in Section [Roundtrip]. *)

From S2P Require Import Prelude Js Api Task PageFetch TasksPage Backend.
Open Scope Z_scope.

Module TaskDetails.

(** The page's [useState] hooks.  [editedTask] starts as [{}], modelled as
    [None]; the route parameter [id] is the string of the URL. *)
Record state := mkState {
  cur_task : option task;
  loading : bool;
  error : option string;
  newSubtask : jsstr;
  newComment : jsstr;
  isEditing : bool;
  editedTask : option task;
  timerRunning : bool;
  timeSpent : Z;
}.

Definition initial : state := mkState None true None [] [] false None false 0.

(** The JSON bodies the page sends. *)
Inductive body :=
| BodyTask (t : task)                          (** a whole task object *)
| BodyStatus (status : string)                 (** [{ ...null, status }] *)
| BodyEmpty                                    (** [{}] *)
| BodySubtask (title : jsstr) (completed : bool)
| BodyCompleted (completed : bool)
| BodyComment (text : jsstr).

Definition task_url (id : string) : string := "http://localhost:8080/tasks/" +:+ id.

Definition page_request (m : http_method) (url : string) (b : option body) (σ : storage)
    : request body :=
  mkRequest m url (PageFetch.page_headers σ) b.

(** ** fetchTaskDetails *)

Definition set_loading (b : bool) (st : state) : state :=
  mkState (cur_task st) b (error st) (newSubtask st) (newComment st) (isEditing st)
    (editedTask st) (timerRunning st) (timeSpent st).

Definition set_error (e : option string) (st : state) : state :=
  mkState (cur_task st) (loading st) e (newSubtask st) (newComment st) (isEditing st)
    (editedTask st) (timerRunning st) (timeSpent st).

(** [setLoading(true)] and the GET it sends. *)
Definition fetchTaskDetails_start (st : state) : state := set_loading true st.

Definition fetchTaskDetails_request (id : string) (σ : storage) : request body :=
  page_request GET (task_url id) None σ.

(** After the reply: [setTask(data); setEditedTask(data); setError(null)],
    or [setError(err.message)]; [setLoading(false)] in [finally]. *)
Definition fetchTaskDetails (o : fetch_outcome task) (st : state) : state :=
  let failed msg := set_loading false (set_error (Some msg) st) in
  match o with
  | Responded response =>
      if res_ok response then
        match res_body response with
        | JsonOk data =>
            mkState (Some data) false None (newSubtask st) (newComment st) (isEditing st)
              (Some data) (timerRunning st) (timeSpent st)
        | JsonBad msg => failed msg
        end
      else failed "Failed to fetch task"
  | NetworkError msg => failed msg
  end.

(** ** The mutation handlers *)

(** The tail every mutation handler shares after [await fetch]: on an ok
    reply run [on_ok] and then [fetchTaskDetails()] (whose synchronous
    part sets [loading]); otherwise [alert(label + err.message)].  The
    boolean says whether the reload request was sent. *)
Definition mutation_reply {A} (label failure : string) (on_ok : state -> state)
    (o : fetch_outcome A) (st : state) : state * list effect * bool :=
  match o with
  | Responded response =>
      if res_ok response then (fetchTaskDetails_start (on_ok st), [], true)
      else (st, [Alert (label +:+ failure)], false)
  | NetworkError msg => (st, [Alert (label +:+ msg)], false)
  end.

(** [handleStatusChange(newStatus)]: PUT [{ ...task, status: newStatus }]. *)
Definition handleStatusChange_request (newStatus : string) (id : string) (st : state)
    (σ : storage) : request body :=
  page_request PUT (task_url id)
    (Some (match cur_task st with
           | Some t => BodyTask (with_status newStatus t)
           | None => BodyStatus newStatus
           end)) σ.

Definition handleStatusChange_reply {A} : fetch_outcome A -> state -> state * list effect * bool :=
  mutation_reply "Error updating status: " "Failed to update status" id.

(** [handleAddSubtask]: nothing is sent when [newSubtask.trim()] is empty. *)
Definition handleAddSubtask_request (id : string) (st : state) (σ : storage)
    : option (request body) :=
  if jsstr_truthy (js_trim (newSubtask st)) then
    Some (page_request POST (task_url id +:+ "/subtasks")
            (Some (BodySubtask (newSubtask st) false)) σ)
  else None.

Definition clear_newSubtask (st : state) : state :=
  mkState (cur_task st) (loading st) (error st) [] (newComment st) (isEditing st)
    (editedTask st) (timerRunning st) (timeSpent st).

Definition handleAddSubtask_reply {A} : fetch_outcome A -> state -> state * list effect * bool :=
  mutation_reply "Error adding subtask: " "Failed to add subtask" clear_newSubtask.

(** [toggleSubtask(subtaskId, completed)]: PUT [{ completed: !completed }]
    to the subtask endpoint. *)
Definition toggleSubtask_request (subtaskId : Z) (completed : bool) (id : string)
    (σ : storage) : request body :=
  page_request PUT (task_url id +:+ "/subtasks/" +:+ show_Z subtaskId)
    (Some (BodyCompleted (negb completed))) σ.

Definition toggleSubtask_reply {A} : fetch_outcome A -> state -> state * list effect * bool :=
  mutation_reply "Error updating subtask: " "Failed to update subtask" id.

(** [handleAddComment]: nothing is sent when [newComment.trim()] is empty. *)
Definition handleAddComment_request (id : string) (st : state) (σ : storage)
    : option (request body) :=
  if jsstr_truthy (js_trim (newComment st)) then
    Some (page_request POST (task_url id +:+ "/comments") (Some (BodyComment (newComment st))) σ)
  else None.

Definition clear_newComment (st : state) : state :=
  mkState (cur_task st) (loading st) (error st) (newSubtask st) [] (isEditing st)
    (editedTask st) (timerRunning st) (timeSpent st).

Definition handleAddComment_reply {A} : fetch_outcome A -> state -> state * list effect * bool :=
  mutation_reply "Error adding comment: " "Failed to add comment" clear_newComment.

(** [handleSaveEdit]: PUT [editedTask] as it is. *)
Definition handleSaveEdit_request (id : string) (st : state) (σ : storage) : request body :=
  page_request PUT (task_url id)
    (Some (match editedTask st with Some t => BodyTask t | None => BodyEmpty end)) σ.

Definition set_isEditing (b : bool) (st : state) : state :=
  mkState (cur_task st) (loading st) (error st) (newSubtask st) (newComment st) b
    (editedTask st) (timerRunning st) (timeSpent st).

Definition handleSaveEdit_reply {A} : fetch_outcome A -> state -> state * list effect * bool :=
  mutation_reply "Error updating task: " "Failed to update task" (set_isEditing false).

(** [handleDelete]: nothing is sent unless [window.confirm] answers yes;
    an ok reply navigates to the list. *)
Definition handleDelete_request (confirmed : bool) (id : string) (σ : storage)
    : option (request body) :=
  if confirmed then Some (page_request DELETE (task_url id) None σ) else None.

Definition handleDelete_reply {A} (o : fetch_outcome A) : list effect :=
  match o with
  | Responded response =>
      if res_ok response then [Navigate "/tasks"]
      else [Alert ("Error deleting task: " +:+ "Failed to delete task")]
  | NetworkError msg => [Alert ("Error deleting task: " +:+ msg)]
  end.

(** ** The edit form, the inputs and the timer *)

Definition set_editedTask (e : option task) (st : state) : state :=
  mkState (cur_task st) (loading st) (error st) (newSubtask st) (newComment st) (isEditing st)
    e (timerRunning st) (timeSpent st).

(** The fields the edit form changes, as [{ ...editedTask, f: value }]. *)
Inductive edit_field :=
| EditTitle (v : jsstr)
| EditDescription (v : jsstr)
| EditDueDate (v : jsstr)
| EditPriority (v : string).

Definition apply_edit (f : edit_field) (t : task) : task :=
  match f with
  | EditTitle v => mkTask (task_id t) v (description t) (task_status t) (task_priority t)
                     (dueDate t) (subtasks t) (comments t)
  | EditDescription v => mkTask (task_id t) (title t) (Some v) (task_status t) (task_priority t)
                     (dueDate t) (subtasks t) (comments t)
  | EditDueDate v => mkTask (task_id t) (title t) (description t) (task_status t) (task_priority t)
                     (Some v) (subtasks t) (comments t)
  | EditPriority v => mkTask (task_id t) (title t) (description t) (task_status t) v
                     (dueDate t) (subtasks t) (comments t)
  end.

(** The form is rendered only while a task is shown, when [editedTask] is
    that task (see [details_inv]); an edit of the initial [{}] is not
    modelled. *)
Definition edit (f : edit_field) (st : state) : state :=
  set_editedTask (apply_edit f <$> editedTask st) st.

(** The Edit/Cancel button: [setIsEditing(!isEditing)]. *)
Definition toggle_edit (st : state) : state := set_isEditing (negb (isEditing st)) st.

Definition set_newSubtask (v : jsstr) (st : state) : state :=
  mkState (cur_task st) (loading st) (error st) v (newComment st) (isEditing st)
    (editedTask st) (timerRunning st) (timeSpent st).

Definition set_newComment (v : jsstr) (st : state) : state :=
  mkState (cur_task st) (loading st) (error st) (newSubtask st) v (isEditing st)
    (editedTask st) (timerRunning st) (timeSpent st).

Definition set_timer (running : bool) (spent : Z) (st : state) : state :=
  mkState (cur_task st) (loading st) (error st) (newSubtask st) (newComment st) (isEditing st)
    (editedTask st) running spent.

(** Start/Pause, Reset, and the interval's [setTimeSpent(prev => prev + 1)]. *)
Definition toggle_timer (st : state) : state := set_timer (negb (timerRunning st)) (timeSpent st) st.
Definition reset_timer (st : state) : state := set_timer false 0 st.
Definition tick (st : state) : state := set_timer (timerRunning st) (timeSpent st + 1) st.

(** [n.toString().padStart(2, '0')]. *)
Definition padStart2 (n : Z) : string :=
  let s := show_Z n in if (String.length s <? 2)%nat then "0" +:+ s else s.

(** The reference [padStart2] is compared with: the digits of [n] by the
    well-founded recursion [digits_ref], padded to two. *)
Definition padStart2_ref (n : Z) : string :=
  let ds := rev (digits_ref n) in
  String.string_of_list_ascii (if (length ds <? 2)%nat then Ascii.ascii_of_nat 48 :: ds else ds).

(** [formatTime(seconds)]: [Math.floor] and [%] agree with [Z.div] and
    [Z.modulo] on the non-negative counts the timer holds. *)
Definition formatTime (seconds : Z) : string :=
  let hrs := seconds / 3600 in
  let mins := (seconds mod 3600) / 60 in
  let secs := seconds mod 60 in
  padStart2 hrs +:+ ":" +:+ padStart2 mins +:+ ":" +:+ padStart2 secs.

(** ** The view *)

Inductive view :=
| VLoading
| VNotFound (msg : option string)
| VDetails (t : task) (editing : bool) (timer : string) (done total : Z).

(** [if (loading) ...; if (error || !task) ...;] then the page, whose
    subtask header counts completed subtasks over all of them. *)
Definition render (st : state) : view :=
  if loading st then VLoading
  else match cur_task st with
       | Some t =>
           if opt_truthy (error st) then VNotFound (error st)
           else VDetails t (isEditing st) (formatTime (timeSpent st))
                  (count_by completed (subtasks t)) (Z.of_nat (length (subtasks t)))
       | None => VNotFound (error st)
       end.

(** [formatDate(dateString)]: the code of Tasks.jsx again, with the
    locale text of a valid date left abstract as its day number. *)
Definition formatDate (d : option jsstr) : TasksPage.date_text :=
  match d with
  | Some s =>
      if jsstr_truthy s then
        match parse_date s with
        | Some day => TasksPage.LocaleDate day
        | None => TasksPage.InvalidDate
        end
      else TasksPage.NoDueDate
  | None => TasksPage.NoDueDate
  end.

(** The due date of the meta block, the subtask checkboxes (id, checked,
    title) with the empty message, and the comments (id, text, the raw
    [createdAt] whose locale date is rendered) with theirs. *)
Record lists_view := mkLists {
  lv_due : TasksPage.date_text;
  lv_subtasks : list (Z * bool * jsstr);
  lv_no_subtasks : bool;
  lv_comments : list (Z * jsstr * string);
  lv_no_comments : bool;
}.

Definition render_lists (t : task) : lists_view :=
  mkLists (formatDate (dueDate t))
    (map (fun s => (subtask_id s, completed s, subtask_title s)) (subtasks t))
    (Nat.eqb (length (subtasks t)) 0)
    (map (fun c => (comment_id c, text c, createdAt c)) (comments t))
    (Nat.eqb (length (comments t)) 0).

(** ** The page as a step function

    The events are the user's actions and the replies of the requests the
    page sent; a reply of a mutation that reloads is followed, in a later
    event, by the reply of that reload. *)
Inductive event :=
| EvFetchReply (o : fetch_outcome task)
| EvStatusReply (o : fetch_outcome unit)
| EvAddSubtaskReply (o : fetch_outcome unit)
| EvToggleReply (o : fetch_outcome unit)
| EvAddCommentReply (o : fetch_outcome unit)
| EvSaveReply (o : fetch_outcome unit)
| EvEdit (f : edit_field)
| EvToggleEdit
| EvTypeSubtask (v : jsstr)
| EvTypeComment (v : jsstr)
| EvToggleTimer
| EvResetTimer
| EvTick.

Definition step (st : state) (e : event) : state :=
  match e with
  | EvFetchReply o => fetchTaskDetails o st
  | EvStatusReply o => (handleStatusChange_reply o st).1.1
  | EvAddSubtaskReply o => (handleAddSubtask_reply o st).1.1
  | EvToggleReply o => (toggleSubtask_reply o st).1.1
  | EvAddCommentReply o => (handleAddComment_reply o st).1.1
  | EvSaveReply o => (handleSaveEdit_reply o st).1.1
  | EvEdit f => edit f st
  | EvToggleEdit => toggle_edit st
  | EvTypeSubtask v => set_newSubtask v st
  | EvTypeComment v => set_newComment v st
  | EvToggleTimer => toggle_timer st
  | EvResetTimer => reset_timer st
  | EvTick => tick st
  end.

Definition run (st : state) (es : list event) : state := fold_left step es st.

(** A shown task has its edit copy, and the timer count is not negative. *)
Definition details_inv (st : state) : Prop :=
  (is_Some (cur_task st) -> is_Some (editedTask st)) /\ 0 <= timeSpent st.

(** ** Lemmas *)

Lemma mutation_reply_ok {A} label failure on_ok (r : response A) st :
  res_ok r = true ->
  mutation_reply label failure on_ok (Responded r) st = (fetchTaskDetails_start (on_ok st), [], true).
Proof. intros H. simpl. by rewrite H. Qed.

(** The tail of every mutation handler leaves the state alone and alerts
    exactly when it does not reload. *)
Lemma mutation_reply_cases {A} label failure on_ok (o : fetch_outcome A) st :
  (exists r, o = Responded r /\ res_ok r = true /\
     mutation_reply label failure on_ok o st = (fetchTaskDetails_start (on_ok st), [], true)) \/
  (exists msg, mutation_reply label failure on_ok o st = (st, [Alert (label +:+ msg)], false)).
Proof.
  destruct o as [msg|r]; [right; by eexists|]. simpl.
  destruct (res_ok r) eqn:E; [left; by eexists|right; by eexists].
Qed.

Lemma fetchTaskDetails_cases o st :
  (exists data, fetchTaskDetails o st =
     mkState (Some data) false None (newSubtask st) (newComment st) (isEditing st)
       (Some data) (timerRunning st) (timeSpent st)) \/
  (exists msg, fetchTaskDetails o st = set_loading false (set_error (Some msg) st)).
Proof.
  destruct o as [msg|r]; simpl; [right; by eexists|].
  destruct (res_ok r); [|right; by eexists].
  destruct (res_body r); [left|right]; by eexists.
Qed.

(** A handler's on-ok update that keeps the task, its copy and the timer. *)
Definition keeps_core (f : state -> state) : Prop :=
  forall st, cur_task (f st) = cur_task st /\ editedTask (f st) = editedTask st /\
             timeSpent (f st) = timeSpent st.

Lemma keeps_core_mutation {A} label failure on_ok (o : fetch_outcome A) :
  keeps_core on_ok -> keeps_core (fun st => (mutation_reply label failure on_ok o st).1.1).
Proof.
  intros Hk st. destruct (mutation_reply_cases label failure on_ok o st)
    as [(r & _ & _ & ->)|(msg & ->)]; [apply Hk|done].
Qed.

Lemma keeps_core_on_ok :
  keeps_core id /\ keeps_core clear_newSubtask /\ keeps_core clear_newComment /\
  keeps_core (set_isEditing false).
Proof. repeat split. Qed.

Lemma inv_of_core f st :
  keeps_core f -> details_inv st -> details_inv (f st).
Proof.
  intros Hk [H1 H2]. destruct (Hk st) as (E1 & E2 & E3).
  unfold details_inv. rewrite E1, E2, E3. by split.
Qed.

Lemma details_step_inv st e : details_inv st -> details_inv (step st e).
Proof.
  destruct keeps_core_on_ok as (K1 & K2 & K3 & K4).
  intros Hinv. destruct e; cbn [step];
    unfold handleStatusChange_reply, handleAddSubtask_reply, toggleSubtask_reply,
      handleAddComment_reply, handleSaveEdit_reply;
    try (refine (inv_of_core (fun s => (mutation_reply _ _ _ o s).1.1) st _ Hinv);
         by apply keeps_core_mutation);
    destruct Hinv as [H1 H2]; unfold details_inv; simpl.
  all: try (split; [done|lia]).
  - destruct (fetchTaskDetails_cases o st) as [[data ->]|[msg ->]]; simpl; by split.
  - split; [|done]. intros Hs. destruct (H1 Hs) as [t ->]. by eexists.
Qed.

(** *** Two-digit rendering *)

Definition digit_char (d : Z) : Ascii.ascii := Ascii.ascii_of_nat (48 + Z.to_nat d).

Definition two_digits (n : Z) : string :=
  String (digit_char (n / 10)) (String (digit_char (n mod 10)) EmptyString).

Lemma padStart2_small_all :
  forallb (fun n => String.eqb (padStart2 n) (two_digits n)) (map Z.of_nat (seq 0 100)) = true.
Proof. vm_compute. reflexivity. Qed.

Lemma padStart2_small n : 0 <= n < 100 -> padStart2 n = two_digits n.
Proof.
  intros Hn. pose proof padStart2_small_all as H.
  rewrite forallb_forall in H. apply String.eqb_eq, H, in_map_iff.
  exists (Z.to_nat n). split; [lia|]. apply in_seq. lia.
Qed.

(** The inverse of [formatTime] on its [HH:MM:SS] form. *)
Definition digit_of_ascii (a : Ascii.ascii) : option Z :=
  let n := Z.of_nat (Ascii.nat_of_ascii a) - 48 in
  if (0 <=? n) && (n <=? 9) then Some n else None.

Definition parse_time (s : string) : option Z :=
  match String.list_ascii_of_string s with
  | [h1; h2; _; m1; m2; _; s1; s2] =>
      h1 ← digit_of_ascii h1; h2 ← digit_of_ascii h2;
      m1 ← digit_of_ascii m1; m2 ← digit_of_ascii m2;
      s1 ← digit_of_ascii s1; s2 ← digit_of_ascii s2;
      Some (3600 * (10 * h1 + h2) + 60 * (10 * m1 + m2) + (10 * s1 + s2))
  | _ => None
  end.

Lemma digit_of_ascii_char d : 0 <= d <= 9 -> digit_of_ascii (digit_char d) = Some d.
Proof.
  intros Hd. unfold digit_of_ascii, digit_char.
  rewrite Ascii.nat_ascii_embedding by lia.
  replace (Z.of_nat (48 + Z.to_nat d) - 48) with d by lia.
  destruct (Z.leb_spec 0 d), (Z.leb_spec d 9); [done|lia..].
Qed.

Lemma digit_of_two_digits n :
  0 <= n < 100 -> digit_of_ascii (digit_char (n / 10)) = Some (n / 10) /\
                  digit_of_ascii (digit_char (n mod 10)) = Some (n mod 10).
Proof.
  intros Hn. pose proof (Z.mod_pos_bound n 10 ltac:(lia)).
  assert (0 <= n / 10) by (apply Z.div_pos; lia).
  assert (n / 10 < 10) by (apply Z.div_lt_upper_bound; lia).
  split; apply digit_of_ascii_char; lia.
Qed.

(** ** The subtask toggle through a server *)

Section Roundtrip.
Context `{Backend}.

(** The server's answer to the reload GET. *)
Definition serve_task (s : srv_state) (tid : Z) : fetch_outcome task :=
  match srv_task s tid with
  | Some t => Responded (mkResponse 200 (JsonOk t))
  | None => Responded (mkResponse 404 (JsonBad "Not Found"))
  end.

(** The status of a write the server accepted or refused. *)
Definition write_reply (r : option srv_state) : fetch_outcome unit :=
  Responded (mkResponse (if r is Some _ then 200 else 500) (JsonOk tt)).

(** The server's handling of a request to PUT /tasks/{tid}/subtasks/{sid}. *)
Definition serve_subtask (s : srv_state) (tid sid : Z) (rq : request body) : option srv_state :=
  match rq_method rq, rq_body rq with
  | PUT, Some (BodyCompleted b) => srv_put_subtask s tid sid b
  | _, _ => None
  end.

(** A click on the checkbox of subtask [sid] showing [c]: the request
    [toggleSubtask] builds, the server's write, the handler's tail, and
    the reload it starts, answered by the server after the write. *)
Definition toggle_roundtrip (s : srv_state) (tid sid : Z) (c : bool) (σ : storage)
    (st : state) : srv_state * state * list effect :=
  let r := serve_subtask s tid sid (toggleSubtask_request sid c (show_Z tid) σ) in
  let '(st1, effs, reload) := toggleSubtask_reply (write_reply r) st in
  let s' := default s r in
  (s', if reload then fetchTaskDetails (serve_task s' tid) st1 else st1, effs).

End Roundtrip.

(** ** Theorems *)

(** C25: every state the page reaches from mount keeps its invariant: once
    a task is shown the edit form has a task to edit, and the timer count
    is never negative. *)
Theorem run_details_inv es : details_inv (run initial es).
Proof.
  unfold run. assert (Hi : details_inv initial) by (split; [intros [? [=]]|done]).
  revert Hi. generalize initial. induction es as [|e es IH]; intros st Hst; simpl; [done|].
  by apply IH, details_step_inv.
Qed.

(** C26: [formatTime] is injective on the timer's range below 100 hours:
    its [HH:MM:SS] text reads back as the count of seconds it shows. *)
Theorem formatTime_roundtrip s : 0 <= s < 360000 -> parse_time (formatTime s) = Some s.
Proof.
  intros Hs. unfold formatTime.
  assert (Hh : 0 <= s / 3600 < 100) by (split; [apply Z.div_pos|apply Z.div_lt_upper_bound]; lia).
  pose proof (Z.mod_pos_bound s 3600 ltac:(lia)).
  assert (Hm : 0 <= s mod 3600 / 60 < 100) by (split; [apply Z.div_pos|apply Z.div_lt_upper_bound]; lia).
  pose proof (Z.mod_pos_bound s 60 ltac:(lia)).
  rewrite !padStart2_small by lia.
  unfold parse_time. rewrite !list_ascii_of_string_app. unfold two_digits.
  cbn [app String.list_ascii_of_string].
  destruct (digit_of_two_digits _ Hh) as [-> ->].
  destruct (digit_of_two_digits _ Hm) as [-> ->].
  destruct (digit_of_two_digits (s mod 60) ltac:(lia)) as [-> ->]. simpl. f_equal.
  rewrite <- !Z.div_mod by lia.
  pose proof (Z.div_mod s 3600 ltac:(lia)). pose proof (Z.div_mod (s mod 3600) 60 ltac:(lia)).
  rewrite Z.mod_mod_divide in * by (exists 60; lia). lia.
Qed.

Lemma formatTime_roundtrip_witness : parse_time (formatTime 45296) = Some 45296.
Proof. apply formatTime_roundtrip. lia. Defined.

Lemma length_string_of_list_ascii l : String.length (String.string_of_list_ascii l) = length l.
Proof. induction l as [|c l IH]; simpl; auto. Qed.

Lemma padStart2_ref_eq n : 0 <= n -> padStart2 n = padStart2_ref n.
Proof.
  intros Hn. unfold padStart2, padStart2_ref, show_Z.
  rewrite (proj2 (Z.ltb_ge n 0)) by lia. rewrite (proj1 (show_nat_total n Hn)).
  rewrite length_string_of_list_ascii. by case_match.
Qed.

(** The counts of [formatTime] are non-negative when [seconds] is. *)
Lemma formatTime_parts_nonneg s :
  0 <= s -> 0 <= s / 3600 /\ 0 <= s mod 3600 / 60 /\ 0 <= s mod 60.
Proof.
  intros Hs. pose proof (Z.mod_pos_bound s 3600 ltac:(lia)).
  pose proof (Z.mod_pos_bound s 60 ltac:(lia)).
  split_and!; [apply Z.div_pos|apply Z.div_pos|]; lia.
Qed.



(** the subtask form sends nothing when the input is only white
    space, and otherwise POSTs the input as typed, untrimmed, with
    [completed: false]. *)
Theorem handleAddSubtask_request_guard id st σ :
  (handleAddSubtask_request id st σ = None <->
     Forall (fun c => is_js_space c = true) (newSubtask st)) /\
  (forall rq, handleAddSubtask_request id st σ = Some rq ->
     rq_method rq = POST /\ rq_url rq = task_url id +:+ "/subtasks" /\
     rq_body rq = Some (BodySubtask (newSubtask st) false)).
Proof.
  unfold handleAddSubtask_request, jsstr_truthy. rewrite <- js_trim_nil_iff.
  case_bool_decide as E; simpl.
  - split; [done|]. by intros rq [=].
  - split; [done|]. intros rq [= <-]. done.
Qed.

Section RoundtripTheorems.
#[local] Set Default Proof Using "Type*".
Context `{BackendLaws}.

(** C28: toggling a subtask through a server that keeps its contract:
    when the server accepts the write, the page raises no alert, and once
    the reload it starts has been answered it shows the subtask with the
    negation of the value the checkbox showed.  When the page shows the
    server's task, this is spec section 8's "toggle followed by a reload
    negates [completed]". *)
Theorem toggle_reload_negates s tid sid c σ st s' :
  srv_put_subtask s tid sid (negb c) = Some s' ->
  exists st', toggle_roundtrip s tid sid c σ st = (s', st', []) /\ loading st' = false /\
    exists t x, cur_task st' = Some t /\ find_subtask sid t = Some x /\ completed x = negb c.
Proof.
  intros Hput. unfold toggle_roundtrip, serve_subtask. cbn [rq_method rq_body toggleSubtask_request page_request].
  rewrite Hput. simpl.
  destruct (srv_put_subtask_completed _ _ _ _ _ Hput) as (t & x & Ht & Hx & Hc).
  unfold serve_task. rewrite Ht. simpl. eexists. split; [done|]. split; [done|]. eauto.
Qed.

End RoundtripTheorems.

(** ** Witnesses *)

Definition sample_subtask : subtask := mkSubtask 7 (js "Write tests") false.

Definition sample_task : task :=
  mkTask 1 (js "Release") None "TODO" "HIGH" None [sample_subtask] [].

Definition sample_store : MemoryBackend.store :=
  MemoryBackend.mkStore [sample_task] (NoDup_singleton _).

Lemma toggle_reload_negates_witness :
  exists s', srv_put_subtask (Backend := MemoryBackend.memory_backend) sample_store 1 7 true = Some s' /\
  exists st', toggle_roundtrip (H := MemoryBackend.memory_backend) sample_store 1 7 false ∅ initial
                = (s', st', []) /\ loading st' = false /\
    exists t x, cur_task st' = Some t /\ find_subtask 7 t = Some x /\ completed x = negb false.
Proof.
  eexists. split; [reflexivity|].
  apply (toggle_reload_negates (H0 := MemoryBackend.memory_backend_laws)). reflexivity.
Defined.

End TaskDetails.
