(* ===== verification/Kanban.v ===== *)
(** The kanban board, src/src/pages/KanbanBoard.jsx, with the task modal
    it opens, src/src/components/TaskModal.jsx.

    The board keeps the task objects [getTasks()] returned; clicking a card
    stores that same object as [selectedTask]; the modal's
    [toggleSubtask(index)] copies the task shallowly ([{ ...task }]) and
    assigns [updated.subtasks[index].completed], so it writes into the
    subtask object the board's array and [selectedTask] share.  The model
    therefore keeps subtask objects in a heap ([gmap loc subtask]) and a
    task object holds the locations of its subtasks; [JSON.parse] of a
    reply allocates fresh objects, [JSON.stringify] reads the heap.

    [getTasks] and [updateTask] are imported from services/api.js, which
    does not export them; they are modelled by the server contract of
    [Backend] ([srv_tasks], [srv_put_task]), and each mutation is
    followed by the reload the code starts after its [await]. *)

From S2P Require Import Prelude Js Task Backend.
Open Scope Z_scope.

Module Kanban.

Abbreviation loc := positive.

(** A task object in the page's memory: its subtasks are references. *)
Record task_obj := mkObj {
  o_id : Z;
  o_title : jsstr;
  o_description : option jsstr;
  o_status : string;
  o_priority : string;
  o_dueDate : option jsstr;
  o_subtasks : list loc;
  o_comments : list comment;
}.

Abbreviation heap := (gmap loc subtask).

(** [tasks], [selectedTask], and the objects they reference. *)
Record board := mkBoard {
  tasks : list task_obj;
  selectedTask : option task_obj;
  objects : heap;
  next_loc : loc;
}.

Definition empty_board : board := mkBoard [] None ∅ 1%positive.

(** ** JSON.parse and JSON.stringify *)

Fixpoint alloc_subtasks (h : heap) (n : loc) (ss : list subtask) : list loc * heap * loc :=
  match ss with
  | [] => ([], h, n)
  | s :: ss' =>
      let '(ls, h', n') := alloc_subtasks (<[n := s]> h) (Pos.succ n) ss' in (n :: ls, h', n')
  end.

Definition parse_task (h : heap) (n : loc) (t : task) : task_obj * heap * loc :=
  let '(ls, h', n') := alloc_subtasks h n (subtasks t) in
  (mkObj (task_id t) (title t) (description t) (task_status t) (task_priority t) (dueDate t)
     ls (comments t), h', n').

Fixpoint parse_tasks (h : heap) (n : loc) (ts : list task) : list task_obj * heap * loc :=
  match ts with
  | [] => ([], h, n)
  | t :: ts' =>
      let '(o, h1, n1) := parse_task h n t in
      let '(os, h2, n2) := parse_tasks h1 n1 ts' in (o :: os, h2, n2)
  end.

(** [JSON.stringify(o)]: the task object with its subtasks read back. *)
Definition read_task (h : heap) (o : task_obj) : option task :=
  ss ← mapM (fun l => h !! l) (o_subtasks o);
  Some (mkTask (o_id o) (o_title o) (o_description o) (o_status o) (o_priority o)
          (o_dueDate o) ss (o_comments o)).

(** ** The board *)

(** [load()]: [setTasks(data || [])] with the objects [getTasks()]
    parsed; [selectedTask] is left as it was. *)
Definition load_reply (data : list task) (b : board) : board :=
  let '(os, h, n) := parse_tasks (objects b) (next_loc b) data in
  mkBoard os (selectedTask b) h n.

(** [tasks.filter((t) => t.status === col.id)]. *)
Definition column (col : string) (b : board) : list task_obj :=
  List.filter (fun o => String.eqb (o_status o) col) (tasks b).

Definition columns : list string := ["TODO"; "IN_PROGRESS"; "DONE"].

(** [calcProgress(subtasks)]: 0 for no subtasks, else the rounded
    percentage of completed ones. *)
Definition calcProgress (ss : list subtask) : Z :=
  if Nat.eqb (length ss) 0 then 0
  else round_ratio 100 (count_by completed ss) (Z.of_nat (length ss)).

(** [onDragEnd(result)]: nothing without a destination; otherwise
    [updateTask(taskId, { status: newStatus })]. *)
Definition onDragEnd (draggableId : Z) (destination : option string) : option (Z * put_body) :=
  col ← destination; Some (draggableId, PutStatus col).

(** A click on a card: [setSelectedTask(task)]; the modal's close. *)
Definition select (i : nat) (b : board) : board :=
  mkBoard (tasks b) (tasks b !! i) (objects b) (next_loc b).

Definition close (b : board) : board := mkBoard (tasks b) None (objects b) (next_loc b).

(** TaskModal's [toggleSubtask(index)]: flip the shared subtask object in
    place, then [updateTask(task.id, updated)].  A missing index throws
    before anything is sent. *)
Definition toggleSubtask (index : nat) (b : board) : option (board * (Z * put_body)) :=
  o ← selectedTask b;
  l ← o_subtasks o !! index;
  s ← objects b !! l;
  let h := <[l := mkSubtask (subtask_id s) (subtask_title s) (negb (completed s))]> (objects b) in
  t ← read_task h o;
  Some (mkBoard (tasks b) (selectedTask b) h (next_loc b), (o_id o, PutTask t)).

(** TaskModal's [changeStatus(status)]: [updateTask(task.id, { ...task, status })]. *)
Definition changeStatus (status : string) (b : board) : option (Z * put_body) :=
  o ← selectedTask b;
  t ← read_task (objects b) o;
  Some (o_id o, PutTask (with_status status t)).

(** TaskModal's markup for the selected task, read through the objects
    it references: [null] without a task; the title, the description
    when truthy, the priority, [task.dueDate || "No date"], the subtask
    checkboxes when [task.subtasks?.length > 0], and one status button
    per column. *)
Record modal_view := mkModalView {
  mv_title : jsstr;
  mv_description : option jsstr;
  mv_priority : string;
  mv_due : jsstr;
  mv_subtasks : option (list (bool * jsstr));
  mv_buttons : list string;
}.

Definition modal_render (b : board) : option modal_view :=
  o ← selectedTask b;
  t ← read_task (objects b) o;
  Some (mkModalView (title t)
          (match description t with Some d => if jsstr_truthy d then Some d else None | None => None end)
          (task_priority t)
          (match dueDate t with Some d => if jsstr_truthy d then d else js "No date" | None => js "No date" end)
          (if Nat.ltb 0 (length (subtasks t))
           then Some (map (fun s => (completed s, subtask_title s)) (subtasks t)) else None)
          columns).

(** ** The board against a server

    Each mutation is applied by the server and followed by the reload
    ([await updateTask(...); load()] / [reload()]).  The write log keeps
    the PUTs in the order they were sent. *)

Section System.
Context `{Backend}.

Record system := mkSystem {
  server : srv_state;
  page : board;
  sent : list (Z * put_body);
}.

Inductive event :=
| EvLoad                                      (** mount: [load()] *)
| EvDrag (draggableId : Z) (destination : option string)
| EvOpen (i : nat)
| EvClose
| EvToggle (index : nat)
| EvChangeStatus (status : string).

Definition reload (x : system) : system :=
  mkSystem (server x) (load_reply (srv_tasks (server x)) (page x)) (sent x).

(** The server applies a PUT it accepts; the page reloads either way. *)
Definition write (w : Z * put_body) (b : board) (x : system) : system :=
  reload (mkSystem (default (server x) (srv_put_task (server x) w.1 w.2)) b (sent x ++ [w])).

Definition sys_step (x : system) (e : event) : system :=
  match e with
  | EvLoad => reload x
  | EvDrag id dest =>
      match onDragEnd id dest with Some w => write w (page x) x | None => x end
  | EvOpen i => mkSystem (server x) (select i (page x)) (sent x)
  | EvClose => mkSystem (server x) (close (page x)) (sent x)
  | EvToggle i =>
      match toggleSubtask i (page x) with Some (b, w) => write w b x | None => x end
  | EvChangeStatus st =>
      match changeStatus st (page x) with Some w => write w (page x) x | None => x end
  end.

Definition sys_run (x : system) (es : list event) : system := fold_left sys_step es x.

Definition init (s : srv_state) : system := mkSystem s empty_board [].

End System.

(** Every object the page holds references allocated subtasks, and every
    allocated location is below the allocation pointer. *)
Definition board_wf (b : board) : Prop :=
  (forall o, (selectedTask b = Some o \/ In o (tasks b)) ->
     Forall (fun l => is_Some (objects b !! l)) (o_subtasks o)) /\
  (forall l, is_Some (objects b !! l) -> (l < next_loc b)%positive).

(** ** Heap lemmas *)

Definition fresh_above (h : heap) (n : loc) : Prop :=
  forall l, is_Some (h !! l) -> (l < n)%positive.

(** [h'] keeps every object of [h]. *)
Definition extends (h h' : heap) : Prop :=
  forall l, is_Some (h !! l) -> h' !! l = h !! l.

Lemma extends_refl h : extends h h.
Proof. done. Qed.

Lemma extends_trans h1 h2 h3 : extends h1 h2 -> extends h2 h3 -> extends h1 h3.
Proof. intros E1 E2 l Hl. rewrite E2; [by apply E1|]. by rewrite E1. Qed.

Lemma extends_is_Some h h' l : extends h h' -> is_Some (h !! l) -> is_Some (h' !! l).
Proof. intros E Hl. by rewrite E. Qed.

Lemma extends_insert_fresh h n s : fresh_above h n -> extends h (<[n := s]> h).
Proof.
  intros Hf l Hl. rewrite lookup_insert_ne; [done|]. intros ->. apply Hf in Hl. lia.
Qed.

Lemma fresh_insert h n s : fresh_above h n -> fresh_above (<[n := s]> h) (Pos.succ n).
Proof.
  intros Hf l. destruct (decide (l = n)) as [->|Hne]; [lia|].
  rewrite lookup_insert_ne by done. intros Hl. apply Hf in Hl. lia.
Qed.

#[local] Hint Resolve extends_refl extends_insert_fresh fresh_insert extends_is_Some : tm.

Lemma alloc_subtasks_spec h n ss ls h' n' :
  fresh_above h n -> alloc_subtasks h n ss = (ls, h', n') ->
  fresh_above h' n' /\ extends h h' /\ Forall (fun l => is_Some (h' !! l)) ls.
Proof.
  revert h n ls. induction ss as [|s ss IH]; intros h n ls Hf; simpl.
  - intros [= <- <- <-]. auto with tm.
  - destruct (alloc_subtasks (<[n:=s]> h) (Pos.succ n) ss) as [[ls0 h0] n0] eqn:E.
    intros [= <- <- <-].
    destruct (IH _ _ _ (fresh_insert h n s Hf) E) as (Hf' & Hext & Hall).
    split; [done|]. split; [eauto using extends_trans with tm|].
    constructor; [|done]. rewrite Hext; [by rewrite lookup_insert_eq|]. by rewrite lookup_insert_eq.
Qed.

(** What parsing keeps of a task: the fields the board compares. *)
Definition parsed_as (o : task_obj) (t : task) : Prop :=
  o_id o = task_id t /\ o_status o = task_status t.

Lemma parse_tasks_spec h n ts os h' n' :
  fresh_above h n -> parse_tasks h n ts = (os, h', n') ->
  fresh_above h' n' /\ extends h h' /\ Forall2 parsed_as os ts /\
  Forall (fun o => Forall (fun l => is_Some (h' !! l)) (o_subtasks o)) os.
Proof.
  revert h n os. induction ts as [|t ts IH]; intros h n os Hf; simpl.
  - intros [= <- <- <-]. auto with tm.
  - unfold parse_task. destruct (alloc_subtasks h n (subtasks t)) as [[ls h1] n1] eqn:Ea.
    destruct (parse_tasks h1 n1 ts) as [[os0 h2] n2] eqn:Ep. intros [= <- <- <-].
    destruct (alloc_subtasks_spec _ _ _ _ _ _ Hf Ea) as (Hf1 & Hext1 & Hall1).
    destruct (IH _ _ _ Hf1 Ep) as (Hf2 & Hext2 & Hrel & Hall2).
    split; [done|]. split; [eauto using extends_trans|].
    split; [by constructor|]. constructor; [|done]. simpl.
    eapply Forall_impl; [exact Hall1|]. eauto with tm.
Qed.

Lemma load_reply_spec data b :
  board_wf b ->
  board_wf (load_reply data b) /\ Forall2 parsed_as (tasks (load_reply data b)) data /\
  selectedTask (load_reply data b) = selectedTask b /\ extends (objects b) (objects (load_reply data b)).
Proof.
  intros [Hobj Hf]. unfold load_reply.
  destruct (parse_tasks (objects b) (next_loc b) data) as [[os h] n] eqn:E. simpl.
  destruct (parse_tasks_spec _ _ _ _ _ _ Hf E) as (Hf' & Hext & Hrel & Hall).
  split; [|done]. split; [|done]. simpl. intros o [Hs|Hin].
  - eapply Forall_impl; [apply Hobj; by left|]. eauto with tm.
  - exact (proj1 (List.Forall_forall _ _) Hall o Hin).
Qed.

Lemma read_task_Some h o :
  Forall (fun l => is_Some (h !! l)) (o_subtasks o) ->
  exists t, read_task h o = Some t /\ task_id t = o_id o /\ task_status t = o_status o.
Proof.
  unfold read_task. induction (o_subtasks o) as [|l ls IH]; intros Hall; simpl; [by eexists|].
  apply Forall_cons in Hall as [[s ->] Hall]. destruct (IH Hall) as (t & Ht & _).
  destruct (mapM _ ls); [|done]. simpl. by eexists.
Qed.

(** A well-formed board always has a modal to show for its selected task. *)
Lemma modal_render_wf b o :
  board_wf b -> selectedTask b = Some o -> is_Some (modal_render b).
Proof.
  intros [Hobj _] Hs. unfold modal_render. rewrite Hs. simpl.
  destruct (read_task_Some (objects b) o (Hobj o (or_introl Hs))) as (t & -> & _). by eexists.
Qed.

Lemma toggleSubtask_spec i b b' w :
  board_wf b -> toggleSubtask i b = Some (b', w) ->
  board_wf b' /\ tasks b' = tasks b /\ selectedTask b' = selectedTask b /\
  exists o t, selectedTask b = Some o /\ w = (o_id o, PutTask t) /\ task_status t = o_status o.
Proof.
  intros [Hobj Hf]. unfold toggleSubtask.
  destruct (selectedTask b) as [o|] eqn:Es; simpl; [|done].
  destruct (o_subtasks o !! i) as [l|] eqn:El; simpl; [|done].
  destruct (objects b !! l) as [s|] eqn:Eo; simpl; [|done].
  destruct (read_task _ o) as [t|] eqn:Et; simpl; [|done]. intros [= <- <-]. simpl.
  split; [split|].
  - intros o' Ho'. eapply Forall_impl; [by apply Hobj|]. intros l' Hl'. simpl.
    destruct (decide (l' = l)) as [->|]; [by rewrite lookup_insert_eq|by rewrite lookup_insert_ne].
  - intros l'. simpl. destruct (decide (l' = l)) as [->|Hne].
    + intros _. apply Hf. by rewrite Eo.
    + rewrite lookup_insert_ne by done. apply Hf.
  - do 2 (split; [done|]). exists o, t. split; [done|]. split; [done|].
    unfold read_task in Et. destruct (mapM _ _); simpl in Et; by simplify_eq.
Qed.

Lemma sys_step_wf `{Backend} x e : board_wf (page x) -> board_wf (page (sys_step x e)).
Proof.
  intros Hwf. destruct e; simpl.
  - by apply load_reply_spec.
  - destruct destination; simpl; [by apply load_reply_spec|done].
  - destruct Hwf as [Hobj Hf]. split; [|done]. intros o [Hs|Hin]; apply Hobj; [|by right].
    right. simpl in Hs. apply list_elem_of_In. exact (list_elem_of_lookup_2 _ _ _ Hs).
  - destruct Hwf as [Hobj Hf]. split; [|done]. intros o [Hs|Hin]; [done|]. apply Hobj. by right.
  - destruct (toggleSubtask index (page x)) as [[b w]|] eqn:E; [|done].
    apply load_reply_spec. by eapply toggleSubtask_spec.
  - destruct (changeStatus status (page x)); [|done]. by apply load_reply_spec.
Qed.

Lemma parse_tasks_parsed h n ts os h' n' :
  parse_tasks h n ts = (os, h', n') -> Forall2 parsed_as os ts.
Proof.
  revert h n os. induction ts as [|t ts IH]; intros h n os; simpl; [by intros [= <- _ _]|].
  unfold parse_task. destruct (alloc_subtasks h n (subtasks t)) as [[ls h1] n1].
  destruct (parse_tasks h1 n1 ts) as [[os0 h2] n2] eqn:E. intros [= <- <- <-].
  constructor; [by split|]. by eapply IH.
Qed.

Lemma load_reply_parsed data b : Forall2 parsed_as (tasks (load_reply data b)) data.
Proof.
  unfold load_reply. destruct (parse_tasks _ _ data) as [[os h] n] eqn:E. by eapply parse_tasks_parsed.
Qed.

Lemma Forall2_In_l {A B} (R : A -> B -> Prop) l1 l2 x :
  Forall2 R l1 l2 -> In x l1 -> exists y, In y l2 /\ R x y.
Proof.
  induction 1 as [|a b l1 l2 Hab _ IH]; simpl; [done|].
  intros [<-|Hin]; [eauto|destruct (IH Hin) as (? & ? & ?); eauto].
Qed.

Lemma Forall2_In_r {A B} (R : A -> B -> Prop) l1 l2 y :
  Forall2 R l1 l2 -> In y l2 -> exists x, In x l1 /\ R x y.
Proof.
  induction 1 as [|a b l1 l2 Hab _ IH]; simpl; [done|].
  intros [<-|Hin]; [eauto|destruct (IH Hin) as (? & ? & ?); eauto].
Qed.

Lemma empty_board_wf : board_wf empty_board.
Proof. split; [intros o [[=]|[]]|intros l [? Hl]; simpl in Hl; by rewrite lookup_empty in Hl]. Qed.

Lemma sys_run_wf `{Backend} x es : board_wf (page x) -> board_wf (page (sys_run x es)).
Proof.
  unfold sys_run. revert x. induction es as [|e es IH]; intros x Hx; simpl; [done|].
  by apply IH, sys_step_wf.
Qed.

(** The modal's toggle sends a request whenever its index is in range. *)
Lemma toggleSubtask_Some i b o :
  board_wf b -> selectedTask b = Some o -> is_Some (o_subtasks o !! i) ->
  exists b' w, toggleSubtask i b = Some (b', w).
Proof.
  intros [Hobj Hf] Hs [l Hl]. pose proof (Hobj o (or_introl Hs)) as Hall.
  unfold toggleSubtask. rewrite Hs. simpl. rewrite Hl. simpl.
  destruct (proj1 (List.Forall_forall _ _) Hall l
    (proj1 (list_elem_of_In _ _) (list_elem_of_lookup_2 _ _ _ Hl))) as [s Hsl].
  rewrite Hsl. simpl.
  destruct (read_task_Some (<[l:=mkSubtask (subtask_id s) (subtask_title s) (negb (completed s))]>
              (objects b)) o) as (t & -> & _).
  { eapply Forall_impl; [exact Hall|]. intros l' Hl'.
    destruct (decide (l' = l)) as [->|]; [by rewrite lookup_insert_eq|by rewrite lookup_insert_ne]. }
  simpl. by do 2 eexists.
Qed.

Lemma changeStatus_Some st b o :
  board_wf b -> selectedTask b = Some o -> changeStatus st b <> None.
Proof.
  intros [Hobj _] Hs. unfold changeStatus. rewrite Hs. simpl.
  by destruct (read_task_Some (objects b) o (Hobj o (or_introl Hs))) as (t & -> & _).
Qed.

(** ** Theorems *)

Section Theorems.
#[local] Set Default Proof Using "Type*".
Context `{BackendLaws}.


(** C33: spec section 8: dragging a card to column [col] and the reload
    that follows leave the task in that column and in no other, when the
    server accepts the write. *)
Theorem drag_reload_moves x id col s' :
  srv_put_task (server x) id (PutStatus col) = Some s' ->
  server (sys_step x (EvDrag id (Some col))) = s' /\
  (exists o, In o (column col (page (sys_step x (EvDrag id (Some col))))) /\ o_id o = id) /\
  (forall o, In o (tasks (page (sys_step x (EvDrag id (Some col))))) -> o_id o = id ->
     o_status o = col).
Proof.
  intros Hput. cbn [sys_step onDragEnd mbind option_bind write reload server page fst snd].
  rewrite Hput. simpl. split; [done|].
  pose proof (load_reply_parsed (srv_tasks s') (page x)) as Hrel.
  destruct (srv_put_task_status _ _ _ _ Hput) as (t & Ht & Hid & Hst).
  split.
  - destruct (Forall2_In_r _ _ _ t Hrel (srv_put_task_listed _ _ _ _ _ Hput Ht))
      as (o & Hin & Hido & Hsto).
    exists o. split; [|congruence]. unfold column. apply filter_In. split; [done|].
    apply String.eqb_eq. simpl in Hst. congruence.
  - intros o Hin Hido. destruct (Forall2_In_l _ _ _ o Hrel Hin) as (t' & Hin' & Hid' & Hst').
    apply srv_tasks_task in Hin'. rewrite <- Hid', Hido, Ht in Hin'. simplify_eq. simpl in Hst.
    congruence.
Qed.

(** C34: the progress a card shows is a percentage, and it is 100 exactly
    when the task has subtasks and all are completed (for fewer than 200
    subtasks; rounding half up shows 199 of 200 as 100). *)
Theorem calcProgress_bounds ss :
  0 <= calcProgress ss <= 100 /\
  ((length ss < 200)%nat ->
   (calcProgress ss = 100 <-> ss <> [] /\ Forall (fun s => completed s = true) ss)).
Proof.
  unfold calcProgress. pose proof (count_by_bounds completed ss) as Hb.
  destruct (Nat.eqb_spec (length ss) 0) as [E|E].
  - split; [lia|]. intros _. split; [lia|]. intros [Hne _]. exfalso. by apply Hne, length_zero_iff_nil.
  - split; [split; [apply round_ratio_nonneg|apply round_ratio_le]; lia|]. intros Hl.
    rewrite <- count_by_full. split.
    + intros Hr. split; [by intros ->|].
      destruct (Z.eq_dec (count_by completed ss) (Z.of_nat (length ss))) as [|Hlt]; [done|].
      enough (round_ratio 100 (count_by completed ss) (Z.of_nat (length ss)) < 100) by lia.
      unfold round_ratio. apply Z.div_lt_upper_bound; lia.
    + intros [_ ->]. apply round_ratio_full; lia.
Qed.

(** C35 (finding): the modal keeps the task object it was opened with.
    After [changeStatus(new)] and its reload, a subtask toggle in the same
    modal PUTs the whole stale object, whose status is the one the modal
    opened with: the status change is undone on the server. *)
Theorem toggle_after_status_change_reverts x o new i :
  board_wf (page x) -> selectedTask (page x) = Some o -> is_Some (o_subtasks o !! i) ->
  exists t,
    last (sent (sys_run x [EvChangeStatus new; EvToggle i])) = Some (o_id o, PutTask t) /\
    task_status t = o_status o /\
    (forall s', srv_put_task (server (sys_step x (EvChangeStatus new))) (o_id o) (PutTask t) = Some s' ->
       server (sys_run x [EvChangeStatus new; EvToggle i]) = s' /\
       exists t', srv_task s' (o_id o) = Some t' /\ task_status t' = o_status o).
Proof.
  intros Hwf Hs Hi.
  change (sys_run x [EvChangeStatus new; EvToggle i])
    with (sys_step (sys_step x (EvChangeStatus new)) (EvToggle i)).
  set (x1 := sys_step x (EvChangeStatus new)).
  assert (Hwf1 : board_wf (page x1)) by by apply sys_step_wf.
  assert (Hs1 : selectedTask (page x1) = Some o).
  { subst x1. simpl. destruct (changeStatus new (page x)) as [w|]; [|done].
    simpl. by rewrite (proj1 (proj2 (proj2 (load_reply_spec _ _ Hwf)))). }
  clearbody x1. destruct (toggleSubtask_Some i _ _ Hwf1 Hs1 Hi) as (b & w & Ht).
  destruct (toggleSubtask_spec _ _ _ _ Hwf1 Ht) as (_ & _ & _ & o' & t & Hso & -> & Hst).
  rewrite Hs1 in Hso. simplify_eq. exists t. simpl. rewrite Ht. simpl.
  split; [by rewrite last_snoc|]. split; [done|].
  intros s' Hput. rewrite Hput. split; [done|].
  destruct (srv_put_task_status _ _ _ _ Hput) as (t' & Ht' & _ & Hst').
  exists t'. split; [done|]. simpl in Hst'. congruence.
Qed.

(** C36 (finding): the toggle writes into the subtask object the modal
    shares with the board before the server answers.  When the server
    refuses the write, the server is unchanged, yet the modal, still open
    on the same object, shows the subtask toggled: view code mutates a task
    without the server's agreement. *)
Theorem refused_toggle_kept_in_modal x o i l s :
  board_wf (page x) -> selectedTask (page x) = Some o -> o_subtasks o !! i = Some l ->
  objects (page x) !! l = Some s ->
  (forall b, srv_put_task (server x) (o_id o) b = None) ->
  server (sys_step x (EvToggle i)) = server x /\
  selectedTask (page (sys_step x (EvToggle i))) = Some o /\
  objects (page (sys_step x (EvToggle i))) !! l =
    Some (mkSubtask (subtask_id s) (subtask_title s) (negb (completed s))).
Proof.
  intros Hwf Hs Hl Ho Href. simpl.
  destruct (toggleSubtask_Some i _ _ Hwf Hs ltac:(by eexists)) as (b & w & Ht). rewrite Ht.
  destruct (toggleSubtask_spec _ _ _ _ Hwf Ht) as (Hwfb & _ & Hsb & o' & t & Hso & -> & _).
  rewrite Hs in Hso. simplify_eq. simpl. rewrite Href. simpl.
  destruct (load_reply_spec (srv_tasks (server x)) b Hwfb) as (_ & _ & Hsel & Hext).
  rewrite Hsel, Hsb. split; [done|]. split; [done|].
  unfold toggleSubtask in Ht. rewrite Hs in Ht. simpl in Ht. rewrite Hl in Ht. simpl in Ht.
  rewrite Ho in Ht. simpl in Ht.
  destruct (read_task _ _); [|done]. injection Ht as <- _.
  rewrite Hext; simpl; rewrite lookup_insert_eq; [done|by eexists].
Qed.

End Theorems.

(** ** Witnesses

    They run the board against the in-memory server of [Backend]. *)

#[local] Existing Instances MemoryBackend.memory_backend MemoryBackend.memory_backend_laws.

Definition sample_subtask : subtask := mkSubtask 7 (js "Write tests") false.

Definition sample_task : task :=
  mkTask 1 (js "Release") None "TODO" "HIGH" None [sample_subtask] [].

Definition sample_store : MemoryBackend.store :=
  MemoryBackend.mkStore [sample_task] (NoDup_singleton _).

Definition empty_store : MemoryBackend.store := MemoryBackend.mkStore [] (NoDup_nil_2 (A := Z)).

(** The board after mount with the card of [sample_task] clicked. *)
Definition opened : system (H := MemoryBackend.memory_backend) :=
  sys_run (init (H := MemoryBackend.memory_backend) sample_store) [EvLoad; EvOpen 0].

Definition sample_obj : task_obj :=
  mkObj 1 (js "Release") None "TODO" "HIGH" None [1%positive] [].

Lemma opened_wf : board_wf (page opened).
Proof. apply sys_run_wf, empty_board_wf. Qed.


Lemma drag_reload_moves_witness :
  exists s', srv_put_task (Backend := MemoryBackend.memory_backend) sample_store 1 (PutStatus "DONE")
               = Some s' /\
  let y := sys_step (init (H := MemoryBackend.memory_backend) sample_store) (EvDrag 1 (Some "DONE")) in
  server y = s' /\ (exists o, In o (column "DONE" (page y)) /\ o_id o = 1) /\
  (forall o, In o (tasks (page y)) -> o_id o = 1 -> o_status o = "DONE").
Proof.
  eexists. split; [reflexivity|].
  exact (drag_reload_moves (H0 := MemoryBackend.memory_backend_laws)
           (init sample_store) 1 "DONE" _ eq_refl).
Defined.

Lemma calcProgress_bounds_witness :
  (length [sample_subtask] < 200)%nat /\
  (calcProgress [sample_subtask] = 100 <->
   [sample_subtask] <> [] /\ Forall (fun s => completed s = true) [sample_subtask]).
Proof.
  split; [simpl; lia|].
  apply (proj2 (calcProgress_bounds _)). simpl. lia.
Defined.

Lemma toggle_after_status_change_reverts_witness :
  selectedTask (page opened) = Some sample_obj /\
  exists t,
    last (sent (sys_run opened [EvChangeStatus "DONE"; EvToggle 0])) = Some (1, PutTask t) /\
    task_status t = "TODO" /\
    (forall s', srv_put_task (server (sys_step opened (EvChangeStatus "DONE"))) 1 (PutTask t) = Some s' ->
       server (sys_run opened [EvChangeStatus "DONE"; EvToggle 0]) = s' /\
       exists t', srv_task s' 1 = Some t' /\ task_status t' = "TODO").
Proof.
  split; [reflexivity|].
  exact (toggle_after_status_change_reverts (H0 := MemoryBackend.memory_backend_laws)
           opened sample_obj "DONE" 0 opened_wf eq_refl (ex_intro _ 1%positive eq_refl)).
Defined.

(** The task was deleted on the server while its card was open. *)
Definition deleted_elsewhere : system (H := MemoryBackend.memory_backend) :=
  mkSystem (H := MemoryBackend.memory_backend) empty_store (page opened) [].

Lemma refused_toggle_kept_in_modal_witness :
  server (sys_step deleted_elsewhere (EvToggle 0)) = empty_store /\
  selectedTask (page (sys_step deleted_elsewhere (EvToggle 0))) = Some sample_obj /\
  objects (page (sys_step deleted_elsewhere (EvToggle 0))) !! 1%positive =
    Some (mkSubtask 7 (js "Write tests") true).
Proof.
  exact (refused_toggle_kept_in_modal (H0 := MemoryBackend.memory_backend_laws)
           deleted_elsewhere sample_obj 0 1%positive sample_subtask opened_wf
           eq_refl eq_refl eq_refl (fun _ => eq_refl)).
Defined.

End Kanban.
