(* ===== verification/TasksTable.v ===== *)
(** The table view, src/src/pages/TasksTable.jsx: the tasks [getTasks()]
    returned, filtered by a search string and a status, sorted by due date
    or priority, with due-date labels and progress per row.

    [Array.prototype.sort] is stable (ECMAScript 2019) and treats a [NaN]
    comparison as [0]; [sort_by] is a stable insertion sort, which for a
    consistent comparator orders as every stable sort does.  [toLowerCase]
    is modelled on ASCII letters, [localeCompare] as the code-unit order of
    the strings, which is the collation order of the upper-case priority
    codes it is applied to. *)

From S2P Require Import Prelude Js Task TasksPage.
From Stdlib Require Import Sorting.Sorted Sorting.Permutation.
Open Scope Z_scope.

(** ** Stable insertion sort with a three-way comparator *)

Section Sort.
Context {A : Type} (cmp : A -> A -> Z).

Fixpoint insert_by (x : A) (l : list A) : list A :=
  match l with
  | [] => [x]
  | y :: l' => if cmp x y <? 0 then x :: l else y :: insert_by x l'
  end.

Definition sort_by (l : list A) : list A := fold_left (fun acc x => insert_by x acc) l [].

Lemma insert_by_perm x l : Permutation (insert_by x l) (x :: l).
Proof.
  induction l as [|y l IH]; simpl; [done|].
  destruct (cmp x y <? 0); [done|]. rewrite IH. apply perm_swap.
Qed.

Lemma sort_by_perm l : Permutation (sort_by l) l.
Proof.
  unfold sort_by. rewrite <- (app_nil_r l) at 2. generalize (@nil A).
  induction l as [|x l IH]; intros acc; simpl; [done|].
  rewrite IH, insert_by_perm. by rewrite <- Permutation_middle.
Qed.

#[local] Set Default Proof Using "Type*".
Hypothesis cmp_antisym : forall a b, cmp b a = - cmp a b.

Lemma insert_by_sorted x l :
  Sorted (fun a b => cmp a b <= 0) l -> Sorted (fun a b => cmp a b <= 0) (insert_by x l).
Proof.
  induction 1 as [|y l Hl IH Hhd]; simpl; [by repeat constructor|].
  destruct (Z.ltb_spec (cmp x y) 0) as [Hlt|Hge].
  - constructor; [by constructor|]. constructor. lia.
  - constructor; [done|]. destruct l as [|z l]; simpl.
    + constructor. rewrite cmp_antisym. lia.
    + inversion Hhd; subst.
      destruct (cmp x z <? 0); constructor; [rewrite cmp_antisym; lia|done].
Qed.

Lemma sort_by_sorted l : Sorted (fun a b => cmp a b <= 0) (sort_by l).
Proof.
  unfold sort_by. assert (H0 : Sorted (fun a b => cmp a b <= 0) (@nil A)) by constructor.
  revert H0. generalize (@nil A). induction l as [|x l IH]; intros acc Hacc; simpl; [done|].
  by apply IH, insert_by_sorted.
Qed.
End Sort.

Module TasksTable.

(** ** State and data *)

Record state := mkState {
  tasks : list task;
  search : jsstr;
  filterStatus : string;
  sortBy : string;
}.

Definition initial : state := mkState [] [] "ALL" "dueDate".

(** [load()]: [setTasks(data || [])] on a resolved [getTasks()] whose
    value may be missing; a rejection is only logged. *)
Definition load (o : promise (option (list task))) (st : state) : state :=
  match o with
  | Resolved data => mkState (default [] data) (search st) (filterStatus st) (sortBy st)
  | Rejected _ => st
  end.

Definition setSearch (v : jsstr) (st : state) : state :=
  mkState (tasks st) v (filterStatus st) (sortBy st).
Definition setFilterStatus (v : string) (st : state) : state :=
  mkState (tasks st) (search st) v (sortBy st).
Definition setSortBy (v : string) (st : state) : state :=
  mkState (tasks st) (search st) (filterStatus st) v.

(** [priorityColors[p]] and [statusColors[s]]: [undefined] off the keys. *)
Definition priorityColors (p : string) : option string :=
  if String.eqb p "HIGH" then Some "bg-red-100 text-red-700 border border-red-300"
  else if String.eqb p "MEDIUM" then Some "bg-yellow-100 text-yellow-700 border border-yellow-300"
  else if String.eqb p "LOW" then Some "bg-green-100 text-green-700 border border-green-300"
  else None.

Definition statusColors (s : string) : option string :=
  if String.eqb s "TODO" then Some "bg-gray-200 text-gray-700"
  else if String.eqb s "IN_PROGRESS" then Some "bg-blue-200 text-blue-700"
  else if String.eqb s "DONE" then Some "bg-green-200 text-green-700"
  else None.

(** ** Row values *)

Inductive due_label :=
| NoDate
| Overdue
| Today
| DaysLeft (n : Z)
| AsIs (d : jsstr).

(** [Math.ceil(x / d)] for [d > 0]. *)
Definition ceil_div (x d : Z) : Z := - ((- x) / d).

(** [formatDueDate(date)] at time [now]: the due date is UTC midnight of
    its day; an unparsable date compares false everywhere. *)
Definition formatDueDate (date : option jsstr) (now : Z) : due_label :=
  match date with
  | Some d =>
      if negb (jsstr_truthy d) then NoDate
      else match parse_date d with
           | Some day =>
               let diffDays := ceil_div (day * DAY_MS - now) DAY_MS in
               if diffDays <? 0 then Overdue
               else if diffDays =? 0 then Today
               else if diffDays <=? 3 then DaysLeft diffDays
               else AsIs d
           | None => AsIs d
           end
  | None => NoDate
  end.

(** [calcProgress(task)]: the rounded percentage text. *)
Definition calcProgress (t : task) : string :=
  match subtasks t with
  | [] => "0%"
  | ss => show_Z (round_ratio 100 (count_by completed ss) (Z.of_nat (length ss))) +:+ "%"
  end.

(** ** Filtering and sorting *)

(** [String.prototype.toLowerCase] on ASCII letters. *)
Definition to_lower (s : jsstr) : jsstr :=
  map (fun c => if (65 <=? c) && (c <=? 90) then c + 32 else c) s.

Fixpoint starts_with (s p : jsstr) : bool :=
  match p, s with
  | [], _ => true
  | c :: p', d :: s' => (c =? d) && starts_with s' p'
  | _ :: _, [] => false
  end.

(** [s.includes(p)]. *)
Fixpoint includes (s p : jsstr) : bool :=
  starts_with s p || match s with [] => false | _ :: s' => includes s' p end.

(** [localeCompare] of the priority codes. *)
Definition localeCompare (a b : string) : Z :=
  match String.compare a b with Lt => -1 | Eq => 0 | Gt => 1 end.

(** [new Date(t.dueDate)] as a time value, [None] for [NaN]. *)
Definition due_time (t : task) : option Z :=
  d ← dueDate t; day ← parse_date d; Some (day * DAY_MS).

(** The comparator of [.sort]; a [NaN] result counts as [0]. *)
Definition compare_tasks (sortBy : string) (a b : task) : Z :=
  if String.eqb sortBy "dueDate" then
    match due_time a, due_time b with Some x, Some y => x - y | _, _ => 0 end
  else if String.eqb sortBy "priority" then localeCompare (task_priority a) (task_priority b)
  else 0.

Definition matches (st : state) (t : task) : bool :=
  includes (to_lower (title t)) (to_lower (search st)) &&
  (String.eqb (filterStatus st) "ALL" || String.eqb (task_status t) (filterStatus st)).

(** [filtered]: the two filters, then the sort. *)
Definition filtered (st : state) : list task :=
  sort_by (compare_tasks (sortBy st)) (List.filter (matches st) (tasks st)).

Record row := mkRow {
  row_title : jsstr;
  row_priority_class : string;
  row_status_class : string;
  row_due : due_label;
  row_progress : string;
  row_edit : string;
  row_delete : string;
}.

Definition render_row (now : Z) (t : task) : row :=
  mkRow (title t) (js_string_of (priorityColors (task_priority t)))
    (js_string_of (statusColors (task_status t))) (formatDueDate (dueDate t) now)
    (calcProgress t) ("/edit/" +:+ show_Z (task_id t)) ("/delete/" +:+ show_Z (task_id t)).

(** The table body: "No tasks found." or one row per filtered task. *)
Definition render (now : Z) (st : state) : option (list row) :=
  match filtered st with [] => None | ts => Some (map (render_row now) ts) end.

(** ** Lemmas *)

Lemma localeCompare_antisym a b : localeCompare b a = - localeCompare a b.
Proof.
  unfold localeCompare. rewrite String.compare_antisym. by destruct (String.compare a b).
Qed.

Lemma compare_tasks_antisym sortBy a b : compare_tasks sortBy b a = - compare_tasks sortBy a b.
Proof.
  unfold compare_tasks. destruct (String.eqb sortBy "dueDate").
  - destruct (due_time a), (due_time b); lia.
  - destruct (String.eqb sortBy "priority"); [apply localeCompare_antisym|done].
Qed.

Lemma Sorted_weaken {A} (P : A -> Prop) (R R' : A -> A -> Prop) l :
  (forall a b, P a -> P b -> R a b -> R' a b) -> Forall P l -> Sorted R l -> Sorted R' l.
Proof.
  intros HR Hall HS. induction HS as [|a l HS IH Hhd]; constructor.
  - apply IH. by inversion Hall.
  - inversion Hhd as [|b l' Hab]; subst; constructor.
    inversion Hall as [|? ? Ha Hl]; subst. inversion Hl; subst. by apply HR.
Qed.

(** Two tasks whose due dates parse, in due-date order. *)
Definition due_le (a b : task) : Prop :=
  exists x y, due_time a = Some x /\ due_time b = Some y /\ x <= y.

Lemma due_le_trans : Transitive due_le.
Proof. intros a b c (x & y & Ha & Hb & Hxy) (y' & z & Hb' & Hc & Hyz). exists x, z. naive_solver lia. Qed.

(** [Math.ceil] of a quotient by a positive divisor. *)
Lemma ceil_div_spec x d : 0 < d -> d * (ceil_div x d - 1) < x <= d * ceil_div x d.
Proof.
  intros Hd. unfold ceil_div. pose proof (Z.div_mod (- x) d ltac:(lia)).
  pose proof (Z.mod_pos_bound (- x) d Hd).
  set (q := (- x) / d) in *. set (r := (- x) mod d) in *. nia.
Qed.

Lemma ceil_div_day x : - DAY_MS < x < 0 -> ceil_div x DAY_MS = 0.
Proof. intros Hx. pose proof (ceil_div_spec x DAY_MS ltac:(unfold DAY_MS; lia)). unfold DAY_MS in *. lia. Qed.

Lemma ceil_div_past x : x <= - DAY_MS -> ceil_div x DAY_MS < 0.
Proof. intros Hx. pose proof (ceil_div_spec x DAY_MS ltac:(unfold DAY_MS; lia)). unfold DAY_MS in *. lia. Qed.

(** ** Theorems *)


(** C22: The table's "Overdue" disagrees with the task list's overdue mark of
    src/src/pages/Tasks.jsx: during the day after the due date's UTC
    midnight the list marks a TODO task overdue while the table labels it
    "Today"; from then on the table labels the task "Overdue" even when it
    is DONE, which the list never marks. *)
Theorem overdue_labels_disagree d day :
  parse_date d = Some day ->
  (forall now, day * DAY_MS < now < day * DAY_MS + DAY_MS ->
     TasksPage.isOverdue (Some d) "TODO" now = true /\ formatDueDate (Some d) now = Today) /\
  (forall now, day * DAY_MS + DAY_MS <= now ->
     formatDueDate (Some d) now = Overdue /\ TasksPage.isOverdue (Some d) "DONE" now = false).
Proof.
  intros Hp. assert (Hne : jsstr_truthy d = true) by (destruct d; [done|reflexivity]).
  unfold TasksPage.isOverdue, formatDueDate. rewrite Hne, Hp. simpl.
  split; intros now Hnow.
  - rewrite ceil_div_day by lia. split; [apply Z.ltb_lt; lia|done].
  - pose proof (ceil_div_past (day * DAY_MS - now) ltac:(lia)) as Hc.
    apply Z.ltb_lt in Hc. by rewrite Hc.
Qed.

(** ** Witnesses *)

Definition mk_sample (id : Z) (priority : string) (due : string) : task :=
  mkTask id (js "Task") None "TODO" priority (Some (js due)) [] [].

Definition sample_tasks : list task :=
  [mk_sample 1 "LOW" "2025-03-01"; mk_sample 2 "MEDIUM" "2025-01-15"; mk_sample 3 "HIGH" "2025-02-10"].

(** "Sort by Priority" orders the codes alphabetically: HIGH, LOW,
    MEDIUM, so LOW tasks come before MEDIUM ones. *)
Example priority_sort_alphabetical :
  map task_id (filtered (mkState sample_tasks [] "ALL" "priority")) = [3; 1; 2].
Proof. vm_compute. reflexivity. Qed.


(** Due 2025-01-10 (day 20098), observed at 10:00 UTC that day and two days later. *)
Lemma overdue_labels_disagree_witness :
  parse_date (js "2025-01-10") = Some 20098 /\
  (TasksPage.isOverdue (Some (js "2025-01-10")) "TODO" (20098 * DAY_MS + 36000000) = true /\
   formatDueDate (Some (js "2025-01-10")) (20098 * DAY_MS + 36000000) = Today) /\
  (formatDueDate (Some (js "2025-01-10")) (20100 * DAY_MS) = Overdue /\
   TasksPage.isOverdue (Some (js "2025-01-10")) "DONE" (20100 * DAY_MS) = false).
Proof.
  pose proof (overdue_labels_disagree (js "2025-01-10") 20098 eq_refl) as [H1 H2].
  split; [reflexivity|]. split; [apply H1|apply H2]; unfold DAY_MS; lia.
Defined.

End TasksTable.
