(* ===== verification/TaskList.v ===== *)
(** The list view with delete, src/src/pages/TaskList.jsx.

    [handleDelete(id)] awaits [deleteTask(id)] and then calls
    [setTasks(tasks.filter((t) => t.id !== id))] with the [tasks] of the
    render whose button was clicked, not the current state.  The page is a
    step function whose pending deletes keep that captured list, so two
    deletes started from the same render and answered in order are
    explicit.  [getTasks] and [deleteTask] are not exported by
    services/api.js; their outcomes are the events. *)

From S2P Require Import Prelude Js Task.
Open Scope Z_scope.

Module TaskList.

(** [tasks] ([undefined] when [getTasks()] resolved without a value) and
    [loading]. *)
Record state := mkState {
  tasks : option (list task);
  loading : bool;
}.

Definition initial : state := mkState (Some []) true.

(** The mount effect's [load()]: [setTasks(data)] on success, the error
    logged otherwise, [setLoading(false)] in [finally]. *)
Definition load (o : promise (option (list task))) (st : state) : state :=
  match o with
  | Resolved data => mkState data false
  | Rejected _ => mkState (tasks st) false
  end.

(** A delete in flight: the id and the [tasks] its handler closed over. *)
Record pending := mkPending { p_id : Z; p_tasks : option (list task) }.

(** [handleDelete(id)] up to its [await]: nothing unless [confirm]
    answers yes. *)
Definition handleDelete_start (confirmed : bool) (id : Z) (st : state) : option pending :=
  if confirmed then Some (mkPending id (tasks st)) else None.

(** After [await deleteTask(id)] resolves:
    [setTasks(tasks.filter((t) => t.id !== id))] on the captured list;
    [.filter] of [undefined] throws and nothing changes. *)
Definition handleDelete_resume (p : pending) (st : state) : state :=
  match p_tasks p with
  | Some ts => mkState (Some (List.filter (fun t => negb (task_id t =? p_id p)) ts)) (loading st)
  | None => st
  end.

Inductive view :=
| VLoading
| VCrash                         (** [tasks.length] of [undefined] *)
| VEmpty
| VTable (rows : list (Z * string)).

(** The rows show each task with its edit target [/tasks/edit/${id}]. *)
Definition render (st : state) : view :=
  if loading st then VLoading
  else match tasks st with
       | None => VCrash
       | Some [] => VEmpty
       | Some ts => VTable (map (fun t => (task_id t, "/tasks/edit/" +:+ show_Z (task_id t))) ts)
       end.

(** ** The page as a step function *)

Record page := mkPage { pg_state : state; pg_pending : list pending }.

Inductive event :=
| EvLoad (o : promise (option (list task)))
| EvDelete (confirmed : bool) (id : Z)     (** a click on a row's Delete *)
| EvDeleted                                (** the oldest pending delete resolves *)
| EvDeleteFailed.                          (** it rejects: unhandled, no update *)

Definition step (p : page) (e : event) : page :=
  match e with
  | EvLoad o => mkPage (load o (pg_state p)) (pg_pending p)
  | EvDelete c id =>
      match handleDelete_start c id (pg_state p) with
      | Some d => mkPage (pg_state p) (pg_pending p ++ [d])
      | None => p
      end
  | EvDeleted =>
      match pg_pending p with
      | d :: ds => mkPage (handleDelete_resume d (pg_state p)) ds
      | [] => p
      end
  | EvDeleteFailed =>
      match pg_pending p with
      | _ :: ds => mkPage (pg_state p) ds
      | [] => p
      end
  end.

Definition run (p : page) (es : list event) : page := fold_left step es p.

(** ** Theorems *)

(** One confirmed delete, answered, removes exactly the tasks with that id
    from the list the page showed. *)
Lemma single_delete_removes st ts id :
  tasks st = Some ts ->
  tasks (pg_state (run (mkPage st []) [EvDelete true id; EvDeleted])) =
    Some (List.filter (fun t => negb (task_id t =? id)) ts).
Proof. intros Hts. simpl. by rewrite Hts. Qed.

(** C39: Two deletes clicked in the same render (the second before the first
    is answered) both capture the same [tasks]; when both succeed in order,
    the second [setTasks] restores the task the first removed, although
    the server deleted it. *)
Theorem concurrent_deletes_resurrect st ts a b :
  tasks st = Some ts -> In a ts -> task_id a <> b ->
  In a (default [] (tasks (pg_state
    (run (mkPage st []) [EvDelete true (task_id a); EvDelete true b; EvDeleted; EvDeleted])))).
Proof.
  intros Hts Ha Hb. simpl. rewrite Hts. simpl. apply filter_In. split; [done|].
  apply negb_true_iff, Z.eqb_neq, Hb.
Qed.

Definition sample_a : task := mkTask 1 (js "Write report") None "TODO" "HIGH" None [] [].
Definition sample_b : task := mkTask 2 (js "Review") None "DONE" "LOW" None [] [].

Lemma concurrent_deletes_resurrect_witness :
  In sample_a (default [] (tasks (pg_state
    (run (mkPage (mkState (Some [sample_a; sample_b]) false) [])
       [EvDelete true 1; EvDelete true 2; EvDeleted; EvDeleted])))).
Proof.
  apply (concurrent_deletes_resurrect (mkState (Some [sample_a; sample_b]) false)
           [sample_a; sample_b] sample_a 2); [reflexivity|by left|discriminate].
Defined.

End TaskList.
