(* ===== verification/Board.v ===== *)
(** The second board, src/src/pages/Board.jsx, and the card component
    src/src/components/TaskCard.jsx.

    Board.jsx moves a task with [await updateTaskStatus(taskId, newStatus)],
    an identifier that no module declares or imports: evaluating it throws
    a [ReferenceError] inside the [try], which the [catch] logs.  The model
    resolves the identifier in the page's scope ([scope_updateTaskStatus])
    and follows the code from there. *)

From S2P Require Import Prelude Js Task Backend TasksTable.
Open Scope Z_scope.

Module Board.

(** [tasks], [undefined] when [getTasks()] resolves without a value. *)
Record state := mkState { tasks : option (list task) }.

Definition initial : state := mkState (Some []).

(** [load()]: [setTasks(data)] on success; a rejection is logged. *)
Definition load (o : promise (option (list task))) (st : state) : state :=
  match o with Resolved data => mkState data | Rejected _ => st end.

(** The bindings of the page's module scope that [moveTask] reads: the
    imports [getTasks] and [updateTask]; [updateTaskStatus] is not
    among them. *)
Inductive binding := BGetTasks | BUpdateTask.

Definition scope_updateTaskStatus : option binding := None.

(** What [moveTask(taskId, newStatus)] does: send a status update and
    reload, or log the error it catches. *)
Inductive move_outcome :=
| MoveSent (id : Z) (body : put_body)
| MoveCaught (msg : string).

Definition moveTask (taskId : Z) (newStatus : string) : move_outcome :=
  match scope_updateTaskStatus with
  | Some _ => MoveSent taskId (PutStatus newStatus)
  | None => MoveCaught "ReferenceError: updateTaskStatus is not defined"
  end.

(** The three columns and the move buttons of a card in column [col]: one
    per other column. *)
Definition columns : list string := ["TODO"; "IN_PROGRESS"; "DONE"].

Definition move_targets (col : string) : list string :=
  List.filter (fun c => negb (String.eqb c col)) columns.

Inductive view :=
| VCrash                                  (** [tasks.filter] of [undefined] *)
| VColumns (cols : list (string * list (Z * list string))).

Definition render (st : state) : view :=
  match tasks st with
  | None => VCrash
  | Some ts =>
      VColumns (map (fun col =>
        (col, map (fun t => (task_id t, move_targets col))
                (List.filter (fun t => String.eqb (task_status t) col) ts))) columns)
  end.

(** Every move button fails before any request is sent: the board never
    moves a task. *)
Lemma moveTask_never_sends taskId newStatus :
  moveTask taskId newStatus = MoveCaught "ReferenceError: updateTaskStatus is not defined".
Proof. reflexivity. Qed.

(** Each card offers exactly the two other columns. *)
Lemma move_targets_other col :
  In col columns -> length (move_targets col) = 2%nat /\ ~ In col (move_targets col).
Proof.
  intros Hc. split.
  - repeat destruct Hc as [<-|Hc]; [reflexivity..|done].
  - intros Hin. apply filter_In in Hin as [_ Hne]. by rewrite String.eqb_refl in Hne.
Qed.

End Board.

Module TaskCard.

(** [toggleStatus]'s next status: TODO, IN_PROGRESS, DONE, then TODO
    again; any other status restarts at TODO. *)
Definition next_status (s : string) : string :=
  if String.eqb s "TODO" then "IN_PROGRESS"
  else if String.eqb s "IN_PROGRESS" then "DONE"
  else "TODO".

(** [updateTask(task.id, { ...task, status: next })]. *)
Definition toggleStatus (t : task) : Z * put_body :=
  (task_id t, PutTask (with_status (next_status (task_status t)) t)).

(** The delete button: [deleteTask(task.id)]. *)
Definition delete_request (t : task) : Z := task_id t.

(** [updateTask(...).then(onChange)] and [deleteTask(...).then(onChange)]:
    the parent is told only when the request resolves; a rejection is
    unhandled. *)
Definition then_onChange (o : promise unit) : bool :=
  match o with Resolved _ => true | Rejected _ => false end.

(** The card's markup: its classes from the lower-cased status and
    priority, the title, the description ([null] renders nothing), the
    priority and the status. *)
Record card_view := mkCardView {
  c_class : jsstr;
  c_title : jsstr;
  c_description : jsstr;
  c_priority_class : jsstr;
  c_priority : string;
  c_status : string;
}.

Definition render (t : task) : card_view :=
  mkCardView (js "task-card " ++ TasksTable.to_lower (js (task_status t))) (title t)
    (match description t with Some d => d | None => [] end)
    (js "priority " ++ TasksTable.to_lower (js (task_priority t))) (task_priority t) (task_status t).

(** The status cycle has period three on the three codes and leaves them
    only for TODO. *)
Lemma next_status_cycle s :
  In s ["TODO"; "IN_PROGRESS"; "DONE"] ->
  next_status (next_status (next_status s)) = s /\ next_status s <> s /\
  In (next_status s) ["TODO"; "IN_PROGRESS"; "DONE"].
Proof. intros Hs. repeat destruct Hs as [<-|Hs]; [split_and!; simpl; auto; done..|done]. Qed.

(** The card's request keeps every field of the task but the status. *)
Lemma toggleStatus_body t :
  exists t', toggleStatus t = (task_id t, PutTask t') /\
    task_status t' = next_status (task_status t) /\ task_id t' = task_id t /\
    subtasks t' = subtasks t /\ title t' = title t.
Proof. eexists. split; [reflexivity|done]. Qed.

(** ** The status cycle through a server

    Next Status on the card of [t], then the page's reload ([onChange] is
    the parent's [load]): the server applies the PUT, the page reads the
    list again, and the card shows the task of the same id. *)
Section Cycle.
#[local] Set Default Proof Using "Type*".
Context `{BackendLaws}.

Definition click_reload (s : srv_state) (t : task) : option (srv_state * task) :=
  let '(id, b) := toggleStatus t in
  s' ← srv_put_task s id b;
  t' ← List.find (fun u => task_id u =? id) (srv_tasks s');
  Some (s', t').

Lemma click_reload_status s t s' t' :
  click_reload s t = Some (s', t') ->
  task_status t' = next_status (task_status t) /\ task_id t' = task_id t.
Proof.
  unfold click_reload, toggleStatus. simpl.
  destruct (srv_put_task s _ _) as [s0|] eqn:E; simpl; [|done].
  destruct (List.find _ _) as [u|] eqn:F; simpl; [|done]. intros [= <- <-].
  apply find_some in F as [Hin Hid%Z.eqb_eq].
  destruct (srv_put_task_status _ _ _ _ E) as (u' & Hu' & _ & Hs).
  pose proof (srv_tasks_task _ _ Hin) as Hu. rewrite Hid, Hu' in Hu. injection Hu as ->.
  split; [exact Hs|exact Hid].
Qed.

(** C38: Three accepted clicks, each followed by the reload, bring a task with
    one of the three codes back to its status, through two other ones:
    against any server that meets [BackendLaws]. *)
Theorem card_cycle s t s1 t1 s2 t2 s3 t3 :
  In (task_status t) ["TODO"; "IN_PROGRESS"; "DONE"] ->
  click_reload s t = Some (s1, t1) -> click_reload s1 t1 = Some (s2, t2) ->
  click_reload s2 t2 = Some (s3, t3) ->
  task_status t3 = task_status t /\ task_id t3 = task_id t /\
  task_status t1 <> task_status t /\ task_status t2 <> task_status t.
Proof.
  intros Hs H1 H2 H3.
  apply click_reload_status in H1 as [S1 I1], H2 as [S2 I2], H3 as [S3 I3].
  rewrite S3, S2, S1, I3, I2, I1.
  repeat destruct Hs as [Hs|Hs]; try done; rewrite <- Hs; split_and!; done.
Qed.

End Cycle.

Definition sample_card : task := mkTask 5 (js "Card") None "TODO" "LOW" None [] [].

Definition sample_store : MemoryBackend.store := MemoryBackend.mkStore [sample_card] (NoDup_singleton _).

Lemma card_cycle_witness :
  exists s1 t1 s2 t2 s3 t3,
    click_reload (H := MemoryBackend.memory_backend) sample_store sample_card = Some (s1, t1) /\
    click_reload (H := MemoryBackend.memory_backend) s1 t1 = Some (s2, t2) /\
    click_reload (H := MemoryBackend.memory_backend) s2 t2 = Some (s3, t3) /\ task_status t3 = "TODO".
Proof.
  do 6 eexists.
  match goal with |- ?A /\ ?B /\ ?C /\ _ =>
    eassert (HA : A) by reflexivity; eassert (HB : B) by reflexivity;
    eassert (HC : C) by reflexivity end.
  split_and!; [exact HA|exact HB|exact HC|].
  exact (proj1 (card_cycle (H0 := MemoryBackend.memory_backend_laws) _ sample_card _ _ _ _ _ _
                 (or_introl eq_refl) HA HB HC)).
Defined.

End TaskCard.
