(* ===== verification/EditDelete.v ===== *)
(** The edit panel src/src/pages/EditTask.jsx and the delete confirmation
    page src/src/pages/DeleteTask.jsx.  Both call helpers of
    services/api.js that it does not export ([updateTask], [addSubtask],
    [getTask], [deleteTask]); each handler is modelled up to its request
    and from the outcome of that promise on. *)

From S2P Require Import Prelude Js Task Backend.
Open Scope Z_scope.

Module EditTask.

(** [title] starts as [task.title]; [newSubtask] as [""]. *)
Record state := mkState { title_input : jsstr; newSubtask : jsstr }.

Definition initial (t : task) : state := mkState (title t) [].

Definition setTitle (v : jsstr) (st : state) : state := mkState v (newSubtask st).
Definition setNewSubtask (v : jsstr) (st : state) : state := mkState (title_input st) v.

(** [handleSave]: [updateTask(task.id, { ...task, title })]. *)
Definition handleSave (t : task) (st : state) : Z * put_body :=
  (task_id t, PutTask (mkTask (task_id t) (title_input st) (description t) (task_status t)
                         (task_priority t) (dueDate t) (subtasks t) (comments t))).

(** [handleAddSubtask]: nothing for a white-space title; otherwise
    [addSubtask(task.id, { title: newSubtask })]. *)
Definition handleAddSubtask (t : task) (st : state) : option (Z * jsstr) :=
  if jsstr_truthy (js_trim (newSubtask st)) then Some (task_id t, newSubtask st) else None.

(** After either request resolves: the subtask input is cleared (add
    only) and [onRefresh()] is called; a rejection skips both. *)
Definition handleAddSubtask_resume (o : promise unit) (st : state) : state * bool :=
  match o with
  | Resolved _ => (setNewSubtask [] st, true)
  | Rejected _ => (st, false)
  end.

Definition handleSave_resume (o : promise unit) : bool :=
  match o with Resolved _ => true | Rejected _ => false end.

(** The markup: the title input, Save, the subtask input, Add. *)
Record view := mkView { v_title : jsstr; v_newSubtask : jsstr }.

Definition render (st : state) : view := mkView (title_input st) (newSubtask st).

(** ** The panel against the in-memory server

    The panel, the [task] prop its parent passes, and the requests it has
    sent that the server has not applied yet; the server applies them in
    any order.  [onRefresh()] makes the parent read the task again and
    pass it down; the panel's [useState] values are not reset by a new
    prop. *)
Import MemoryBackend.

(** POST /tasks/{id}/subtasks (spec section 6): the server appends a
    subtask, not completed, with the id [sid] it assigns. *)
Definition add_subtask (s : store) (id sid : Z) (v : jsstr) : option store :=
  match lookup (store_tasks s) id with
  | Some t =>
      put_task s id (PutTask (mkTask (task_id t) (title t) (description t) (task_status t)
                                (task_priority t) (dueDate t)
                                (subtasks t ++ [mkSubtask sid v false]) (comments t)))
  | None => None
  end.

Inductive pending := PendSave (id : Z) (body : put_body) | PendAdd (id : Z) (v : jsstr).

Record flow := mkFlow { server : store; prop : task; panel : state; inflight : list pending }.

Inductive event :=
| TypeTitle (v : jsstr)
| TypeSubtask (v : jsstr)
| ClickSave
| ClickAdd
| Serve (i : nat) (sid : Z).   (** the server applies the [i]-th request *)

Definition serve (s : store) (sid : Z) (r : pending) : option store :=
  match r with PendSave id b => put_task s id b | PendAdd id v => add_subtask s id sid v end.

(** The handler's code after its [await]. *)
Definition resume (r : pending) (o : promise unit) (st : state) : state * bool :=
  match r with
  | PendSave _ _ => (st, handleSave_resume o)
  | PendAdd _ _ => handleAddSubtask_resume o st
  end.

(** The parent's reload: the server's task of the same id. *)
Definition refresh (s : store) (t : task) : task := default t (lookup (store_tasks s) (task_id t)).

Definition step (x : flow) (e : event) : flow :=
  match e with
  | TypeTitle v => mkFlow (server x) (prop x) (setTitle v (panel x)) (inflight x)
  | TypeSubtask v => mkFlow (server x) (prop x) (setNewSubtask v (panel x)) (inflight x)
  | ClickSave =>
      let '(id, b) := handleSave (prop x) (panel x) in
      mkFlow (server x) (prop x) (panel x) (inflight x ++ [PendSave id b])
  | ClickAdd =>
      match handleAddSubtask (prop x) (panel x) with
      | Some (id, v) => mkFlow (server x) (prop x) (panel x) (inflight x ++ [PendAdd id v])
      | None => x
      end
  | Serve i sid =>
      match inflight x !! i with
      | None => x
      | Some r =>
          match serve (server x) sid r with
          | Some s' =>
              let '(st', refreshed) := resume r (Resolved tt) (panel x) in
              mkFlow s' (if refreshed then refresh s' (prop x) else prop x) st' (delete i (inflight x))
          | None =>
              let '(st', _) := resume r (Rejected "Request failed") (panel x) in
              mkFlow (server x) (prop x) st' (delete i (inflight x))
          end
      end
  end.

Definition run (x : flow) (es : list event) : flow := fold_left step es x.

(** The panel opened on the server's task [t]. *)
Definition opened (s : store) (t : task) : flow := mkFlow s t (initial t) [].

(** Saving sends the task as received with only the typed title changed:
    its status, subtasks and comments are those of the prop, whatever the
    server holds now. *)
Lemma handleSave_body t st :
  exists t', handleSave t st = (task_id t, PutTask t') /\ title t' = title_input st /\
    task_status t' = task_status t /\ subtasks t' = subtasks t /\ comments t' = comments t.
Proof. eexists. split; [reflexivity|done]. Qed.

Lemma handleAddSubtask_guard t st :
  handleAddSubtask t st = None <-> Forall (fun c => is_js_space c = true) (newSubtask st).
Proof.
  unfold handleAddSubtask, jsstr_truthy. rewrite <- js_trim_nil_iff.
  case_bool_decide; simpl; split; done.
Qed.

(** ** The order in which the server applies Add and Save *)

Definition with_title (w : jsstr) (t : task) : task :=
  mkTask (task_id t) w (description t) (task_status t) (task_priority t) (dueDate t)
    (subtasks t) (comments t).

Definition with_subtask (sid : Z) (v : jsstr) (t : task) : task :=
  mkTask (task_id t) (title t) (description t) (task_status t) (task_priority t) (dueDate t)
    (subtasks t ++ [mkSubtask sid v false]) (comments t).

Lemma add_subtask_lookup s t sid v :
  lookup (store_tasks s) (task_id t) = Some t ->
  exists s', add_subtask s (task_id t) sid v = Some s' /\
             lookup (store_tasks s') (task_id t) = Some (with_subtask sid v t).
Proof.
  intros Hl. unfold add_subtask. rewrite Hl.
  destruct (put_task_lookup s (task_id t) (PutTask (with_subtask sid v t)) t Hl) as (s' & E1 & E2).
  exists s'. split; [exact E1|]. by rewrite E2.
Qed.

Lemma handleAddSubtask_typed t w v :
  jsstr_truthy (js_trim v) = true ->
  handleAddSubtask t (setNewSubtask v (setTitle w (initial t))) = Some (task_id t, v).
Proof. intros Hv. unfold handleAddSubtask. simpl. by rewrite Hv. Qed.

#[local] Arguments handleAddSubtask : simpl never.
#[local] Arguments add_subtask : simpl never.
#[local] Arguments put_task : simpl never.

(** Type a title [w] and a subtask [v], click Add, then Save: both
    requests are in flight at once. *)
Definition add_then_save (w v : jsstr) : list event :=
  [TypeTitle w; TypeSubtask v; ClickAdd; ClickSave].


(** A server holding one task with one subtask. *)
Definition sample_task : task :=
  mkTask 3 (js "Draft") None "TODO" "LOW" None [mkSubtask 1 (js "Outline") false] [].

Definition sample_store : store := mkStore [sample_task] (NoDup_singleton _).


End EditTask.

Module DeleteTask.

(** [task]: [null] until [getTask(id)] resolves. *)
Record state := mkState { task_shown : option task }.

Definition initial : state := mkState None.

(** The mount effect: [setTask(data)]; a rejection is unhandled and the
    state stays. *)
Definition load (o : promise (option task)) (st : state) : state :=
  match o with Resolved data => mkState data | Rejected _ => st end.

(** [handleDelete]: after [await deleteTask(id)], [navigate("/tasks")];
    a rejection is unhandled and nothing navigates. *)
Definition handleDelete (o : promise unit) : list effect :=
  match o with Resolved _ => [Navigate "/tasks"] | Rejected _ => [] end.

Definition cancel : list effect := [Navigate "/tasks"].

Inductive view := VLoading | VConfirm (t : task).

Definition render (st : state) : view :=
  match task_shown st with Some t => VConfirm t | None => VLoading end.

End DeleteTask.
