(* ===== verification/Theme.v ===== *)
(** The presentation settings kept in [localStorage] (spec section 5 keys
    [darkMode] and [theme]; styling itself is out of the spec's scope):
    App.jsx's [darkMode] with its persisting effect, ThemeProvider of
    src/src/context/ThemeContext.jsx, ThemeButton.jsx, TopHeader.jsx with
    its theme switch and profile modal, ThemeToggle.jsx, and the fixed
    profile of ProfilePanel.jsx.  Each setting is a value read from
    storage at mount and written back by an effect or handler; the lemmas
    say that a reload restores what the user last chose. *)

From S2P Require Import Prelude Js.
Open Scope Z_scope.

Module AppTheme.

(** [useState(() => localStorage.getItem('darkMode') === 'true')]. *)
Definition init (σ : storage) : bool := bool_decide (σ !! "darkMode" = Some "true").

(** The [[darkMode]] effect: [localStorage.setItem('darkMode', darkMode)]
    stores [String(darkMode)]; the body class follows. *)
Definition persist (darkMode : bool) (σ : storage) : storage :=
  <["darkMode" := if darkMode then "true" else "false"]> σ.

Definition toggleDarkMode (darkMode : bool) : bool := negb darkMode.

Definition app_class (darkMode : bool) : string := if darkMode then "app dark" else "app light".

(** Mount, then [n] clicks on the toggle, each followed by the effect. *)
Fixpoint session (σ : storage) (n : nat) : bool * storage :=
  match n with
  | O => (init σ, persist (init σ) σ)
  | S n' => let '(dm, σ') := session σ n' in (toggleDarkMode dm, persist (toggleDarkMode dm) σ')
  end.

Lemma init_persist dm σ : init (persist dm σ) = dm.
Proof. unfold init, persist. rewrite lookup_insert_eq. by destruct dm. Qed.

(** A reload after any number of toggles comes back in the last mode. *)
Lemma session_reload σ n : init (session σ n).2 = (session σ n).1.
Proof. destruct n as [|n]; simpl; [|destruct (session σ n)]; apply init_persist. Qed.

End AppTheme.

Module ThemeProvider.

(** The provider's mount: the first commit has [theme = "light"]; its
    first effect reads the saved theme and, when it is truthy, schedules
    [setTheme(saved)]; its second effect then stores ["light"]; the
    re-render with the saved theme stores that theme again.  The result
    is the theme, the storage and whether [<html>] has class [dark]. *)
Definition apply (theme : string) (σ : storage) : storage * bool :=
  (<["theme" := theme]> σ, String.eqb theme "dark").

Definition mount (σ : storage) : string * storage * bool :=
  let saved := σ !! "theme" in
  let '(σ1, _) := apply "light" σ in
  let theme := if opt_truthy saved then default "light" saved else "light" in
  let '(σ2, dark) := apply theme σ1 in (theme, σ2, dark).

(** [toggleTheme]: ["light"] becomes ["dark"], anything else ["light"]. *)
Definition toggleTheme (prev : string) : string :=
  if String.eqb prev "light" then "dark" else "light".

(** The context value: [{ theme, toggleTheme }]. *)
Record context := mkContext { ctx_theme : string; ctx_toggle : string -> string }.

Definition value (theme : string) : context := mkContext theme toggleTheme.

(** A saved theme survives the mount, although the first effect run
    overwrites it with ["light"] for one commit. *)
Lemma mount_restores σ saved :
  σ !! "theme" = Some saved -> saved <> "" ->
  (mount σ).1.1 = saved /\ (mount σ).1.2 !! "theme" = Some saved /\
  (mount σ).2 = String.eqb saved "dark".
Proof.
  intros Hs Hne. unfold mount, apply. rewrite Hs. simpl.
  assert (Ht : str_truthy saved = true) by by apply str_truthy_true.
  rewrite Ht. simpl. rewrite lookup_insert_eq. done.
Qed.

(** A toggle, applied, is what the next mount shows. *)
Lemma toggle_then_mount theme σ :
  let t := toggleTheme theme in (mount (apply t σ).1).1.1 = t.
Proof.
  simpl. apply mount_restores; [by rewrite lookup_insert_eq|].
  unfold toggleTheme. by destruct (String.eqb theme "light").
Qed.

End ThemeProvider.

Module ThemeButton.

(** [useState(localStorage.getItem("theme") || "light")]. *)
Definition init (σ : storage) : string := σ !! "theme" ||ₛ "light".

(** The effect stores ["dark"] for ["dark"] and ["light"] for anything else. *)
Definition persist (theme : string) (σ : storage) : storage :=
  <["theme" := if String.eqb theme "dark" then "dark" else "light"]> σ.

Definition click (theme : string) : string := if String.eqb theme "dark" then "light" else "dark".

Inductive icon := Sun | Moon.

(** The button shows the sun in dark mode and the moon otherwise. *)
Definition render (theme : string) : icon := if String.eqb theme "dark" then Sun else Moon.

Lemma click_persist_reload theme σ :
  init (persist (click theme) σ) = click theme.
Proof.
  unfold init, persist, click. destruct (String.eqb theme "dark"); simpl;
    rewrite lookup_insert_eq; reflexivity.
Qed.

End ThemeButton.

Module TopHeader.

Definition init (σ : storage) : bool := bool_decide (σ !! "theme" = Some "dark").

(** [toggleTheme]: flips [dark], toggles the class, stores the new mode. *)
Definition toggleTheme (dark : bool) (σ : storage) : bool * storage :=
  (negb dark, <["theme" := if dark then "light" else "dark"]> σ).

(** [dark] and [open] (the profile modal). *)
Record state := mkState { dark : bool; open : bool }.

Definition mount (σ : storage) : state := mkState (init σ) false.

Definition toggle (st : state) (σ : storage) : state * storage :=
  let '(d, σ') := toggleTheme (dark st) σ in (mkState d (open st), σ').

(** The Profile button and the modal's Close button. *)
Definition openProfile (st : state) : state := mkState (dark st) true.
Definition closeProfile (st : state) : state := mkState (dark st) false.

(** The modal's fixed text: name, email and role written in the markup. *)
Record profile := mkProfile { p_name : string; p_email : string; p_role : string }.

Definition shown_profile : profile :=
  mkProfile "Farahnoz 👩‍💻" "user@example.com" "Student / Developer".

Inductive icon := Sun | Moon.

(** The toggle's icon and label, and the modal when [open]. *)
Record view := mkView { v_icon : icon; v_label : string; v_profile : option profile }.

Definition render (st : state) : view :=
  mkView (if dark st then Sun else Moon) (if dark st then "Light" else "Dark")
    (if open st then Some shown_profile else None).

Lemma toggle_reload dark σ : init (toggleTheme dark σ).2 = (toggleTheme dark σ).1.
Proof. unfold init, toggleTheme. simpl. rewrite lookup_insert_eq. by destruct dark. Qed.

End TopHeader.

(** components/ThemeToggle.jsx: a button over ThemeProvider's context. *)
Module ThemeToggle.

Definition label (theme : string) : string :=
  if String.eqb theme "dark" then "☀️ Light Mode" else "🌙 Dark Mode".

(** [onClick={toggleTheme}]: the context's toggle. *)
Definition click (ctx : ThemeProvider.context) : string := ThemeProvider.ctx_toggle ctx (ThemeProvider.ctx_theme ctx).

(** The button: its label from the context's theme. *)
Definition render (ctx : ThemeProvider.context) : string := label (ThemeProvider.ctx_theme ctx).

End ThemeToggle.

(** components/ProfilePanel.jsx: fixed profile text, a close button that
    calls [onClose], and a Log Out button without a handler. *)
Module ProfilePanel.

Record view := mkView { username : string; email : string }.

Definition render : view := mkView "Farahnoz" "farahnoz@example.com".

Inductive button := Close | LogOut.

(** What a click does: [onClose()] for the close button; nothing for Log
    Out, which has no [onClick]. *)
Definition click (b : button) : option unit := match b with Close => Some tt | LogOut => None end.

End ProfilePanel.

