(* ===== verification/Layout.v ===== *)
(** The layout of src/src/components/Layout.jsx: the side bar of
    src/src/components/Sidebar.jsx and the header of TopHeader.jsx around
    the page's content; and src/src/pages/Home.jsx.  No route of App.jsx
    renders [Layout] or [Home]; their parts are modelled as written. *)

From S2P Require Import Prelude Js Theme.
Open Scope Z_scope.

Module Sidebar.

Definition base_style : string :=
  "flex items-center gap-3 px-5 py-3 rounded-xl text-lg transition-all 
     ".

Definition active_style : string :=
  "bg-gradient-to-r from-purple-500 to-pink-500 text-white shadow-lg".

Definition idle_style : string := "text-gray-700 hover:bg-gray-200".

(** [linkStyle(path)]: the highlighted classes when [pathname === path]. *)
Definition linkStyle (pathname path : string) : string :=
  base_style +:+ (if String.eqb pathname path then active_style else idle_style).

(** The four links: target, icon class, label. *)
Definition entries : list (string * string * string) :=
  [("/tasks", "fa-solid fa-list-check", "Tasks");
   ("/create", "fa-solid fa-plus", "Create Task");
   ("/board", "fa-solid fa-table-columns", "Board");
   ("/dashboard", "fa-solid fa-chart-pie", "Dashboard")].

Definition links : list string := map (fun e => e.1.1) entries.

Record link_view := mkLinkView { lv_to : string; lv_class : string; lv_icon : string; lv_label : string }.

Record view := mkView { heading : string; nav : list link_view; footer : string }.

Definition render (pathname : string) : view :=
  mkView "Smart Tasks"
    (map (fun '(p, i, l) => mkLinkView p (linkStyle pathname p) i l) entries)
    "© 2025".

End Sidebar.

Module Layout.

(** [Layout({ children })]: the side bar at the location, the header with
    its own state, and the children in the main area. *)
Record view (A : Type) := mkView {
  sidebar : Sidebar.view;
  header : TopHeader.view;
  content : A;
}.
Arguments mkView {A}.

Definition render {A} (pathname : string) (hs : TopHeader.state) (children : A) : view A :=
  mkView (Sidebar.render pathname) (TopHeader.render hs) children.

End Layout.

(** src/src/pages/Home.jsx: a heading and a subtitle above the Tasks
    page, whatever that page renders. *)
Module Home.

Record view (A : Type) := mkView { title : string; subtitle : string; tasks : A }.
Arguments mkView {A}.

Definition render {A} (tasks_page : A) : view A :=
  mkView "My Tasks" "Manage your tasks efficiently" tasks_page.

End Home.

Module LayoutFacts.

(** The side bar highlights a link exactly when its target is the
    current location. *)
Lemma sidebar_highlight pathname :
  Forall (fun lv => Sidebar.lv_class lv = Sidebar.base_style +:+ Sidebar.active_style <->
                    Sidebar.lv_to lv = pathname)
    (Sidebar.nav (Sidebar.render pathname)).
Proof.
  apply Forall_forall. intros lv Hin%list_elem_of_In. simpl in Hin.
  repeat destruct Hin as [<-|Hin]; try done; simpl; unfold Sidebar.linkStyle;
    match goal with |- context [String.eqb pathname ?q] =>
      destruct (String.eqb_spec pathname q) as [<-|Hne] end; split; try done;
    intros H; first [apply (f_equal String.length) in H; discriminate | congruence].
Qed.

End LayoutFacts.
