(* ===== verification/UI.v ===== *)
(** The styled wrappers of src/src/components/ui/: [Button], [Badge],
    [Card], [Select] and [Textarea].  Each renders one element whose class
    is a fixed list of utility classes followed by the caller's
    [className] (default [""] when the prop is [undefined]); [Badge]
    picks its colours by [variant], falling back to [primary].  The line
    breaks and indentation inside the template literals are whitespace
    between class names and are written here as single spaces.  No file of
    the repository imports these components. *)

From S2P Require Import Prelude Js.
Open Scope Z_scope.

Module UI.

(** An element: its tag, its class, the other props spread onto it, and
    its children. *)
Record element (A : Type) := mkElement {
  tag : string;
  class : string;
  props : list (string * string);
  children : A;
}.
Arguments mkElement {A}.

(** [{ className = "" }]: the default applies when the prop is absent. *)
Definition className_or_default (className : option string) : string :=
  match className with Some c => c | None => "" end.

Definition button_classes : string :=
  "px-4 py-2 rounded-xl font-semibold bg-purple-500 text-white transition-all duration-200 hover:opacity-90 active:scale-95".

Definition Button {A} (className : option string) (props : list (string * string)) (children : A)
    : element A :=
  mkElement "button" (button_classes +:+ " " +:+ className_or_default className) props children.

(** [styles[variant] || styles.primary]. *)
Definition badge_style (variant : option string) : string :=
  match variant with
  | Some "secondary" => "bg-gray-200 text-gray-800 dark:bg-gray-700 dark:text-gray-200"
  | _ => "bg-brand text-white"
  end.

Definition Badge {A} (variant : option string) (children : A) : element A :=
  mkElement "span" ("px-3 py-1 rounded-full text-sm font-medium " +:+ badge_style variant) [] children.

Definition Card {A} (className : option string) (children : A) : element A :=
  mkElement "div"
    ("rounded-xl bg-white dark:bg-gray-800 border border-gray-200 dark:border-gray-700 " +:+
     className_or_default className) [] children.

Definition field_classes : string :=
  "border rounded-xl px-4 py-2 w-full transition-all duration-200 focus:ring-2 focus:ring-purple-400 dark:focus:ring-purple-300 focus:border-transparent".

Definition Select {A} (className : option string) (props : list (string * string)) (children : A)
    : element A :=
  mkElement "select" (field_classes +:+ " " +:+ className_or_default className) props children.

Definition Textarea (className : option string) (props : list (string * string)) : element unit :=
  mkElement "textarea" (field_classes +:+ " " +:+ className_or_default className) props tt.

(** Every variant but ["secondary"] gets the primary colours. *)
Lemma badge_style_fallback v :
  v <> Some "secondary" -> badge_style v = "bg-brand text-white".
Proof.
  intros Hv. unfold badge_style. destruct v as [s|]; [|done].
  destruct (String.eqb_spec s "secondary") as [->|Hs]; [done|].
  repeat (case_match; try done); subst; congruence.
Qed.

End UI.
