(* ===== verification/Timer.v ===== *)
(** The timer of the task detail page, src/src/pages/TaskDetails.jsx
    lines 15-35 and 307-325, with React's bookkeeping of its effect.

    [useEffect(body, [timerRunning])] runs [body] after a commit in which
    [timerRunning] changed, first running the cleanup the previous run
    returned; each run's [body] and cleanup read the [timerInterval] of
    the render they belong to.  The body starts an interval when the
    timer runs and calls [setTimerInterval], which re-renders without
    re-running the effect (its dependency is unchanged); otherwise it
    clears [timerInterval].  The cleanup clears the [timerInterval] it
    closed over.  The model keeps the page state of [TaskDetails], the
    state hook [timerInterval], the dependency value of the last run, the
    value the registered cleanup closed over, and the intervals the
    browser is still running ([active]).  Interval ids are the positive
    integers [setInterval] returns. *)

From S2P Require Import Prelude Js Task PageFetch Backend TaskDetails.
Open Scope Z_scope.

Module TaskTimer.

Record hooks := mkHooks {
  page : TaskDetails.state;
  timerInterval : option nat;
  effect_deps : bool;
  cleanup_captured : option nat;
  active : list nat;
  next_id : nat;
  mounted : bool;
}.

Definition set_page (st : TaskDetails.state) (h : hooks) : hooks :=
  mkHooks st (timerInterval h) (effect_deps h) (cleanup_captured h) (active h) (next_id h) (mounted h).

(** [clearInterval(x)] for [x] an interval id or [null]. *)
Definition clearInterval (x : option nat) (act : list nat) : list nat :=
  match x with Some i => List.filter (fun j => negb (Nat.eqb j i)) act | None => act end.

(** One run of the effect: the previous cleanup, then the body with this
    render's [timerRunning] and [timerInterval]; the new cleanup closes
    over that [timerInterval]. *)
Definition run_effect (h : hooks) : hooks :=
  let act := clearInterval (cleanup_captured h) (active h) in
  if TaskDetails.timerRunning (page h) then
    mkHooks (page h) (Some (next_id h)) true (timerInterval h) (next_id h :: act) (S (next_id h)) true
  else
    mkHooks (page h) (timerInterval h) false (timerInterval h)
      (clearInterval (timerInterval h) act) (next_id h) true.

(** A commit: the effect runs when its dependency changed. *)
Definition commit (h : hooks) : hooks :=
  if mounted h && negb (Bool.eqb (TaskDetails.timerRunning (page h)) (effect_deps h))
  then run_effect h else h.

(** Mount: the first run finds the timer stopped and [timerInterval]
    null, so it does nothing and registers a cleanup over [null]. *)
Definition mount : hooks := mkHooks TaskDetails.initial None false None [] 1 true.

Inductive event :=
| EvToggle                 (** Start/Pause: [setTimerRunning(!timerRunning)] *)
| EvReset                  (** [setTimeSpent(0); setTimerRunning(false)] *)
| EvTick (i : nat)         (** interval [i] fires: [setTimeSpent(prev => prev + 1)] *)
| EvUnmount.               (** the page goes away: the last cleanup runs *)

(** Updates of an unmounted component are dropped. *)
Definition step (h : hooks) (e : event) : hooks :=
  match e with
  | EvToggle => commit (set_page (TaskDetails.toggle_timer (page h)) h)
  | EvReset => commit (set_page (TaskDetails.reset_timer (page h)) h)
  | EvTick i =>
      if mounted h && existsb (Nat.eqb i) (active h) then set_page (TaskDetails.tick (page h)) h
      else h
  | EvUnmount =>
      if mounted h then
        mkHooks (page h) (timerInterval h) (effect_deps h) (cleanup_captured h)
          (clearInterval (cleanup_captured h) (active h)) (next_id h) false
      else h
  end.

Definition run (h : hooks) (es : list event) : hooks := fold_left step es h.

(** While mounted: the effect has seen the current [timerRunning]; ids
    handed out are below [next_id]; a running timer has exactly one
    interval, the one in [timerInterval], and the cleanup closed over an
    older one; a stopped timer has none. *)
Definition timer_inv (h : hooks) : Prop :=
  mounted h = true ->
  effect_deps h = TaskDetails.timerRunning (page h) /\
  (forall j, timerInterval h = Some j -> (j < next_id h)%nat) /\
  (forall j, cleanup_captured h = Some j -> (j < next_id h)%nat) /\
  if TaskDetails.timerRunning (page h) then
    exists i, timerInterval h = Some i /\ active h = [i] /\
      (forall j, cleanup_captured h = Some j -> (j < i)%nat)
  else active h = [].

(** ** Lemmas *)

Lemma clearInterval_other i act :
  ~ In i act -> clearInterval (Some i) act = act.
Proof.
  intros Hi. simpl. induction act as [|j act IH]; simpl; [done|].
  destruct (Nat.eqb_spec j i) as [->|]; simpl in *; [tauto|]. f_equal. auto.
Qed.

Lemma clearInterval_single i : clearInterval (Some i) [i] = [].
Proof. simpl. by rewrite Nat.eqb_refl. Qed.

(** The cleanup of a running timer spares its own interval. *)
Lemma clear_captured_running c i :
  (forall j, c = Some j -> (j < i)%nat) -> clearInterval c [i] = [i].
Proof.
  intros Hc. destruct c as [j|]; [|done]. apply clearInterval_other.
  specialize (Hc j eq_refl). intros [->|[]]. lia.
Qed.

Lemma clearInterval_nil c : clearInterval c [] = [].
Proof. by destruct c. Qed.

#[local] Hint Resolve clear_captured_running clearInterval_nil : tm.

(** The effect run after the timer changed from [running] to its negation. *)
Lemma run_effect_inv h :
  mounted h = true ->
  effect_deps h = negb (TaskDetails.timerRunning (page h)) ->
  (forall j, timerInterval h = Some j -> (j < next_id h)%nat) ->
  (forall j, cleanup_captured h = Some j -> (j < next_id h)%nat) ->
  (if effect_deps h then exists i, timerInterval h = Some i /\ active h = [i] /\
      (forall j, cleanup_captured h = Some j -> (j < i)%nat)
   else active h = []) ->
  timer_inv (run_effect h).
Proof.
  intros Hm Hd Hti Hcc Hact. unfold timer_inv, run_effect.
  destruct (TaskDetails.timerRunning (page h)) eqn:Hr; simpl in Hd; rewrite Hd in Hact; simpl;
    intros _; rewrite Hr.
  - rewrite Hact, clearInterval_nil. split_and!; [done| | |].
    + intros j [= <-]. lia.
    + intros j Hj. specialize (Hti j Hj). lia.
    + eexists. split_and!; [done|done|]. intros j Hj. by apply Hti.
  - destruct Hact as (i & Hi & Ha & Hc). rewrite Ha, Hi, clear_captured_running by done.
    rewrite clearInterval_single. split_and!; [done| | |done]; intros j [= <-]; by apply Hti.
Qed.

(** What a state update leaves of the invariant: everything but the
    agreement of [effect_deps] with [timerRunning]. *)
Definition effect_inv (h : hooks) : Prop :=
  mounted h = true ->
  (forall j, timerInterval h = Some j -> (j < next_id h)%nat) /\
  (forall j, cleanup_captured h = Some j -> (j < next_id h)%nat) /\
  if effect_deps h then
    exists i, timerInterval h = Some i /\ active h = [i] /\
      (forall j, cleanup_captured h = Some j -> (j < i)%nat)
  else active h = [].

Lemma commit_inv h : effect_inv h -> timer_inv (commit h).
Proof.
  intros Hpre. unfold commit. destruct (mounted h) eqn:Hm; simpl; [|intros Hm'; congruence].
  destruct (Hpre Hm) as (Hti & Hcc & Hact).
  destruct (Bool.eqb_spec (TaskDetails.timerRunning (page h)) (effect_deps h)) as [E|E]; simpl.
  - intros _. rewrite <- E in *. by split_and!.
  - apply run_effect_inv; try done. by destruct (TaskDetails.timerRunning (page h)), (effect_deps h).
Qed.

Lemma inv_effect_inv h st : timer_inv h -> effect_inv (set_page st h).
Proof.
  intros Hinv Hm. destruct (Hinv Hm) as (Hd & Hti & Hcc & Hact). simpl. rewrite Hd. by split_and!.
Qed.

Lemma step_timer_inv h e : timer_inv h -> timer_inv (step h e).
Proof.
  intros Hinv. destruct e; cbn [step].
  - by apply commit_inv, inv_effect_inv.
  - by apply commit_inv, inv_effect_inv.
  - destruct (mounted h && _); [|done]. intros Hm. destruct (Hinv Hm) as (Hd & Hti & Hcc & Hact).
    by split_and!.
  - destruct (mounted h); [|done]. intros [=].
Qed.

(** After the page is gone nothing clears an interval. *)
Lemma unmounted_active h es : mounted h = false -> active (run h es) = active h.
Proof.
  revert h. induction es as [|e es IH]; intros h Hm; simpl; [done|].
  rewrite IH; destruct e; simpl; unfold commit; simpl; rewrite ?Hm; simpl; try done.
  all: destruct (mounted h); done.
Qed.

Lemma unmounted_stays h es : mounted h = false -> mounted (run h es) = false.
Proof.
  revert h. induction es as [|e es IH]; intros h Hm; simpl; [done|].
  apply IH. destruct e; simpl; unfold commit; simpl; rewrite ?Hm; simpl; try done.
  all: destruct (mounted h); done.
Qed.

Lemma run_timer_inv es : timer_inv (run mount es).
Proof.
  unfold run. assert (H0 : timer_inv mount) by (intros _; simpl; split_and!; done).
  revert H0. generalize mount. induction es as [|e es IH]; intros h Hh; simpl; [done|].
  by apply IH, step_timer_inv.
Qed.

(** Ticks of the live interval each add a second and change nothing else
    the hooks hold. *)
Lemma ticks_run h i k :
  mounted h = true -> active h = [i] ->
  run h (repeat (EvTick i) k) =
  set_page (TaskDetails.set_timer (TaskDetails.timerRunning (page h))
              (TaskDetails.timeSpent (page h) + Z.of_nat k) (page h)) h.
Proof.
  revert h; induction k as [|k IH]; intros h Hm Ha.
  - destruct h as [[] ? ? ? ? ? ?]; simpl. unfold set_page, TaskDetails.set_timer; simpl.
    by rewrite Z.add_0_r.
  - change (run h (repeat (EvTick i) (S k))) with (run (step h (EvTick i)) (repeat (EvTick i) k)).
    assert (Hs : step h (EvTick i) = set_page (TaskDetails.tick (page h)) h).
    { simpl. rewrite Hm, Ha. simpl. by rewrite Nat.eqb_refl. }
    rewrite Hs, IH by done.
    destruct h as [[] ? ? ? ? ? ?]; simpl. unfold set_page, TaskDetails.set_timer; simpl.
    do 2 f_equal. lia.
Qed.

(** ** Theorems *)

(** C30: While the page is mounted, the browser runs exactly one timer
    interval when the timer is started and none when it is stopped: a
    started timer counts one second per second, and pausing or resetting
    stops it. *)
Theorem timer_single_interval es :
  mounted (run mount es) = true ->
  (TaskDetails.timerRunning (page (run mount es)) = true -> exists i, active (run mount es) = [i]) /\
  (TaskDetails.timerRunning (page (run mount es)) = false -> active (run mount es) = []).
Proof.
  intros Hm. destruct (run_timer_inv es Hm) as (_ & _ & _ & Hact).
  split; intros Hr; rewrite Hr in Hact; [|done]. destruct Hact as (i & _ & Ha & _). eauto.
Qed.

(** C29: Leaving the page while the timer runs leaks its interval: the cleanup
    that runs on unmount closed over the [timerInterval] of the render
    that started the timer, which is an older id or [null], so the
    running interval is never cleared, whatever happens afterwards. *)
Theorem timer_leaks_on_unmount es :
  mounted (run mount es) = true -> TaskDetails.timerRunning (page (run mount es)) = true ->
  exists i, active (run mount es) = [i] /\
    forall es', active (run (step (run mount es) EvUnmount) es') = [i] /\
                mounted (run (step (run mount es) EvUnmount) es') = false.
Proof.
  intros Hm Hr. destruct (run_timer_inv es Hm) as (_ & _ & _ & Hact). rewrite Hr in Hact.
  destruct Hact as (i & _ & Ha & Hc). exists i. split; [done|]. intros es'.
  assert (Hu : mounted (step (run mount es) EvUnmount) = false) by (simpl; by rewrite Hm).
  rewrite unmounted_active, unmounted_stays by done. split; [|done].
  simpl. rewrite Hm. simpl. rewrite Ha. by apply clear_captured_running.
Qed.

(** C31: Progress of a running timer: once started, each tick of the browser's
    live interval adds one second to [timeSpent], so after [k] ticks the
    page shows [k] seconds more, still running and still mounted. *)
Theorem timer_progress es k :
  mounted (run mount es) = true -> TaskDetails.timerRunning (page (run mount es)) = true ->
  exists i, active (run mount es) = [i] /\
    TaskDetails.timeSpent (page (run mount (es ++ repeat (EvTick i) k))) =
      TaskDetails.timeSpent (page (run mount es)) + Z.of_nat k /\
    TaskDetails.timerRunning (page (run mount (es ++ repeat (EvTick i) k))) = true /\
    mounted (run mount (es ++ repeat (EvTick i) k)) = true.
Proof.
  intros Hm Hr. destruct (run_timer_inv es Hm) as (_ & _ & _ & Hact). rewrite Hr in Hact.
  destruct Hact as (i & _ & Ha & _). exists i. split; [done|].
  assert (Hrun : run mount (es ++ repeat (EvTick i) k) = run (run mount es) (repeat (EvTick i) k))
    by (unfold run; apply fold_left_app).
  rewrite Hrun, ticks_run by done. simpl. by rewrite Hr, Hm.
Qed.

(** ** Witnesses *)

Lemma timer_single_interval_witness :
  mounted (run mount [EvToggle; EvToggle; EvToggle]) = true /\
  exists i, active (run mount [EvToggle; EvToggle; EvToggle]) = [i].
Proof.
  split; [reflexivity|]. apply (timer_single_interval [EvToggle; EvToggle; EvToggle]); reflexivity.
Defined.

(** Start, pause, start again, then leave the page: interval 2 keeps running. *)
Lemma timer_leaks_on_unmount_witness :
  TaskDetails.timerRunning (page (run mount [EvToggle; EvToggle; EvToggle])) = true /\
  exists i, active (run mount [EvToggle; EvToggle; EvToggle]) = [i] /\
    forall es', active (run (step (run mount [EvToggle; EvToggle; EvToggle]) EvUnmount) es') = [i] /\
                mounted (run (step (run mount [EvToggle; EvToggle; EvToggle]) EvUnmount) es') = false.
Proof.
  split; [reflexivity|]. apply timer_leaks_on_unmount; reflexivity.
Defined.

Lemma timer_progress_witness :
  TaskDetails.timeSpent (page (run mount ([EvToggle] ++ repeat (EvTick 1) 5))) = 5.
Proof.
  destruct (timer_progress [EvToggle] 5 eq_refl eq_refl) as (i & Hi & Ht & _).
  vm_compute in Hi. injection Hi as <-. rewrite Ht. reflexivity.
Defined.

End TaskTimer.
