(* ===== verification/Routes.v ===== *)
(** The route table of src/src/App.jsx, the links of
    src/src/components/Navbar.jsx and of the pages, and
    the application shell they make up: a location, the dark-mode flag, the
    session and [localStorage], moved by the handlers of the routed pages
    that navigate.  [ProtectedRoute], which App.jsx imports, is not a file
    of the repository; a protected route is recorded as such and its
    behaviour is not modelled. *)

From S2P Require Import Prelude Js Task Api Session CreateTask TaskDetails TasksTable TaskList Theme Layout.
Open Scope Z_scope.

Module Routes.

(** ** Paths *)

(** The non-empty segments of a path, as react-router splits it: empty
    segments (a leading, doubled or trailing ['/']) are dropped. *)
Definition flush (cur : list Ascii.ascii) : list string :=
  match cur with [] => [] | _ => [String.string_of_list_ascii (rev cur)] end.

Fixpoint split_path_acc (cur s : list Ascii.ascii) : list string :=
  match s with
  | [] => flush cur
  | c :: s' =>
      if Ascii.eqb c slash then flush cur ++ split_path_acc [] s'
      else split_path_acc (c :: cur) s'
  end.

Definition split_path (p : string) : list string :=
  split_path_acc [] (String.list_ascii_of_string p).

(** ** The table of App.jsx *)

Inductive page := PLogin | PRegister | PTasks | PAnalytics | PCreateTask | PTaskDetails.

(** A route's element: a page, wrapped in [ProtectedRoute] with the
    [Navbar] above it or not, or [<Navigate to=... />]. *)
Inductive element :=
| Page (protected : bool) (p : page)
| Redirect (to : string).

Inductive seg := Lit (s : string) | Param (name : string).

Definition route : Type := list seg * element.

Definition routes : list route :=
  [([Lit "login"], Page false PLogin);
   ([Lit "register"], Page false PRegister);
   ([], Redirect "/tasks");
   ([Lit "tasks"], Page true PTasks);
   ([Lit "analytics"], Page true PAnalytics);
   ([Lit "create-task"], Page true PCreateTask);
   ([Lit "task"; Param "id"], Page true PTaskDetails)].

(** A pattern against the segments of a path, with the values of its
    parameters. *)
Fixpoint match_segments (pat : list seg) (ss : list string)
    : option (list (string * string)) :=
  match pat, ss with
  | [], [] => Some []
  | Lit l :: pat', s :: ss' => if String.eqb l s then match_segments pat' ss' else None
  | Param x :: pat', s :: ss' => (fun ps => (x, s) :: ps) <$> match_segments pat' ss'
  | _, _ => None
  end.

Fixpoint resolve_in (rs : list route) (ss : list string)
    : option (element * list (string * string)) :=
  match rs with
  | [] => None
  | (pat, e) :: rs' =>
      match match_segments pat ss with
      | Some ps => Some (e, ps)
      | None => resolve_in rs' ss
      end
  end.

(** The element [<Routes>] renders at a location; [None] renders nothing. *)
Definition resolve (p : string) : option (element * list (string * string)) :=
  resolve_in routes (split_path p).

Definition resolves (p : string) : bool := bool_decide (is_Some (resolve p)).

(** The path an effect moves the location to. *)
Definition nav_target (e : effect) : option string :=
  match e with Navigate p | HardNavigate p => Some p | _ => None end.

Definition routed (effs : list effect) : bool :=
  forallb (fun e => match nav_target e with Some p => resolves p | None => true end) effs.

End Routes.

Module Navbar.

(** [isActive(path)]: [location.pathname === path]. *)
Definition isActive (pathname path : string) : bool := String.eqb pathname path.

Record link := mkLink { link_to : string; link_class : string }.

Definition nav_class (pathname path : string) : string :=
  "nav-link " +:+ (if isActive pathname path then "active" else "").

(** The brand link and the three navigation links, in document order. *)
Definition links (pathname : string) : list link :=
  [mkLink "/tasks" "navbar-brand";
   mkLink "/tasks" (nav_class pathname "/tasks");
   mkLink "/analytics" (nav_class pathname "/analytics");
   mkLink "/create-task" "nav-link create-btn"].

Inductive icon := Sun | Moon.

(** [{darkMode ? '☀️' : '🌙'}]. *)
Definition theme_icon (darkMode : bool) : icon := if darkMode then Sun else Moon.

(** [{user?.username}]: nothing for a missing user or name. *)
Definition user_name (st : Session.auth_state) : string :=
  match Session.user st with
  | Some u => match Session.username u with Some n => n | None => "" end
  | None => ""
  end.

(** The bar's markup at a location: the links with their classes, the
    theme icon and the user's name. *)
Record view := mkView { v_links : list link; v_icon : icon; v_user : string }.

Definition render (pathname : string) (darkMode : bool) (st : Session.auth_state) : view :=
  mkView (links pathname) (theme_icon darkMode) (user_name st).

End Navbar.

(** The navigations the routed pages start from a click. *)
Module PageLinks.

(** Tasks.jsx: a card opens [/task/${task.id}]; both "new task" buttons
    open [/create-task]. *)
Definition card_target (t : task) : string := "/task/" +:+ show_Z (task_id t).
Definition create_target : string := "/create-task".

(** TaskDetails.jsx: the back buttons of the error and the loaded views. *)
Definition back_target : string := "/tasks".

End PageLinks.

Module Shell.
Import Routes.

(** The page [<Routes>] shows at a location, once [<Navigate>] has replaced
    the location it renders at. *)
Definition land (p : string) : string :=
  match resolve p with Some (Redirect q, _) => q | _ => p end.

Definition page_at (p : string) : option page :=
  match resolve p with Some (Page _ pg, _) => Some pg | _ => None end.

(** The [Navbar] is rendered by the protected routes only. *)
Definition navbar_shown (p : string) : bool :=
  match resolve p with Some (Page true _, _) => true | _ => false end.

Record app := mkApp {
  pathname : string;
  darkMode : bool;
  auth : Session.auth_state;
  store : storage;
}.

(** One effect: [navigate(p)] moves the location; [window.location.href = p]
    reloads, so [App] and [AuthProvider] mount again from [localStorage]
    (the dark-mode effect writing the flag back). *)
Definition follow1 (a : app) (e : effect) : app :=
  match e with
  | Navigate p => mkApp (land p) (darkMode a) (auth a) (store a)
  | HardNavigate p =>
      mkApp (land p) (AppTheme.init (store a)) (Session.provider_init (store a))
        (AppTheme.persist (AppTheme.init (store a)) (store a))
  | _ => a
  end.

Definition follow (effs : list effect) (a : app) : app := fold_left follow1 effs a.

Definition go (p : string) (a : app) : app := follow [Navigate p] a.

(** Clicks are handled on the page that renders their button; the replies
    of requests settle whatever the location is by then. *)
Inductive step : app -> app -> Prop :=
| StepLink a l :
    navbar_shown (pathname a) = true -> In l (Navbar.links (pathname a)) ->
    step a (go (Navbar.link_to l) a)
| StepToggle a :
    navbar_shown (pathname a) = true ->
    step a (mkApp (pathname a) (AppTheme.toggleDarkMode (darkMode a)) (auth a)
              (AppTheme.persist (AppTheme.toggleDarkMode (darkMode a)) (store a)))
| StepLogout a :
    navbar_shown (pathname a) = true ->
    step a (let '(st, σ, effs) := Session.logout (auth a) (store a) in
            follow effs (mkApp (pathname a) (darkMode a) st σ))
| StepCredential a fallback o :
    step a (let '(st, σ, effs, _) := Session.credential_reply fallback o (auth a) (store a) in
            follow effs (mkApp (pathname a) (darkMode a) st σ))
| StepApi (A : Type) a (o : fetch_outcome A) :
    step a (let '(σ, effs, _) := Api.api_resume o (store a) in
            follow effs (mkApp (pathname a) (darkMode a) (auth a) σ))
| StepCreated a o pg :
    step a (follow (CreateTask.handleSubmit_reply o pg).2 a)
| StepCancel a :
    page_at (pathname a) = Some PCreateTask -> step a (follow CreateTask.handleCancel a)
| StepDeleted (A : Type) a (o : fetch_outcome A) :
    step a (follow (TaskDetails.handleDelete_reply o) a)
| StepCard a t :
    page_at (pathname a) = Some PTasks -> step a (go (PageLinks.card_target t) a)
| StepCreateButton a :
    page_at (pathname a) = Some PTasks -> step a (go PageLinks.create_target a)
| StepBack a :
    page_at (pathname a) = Some PTaskDetails -> step a (go PageLinks.back_target a).

(** [App] mounted at the location [p] the browser opened, with the
    storage [σ]: the dark-mode flag read and written back, the provider's
    initial state. *)
Definition init (p : string) (σ : storage) : app :=
  mkApp (land p) (AppTheme.init σ) (Session.provider_init σ) (AppTheme.persist (AppTheme.init σ) σ).

(** [useParams()]: the parameters of the route matched at a location. *)
Definition param (p x : string) : option string :=
  match resolve p with
  | Some (_, ps) => (list_to_map ps : gmap string string) !! x
  | None => None
  end.

(** The request the [TaskDetails] page sends when it mounts at the
    location: [fetchTaskDetails] with the [id] of [useParams()]. *)
Definition details_request (a : app) : option (request TaskDetails.body) :=
  match page_at (pathname a), param (pathname a) "id" with
  | Some PTaskDetails, Some id => Some (TaskDetails.fetchTaskDetails_request id (store a))
  | _, _ => None
  end.

End Shell.

(** ** Resolution of the paths the pages build *)

Module RouteFacts.
Import Routes Shell.

Create HintDb routes.

Lemma split_no_slash l cur :
  Forall (fun c => c <> slash) l -> cur ++ l <> [] ->
  split_path_acc cur l = [String.string_of_list_ascii (rev cur ++ l)].
Proof.
  revert cur; induction l as [|c l IH]; intros cur Hl Hne; simpl.
  - destruct cur; [done|]. by rewrite app_nil_r.
  - inversion Hl as [|? ? Hc Hl']; subst. rewrite (proj2 (Ascii.eqb_neq _ _) Hc).
    rewrite IH; [|done|by destruct cur]. simpl. by rewrite <- app_assoc.
Qed.

Lemma split_path_acc_slash x l cur :
  split_path_acc cur ((x ++ [slash]) ++ l) =
  split_path_acc cur (x ++ [slash]) ++ split_path_acc [] l.
Proof.
  revert cur; induction x as [|c x IH]; intros cur; cbn [List.app split_path_acc].
  - rewrite Ascii.eqb_refl. by rewrite !app_nil_r.
  - destruct (Ascii.eqb c slash); [rewrite !IH; by rewrite app_assoc|apply IH].
Qed.

(** A prefix that ends in ['/'] followed by one segment. *)
Lemma resolve_prefixed pre s :
  last (String.list_ascii_of_string pre) = Some slash ->
  String.list_ascii_of_string s <> [] ->
  Forall (fun c => c <> slash) (String.list_ascii_of_string s) ->
  resolve (pre +:+ s) = resolve_in routes (split_path pre ++ [s]).
Proof.
  intros Hl Hne Hs. apply last_Some in Hl as [x Hx].
  unfold resolve, split_path. rewrite list_ascii_of_string_app, Hx, split_path_acc_slash.
  rewrite (split_no_slash (String.list_ascii_of_string s) []) by done. cbn [rev List.app]. by rewrite String.string_of_list_ascii_of_string.
Qed.

Lemma resolve_prefixed_Z pre i :
  last (String.list_ascii_of_string pre) = Some slash ->
  resolve (pre +:+ show_Z i) = resolve_in routes (split_path pre ++ [show_Z i]).
Proof. intros Hl. destruct (show_Z_chars i). by apply resolve_prefixed. Qed.

Lemma resolve_task_id i :
  resolve ("/task/" +:+ show_Z i) = Some (Page true PTaskDetails, [("id", show_Z i)]).
Proof. by rewrite resolve_prefixed_Z. Qed.

Lemma resolves_task_id i : resolves ("/task/" +:+ show_Z i) = true.
Proof. unfold resolves. rewrite resolve_task_id. by apply bool_decide_eq_true. Qed.

Lemma resolve_in_sound rs ss e ps :
  resolve_in rs ss = Some (e, ps) -> exists pat, In (pat, e) rs /\ match_segments pat ss = Some ps.
Proof.
  induction rs as [|[pat e'] rs IH]; simpl; [done|].
  destruct (match_segments pat ss) eqn:E; [intros [= <- <-]; eauto|].
  intros H. destruct (IH H) as (pat' & ? & ?). eauto.
Qed.

(** No path matches two routes of the table, so the first match
    [resolve_in] takes is the one react-router's ranking picks. *)
Lemma routes_unambiguous ss pat1 e1 pat2 e2 :
  In (pat1, e1) routes -> In (pat2, e2) routes ->
  is_Some (match_segments pat1 ss) -> is_Some (match_segments pat2 ss) -> pat1 = pat2.
Proof.
  intros H1 H2 [ps1 M1] [ps2 M2]. revert M1 M2. simpl in H1, H2.
  repeat destruct H1 as [H1|H1]; try done; repeat destruct H2 as [H2|H2]; try done;
    simplify_eq; try done;
    destruct ss as [|s [|s' ss]]; cbn [match_segments]; try done;
    repeat match goal with
    | |- context [String.eqb ?a ?b] => destruct (String.eqb_spec a b); subst; cbn [match_segments]
    end; try done; by intros [=].
Qed.

(** The only redirect of the table leads to a page. *)
Lemma land_page p : resolves p = true -> is_Some (page_at (land p)).
Proof.
  unfold resolves, land, page_at. rewrite bool_decide_eq_true.
  destruct (resolve p) as [[[prot pg|q] ps]|] eqn:E; [by rewrite E| |by intros []].
  intros _. apply resolve_in_sound in E as (pat & Hin & _).
  simpl in Hin. assert (q = "/tasks") as -> by naive_solver. exists PTasks. reflexivity.
Qed.

Lemma routed_cons e effs :
  routed (e :: effs) = true <->
  (forall p, nav_target e = Some p -> resolves p = true) /\ routed effs = true.
Proof.
  unfold routed; simpl. rewrite andb_true_iff.
  destruct (nav_target e); naive_solver.
Qed.

Lemma follow_page effs a :
  routed effs = true -> is_Some (page_at (pathname a)) -> is_Some (page_at (pathname (follow effs a))).
Proof.
  revert a; induction effs as [|e effs IH]; intros a Hr Ha; [done|].
  apply routed_cons in Hr as [He Hr]. apply IH; [done|].
  destruct e; simpl in *; try done; apply land_page, He; done.
Qed.

(** The handlers that navigate name paths of the table. *)
Lemma logout_routed st σ : routed (Session.logout st σ).2 = true.
Proof. by vm_compute. Qed.

Lemma credential_reply_routed fb o st σ :
  routed (Session.credential_reply fb o st σ).1.2 = true.
Proof. unfold Session.credential_reply. by repeat case_match; vm_compute. Qed.

Lemma api_resume_routed {A} (o : fetch_outcome A) σ : routed (Api.api_resume o σ).1.2 = true.
Proof. unfold Api.api_resume. by repeat case_match; vm_compute. Qed.

Lemma handleSubmit_reply_routed o pg : routed (CreateTask.handleSubmit_reply o pg).2 = true.
Proof.
  unfold CreateTask.handleSubmit_reply. repeat case_match; try by vm_compute.
  simpl. by rewrite resolves_task_id.
Qed.

Lemma handleDelete_reply_routed {A} (o : fetch_outcome A) :
  routed (TaskDetails.handleDelete_reply o) = true.
Proof. unfold TaskDetails.handleDelete_reply. by repeat case_match; vm_compute. Qed.

Lemma go_page p a : resolves p = true -> is_Some (page_at (pathname (go p a))).
Proof. apply land_page. Qed.

#[export] Hint Resolve logout_routed credential_reply_routed api_resume_routed
  handleSubmit_reply_routed handleDelete_reply_routed : routes.

Lemma step_page a a' : step a a' -> is_Some (page_at (pathname a)) -> is_Some (page_at (pathname a')).
Proof.
  intros Hs Ha. destruct Hs as [a l _ Hl|a _|a _|a fb o|A a o|a o pg|a _|A a o|a t _|a _|a _].
  - apply go_page. simpl in Hl. by repeat destruct Hl as [<-|Hl]; try vm_compute.
  - done.
  - pose proof (logout_routed (auth a) (store a)).
    destruct (Session.logout _ _) as [[st σ] effs]. by apply follow_page.
  - pose proof (credential_reply_routed fb o (auth a) (store a)).
    destruct (Session.credential_reply _ _ _ _) as [[[st σ] effs] r]. by apply follow_page.
  - pose proof (api_resume_routed o (store a)).
    destruct (Api.api_resume _ _) as [[σ effs] r]. by apply follow_page.
  - by apply follow_page; auto with routes.
  - by apply follow_page; [vm_compute|].
  - by apply follow_page; auto with routes.
  - apply go_page, resolves_task_id.
  - apply go_page. by vm_compute.
  - apply go_page. by vm_compute.
Qed.

End RouteFacts.

Module RouteTheorems.
Import Routes Shell RouteFacts.

Lemma rtc_step_page a a' :
  rtc step a a' -> is_Some (page_at (pathname a)) -> is_Some (page_at (pathname a')).
Proof. induction 1; eauto using step_page. Qed.

Lemma details_request_task i a :
  details_request (go ("/task/" +:+ show_Z i) a) =
  Some (TaskDetails.fetchTaskDetails_request (show_Z i) (store a)).
Proof.
  assert (Hl : land ("/task/" +:+ show_Z i) = "/task/" +:+ show_Z i)
    by (unfold land; by rewrite resolve_task_id).
  unfold details_request, go, follow; simpl. rewrite Hl.
  unfold page_at, param. by rewrite resolve_task_id.
Qed.

(** C12: Every location the application shell reaches from a location the
    route table resolves shows a page: the targets of the Navbar links, of
    the pages' buttons and of every navigation the session, the API
    helpers, task creation and task deletion perform after their requests
    settle are routes of App.jsx, and the root's redirect lands on one. *)
Theorem shell_stays_routed p σ a :
  resolves p = true -> rtc step (init p σ) a -> is_Some (page_at (pathname a)).
Proof. intros Hp Hr. eapply rtc_step_page; [exact Hr|]. by apply land_page. Qed.

(** C13: The path that opens a task, from a card of the Tasks page or after
    the task is created, resolves to the TaskDetails route with the task's
    id, rendered by [String], as its [:id] parameter, so the page fetches
    that task; a created task whose reply has no [id] opens
    /task/undefined, and the page fetches /tasks/undefined. *)
Theorem open_task_fetches a t response data pg :
  details_request (go (PageLinks.card_target t) a) =
    Some (TaskDetails.fetchTaskDetails_request (show_Z (task_id t)) (store a)) /\
  (res_ok response = true -> res_body response = JsonOk data ->
   details_request (follow (CreateTask.handleSubmit_reply (Responded response) pg).2 a) =
     Some (TaskDetails.fetchTaskDetails_request
             (match CreateTask.created_id data with Some i => show_Z i | None => "undefined" end)
             (store a))).
Proof.
  split.
  - apply details_request_task.
  - intros Hok Hb. unfold CreateTask.handleSubmit_reply. rewrite Hok, Hb. simpl.
    destruct (CreateTask.created_id data) as [i|]; simpl.
    + change (details_request (go ("/task/" +:+ show_Z i) a) =
              Some (TaskDetails.fetchTaskDetails_request (show_Z i) (store a))).
      apply details_request_task.
    + by vm_compute.
Qed.

(** C40: The Edit and Delete links of every TasksTable row, the edit target
    of every TaskList row, and the Create, Board and Dashboard links of
    the Sidebar name no route of App.jsx: following any of them renders
    nothing. *)
Theorem dead_links now t st rows :
  resolve (TasksTable.row_edit (TasksTable.render_row now t)) = None /\
  resolve (TasksTable.row_delete (TasksTable.render_row now t)) = None /\
  (TaskList.render st = TaskList.VTable rows -> Forall (fun r => resolve r.2 = None) rows) /\
  filter (fun p => resolves p = true) Sidebar.links = ["/tasks"].
Proof.
  split_and!; [simpl; by rewrite resolve_prefixed_Z..| |by vm_compute].
  unfold TaskList.render. repeat case_match; intros [= <-]; try done.
  apply Forall_forall. intros r Hr%list_elem_of_In.
  destruct Hr as [<-|(t' & <- & _)%in_map_iff]; simpl; by rewrite resolve_prefixed_Z.
Qed.

Lemma shell_stays_routed_witness :
  resolves "/" = true /\ is_Some (page_at (pathname (go "/analytics" (init "/" ∅)))).
Proof.
  split; [by vm_compute|].
  apply (shell_stays_routed "/" ∅); [by vm_compute|].
  apply rtc_once.
  apply (StepLink (init "/" ∅) (Navbar.mkLink "/analytics" (Navbar.nav_class "/tasks" "/analytics")));
    [by vm_compute|vm_compute; auto].
Defined.

Lemma open_task_fetches_witness :
  details_request
    (follow (CreateTask.handleSubmit_reply
               (Responded (mkResponse 201 (JsonOk (CreateTask.mkCreated (Some 42)))))
               CreateTask.initial_page).2 (init "/create-task" ∅)) =
  Some (TaskDetails.fetchTaskDetails_request "42" (store (init "/create-task" ∅))).
Proof.
  exact (proj2 (open_task_fetches (init "/create-task" ∅) (mkTask 42 [] None "TODO" "LOW" None [] [])
                  (mkResponse 201 (JsonOk (CreateTask.mkCreated (Some 42))))
                  (CreateTask.mkCreated (Some 42)) CreateTask.initial_page)
           eq_refl eq_refl).
Defined.

Lemma dead_links_witness :
  TaskList.render (TaskList.mkState (Some [mkTask 7 [] None "TODO" "LOW" None [] []]) false) =
    TaskList.VTable [(7, "/tasks/edit/7")] /\
  Forall (fun r => resolve r.2 = None) [(7, "/tasks/edit/7")].
Proof.
  split; [reflexivity|].
  exact (proj1 (proj2 (proj2 (dead_links 0 (mkTask 7 [] None "TODO" "LOW" None [] [])
    (TaskList.mkState (Some [mkTask 7 [] None "TODO" "LOW" None [] []]) false) _)))
    eq_refl).
Defined.

End RouteTheorems.
